(** * Paperwrite.RocketRouter: the templated-path router

    A shallow embedding of [src/Paperwrite/RocketRouter.py]: the variable
    type registry ([RocketPathVariableTypes]), the method table
    ([HttpApiMethods]), the route table and [RocketRouter.Mount] /
    [RocketRouter.Match].

    Python objects that the router mutates ([self.routes], a route's
    [FunctionsLookup]) are threaded through a small state-and-exception
    monad; a raised exception keeps the state reached at the [raise].

    Characters are 8-bit (code points 0..255).  The standard-library
    functions the router calls ([str.split], [int], [float], [re.compile],
    [Pattern.match]) are modelled in the modules [Py] and [Re]. *)

From Stdlib Require Import List String Ascii ZArith NArith Bool Arith Lia Permutation.
From Stdlib Require Import DecimalString.
Import ListNotations.

Local Open Scope string_scope.
Local Open Scope list_scope.

(* ------------------------------------------------------------------ *)
(** ** Python built-ins on [str] *)

Module Py.

(** [s.split(sep)] for a one-character separator: never returns the empty
    list, [''.split('/') == ['']]. *)
Fixpoint split (sep : ascii) (s : string) : list string :=
  match s with
  | EmptyString => [EmptyString]
  | String c s' =>
      if Ascii.eqb c sep then EmptyString :: split sep s'
      else match split sep s' with
           | [] => [String c EmptyString]
           | w :: ws => String c w :: ws
           end
  end.

(** [sep.join(l)] *)
Definition join (sep : string) (l : list string) : string := String.concat sep l.

(** [s.startswith(p)] *)
Definition startswith (s p : string) : bool := String.prefix p s.

Fixpoint drop_last (s : string) : string :=
  match s with
  | EmptyString => EmptyString
  | String c s' =>
      match s' with
      | EmptyString => EmptyString
      | String _ _ => String c (drop_last s')
      end
  end.

(** [s[1:-1]] *)
Definition slice_1_m1 (s : string) : string :=
  match s with
  | EmptyString => EmptyString
  | String _ s' => drop_last s'
  end.

Definition code (c : ascii) : N := N_of_ascii c.

Definition between (lo hi c : ascii) : bool :=
  ((code lo <=? code c) && (code c <=? code hi))%N.

Definition is_digit (c : ascii) : bool := between "0" "9" c.
Definition is_lower (c : ascii) : bool := between "a" "z" c.
Definition is_upper (c : ascii) : bool := between "A" "Z" c.
Definition is_alnum (c : ascii) : bool := is_digit c || is_lower c || is_upper c.

Definition upper_char (c : ascii) : ascii :=
  if is_lower c then ascii_of_N (code c - 32) else c.

(** [s.upper()] on the ASCII letters.  The other 8-bit characters are left
    as they are; none of them is mapped by Python to an ASCII letter that
    could complete one of the type names looked up by [FromStr]. *)
Fixpoint upper (s : string) : string :=
  match s with
  | EmptyString => EmptyString
  | String c s' => String (upper_char c) (upper s')
  end.

(** White space skipped by [int] and [float] around the literal: the ASCII
    white space of C, and the two 8-bit Unicode spaces U+0085 and U+00A0. *)
Definition is_space (c : ascii) : bool :=
  let n := code c in
  ((9 <=? n) && (n <=? 13) || (n =? 32) || (n =? 133) || (n =? 160))%N.

Fixpoint lstrip (s : string) : string :=
  match s with
  | EmptyString => EmptyString
  | String c s' => if is_space c then lstrip s' else s
  end.

Fixpoint rstrip (s : string) : string :=
  match s with
  | EmptyString => EmptyString
  | String c s' =>
      match rstrip s' with
      | EmptyString => if is_space c then EmptyString else String c EmptyString
      | t => String c t
      end
  end.

Definition strip (s : string) : string := rstrip (lstrip s).

(** A [digitpart]: decimal digits, single underscores allowed between two
    digits.  [digitpart acc s] reads the longest one at the start of [s] and
    returns its value (continuing [acc]) and the rest; [None] when [s] does
    not start with a digit. *)
Fixpoint digits_tail (acc : Z) (s : string) : Z * string :=
  match s with
  | String c s' =>
      if is_digit c then digits_tail (10 * acc + Z.of_N (code c - 48)) s'
      else if Ascii.eqb c "_" then
        match s' with
        | String d s'' =>
            if is_digit d then digits_tail (10 * acc + Z.of_N (code d - 48)) s''
            else (acc, s)
        | EmptyString => (acc, s)
        end
      else (acc, s)
  | EmptyString => (acc, s)
  end.

Definition digitpart (s : string) : option (Z * string) :=
  match s with
  | String c s' =>
      if is_digit c then Some (digits_tail (Z.of_N (code c - 48)) s') else None
  | EmptyString => None
  end.

(** An optional sign: the factor and the rest. *)
Definition sign (s : string) : Z * string :=
  match s with
  | String "-" s' => ((-1)%Z, s')
  | String "+" s' => (1%Z, s')
  | _ => (1%Z, s)
  end.

(** The number of decimal digits of a literal; underscores do not count. *)
Fixpoint count_digits (s : string) : nat :=
  match s with
  | EmptyString => 0
  | String c s' => (if is_digit c then 1 else 0) + count_digits s'
  end.

(** [sys.int_max_str_digits] at its default: a decimal literal with more
    digits than this is refused by [int] (CPython 3.11, and the releases
    before it that carry the same limit). *)
Definition int_max_str_digits : nat := 4300.

(** [int(s)] for a [str] argument, base 10; [None] stands for the
    [ValueError] that [int] raises, for a string that is no literal and for
    a literal of more than [int_max_str_digits] digits. *)
Definition int (s : string) : option Z :=
  let (sg, body) := sign (strip s) in
  match digitpart body with
  | Some (v, EmptyString) =>
      if Nat.leb (count_digits body) int_max_str_digits then Some (sg * v)%Z else None
  | _ => None
  end.

Definition lower_char (c : ascii) : ascii :=
  if is_upper c then ascii_of_N (code c + 32) else c.

Fixpoint lower (s : string) : string :=
  match s with
  | EmptyString => EmptyString
  | String c s' => String (lower_char c) (lower s')
  end.

(** The exponent of a float literal, if one starts here. *)
Definition exponent_ok (s : string) : bool :=
  match s with
  | EmptyString => true
  | String e s' =>
      if Ascii.eqb (lower_char e) "e" then
        match digitpart (snd (sign s')) with
        | Some (_, EmptyString) => true
        | _ => false
        end
      else false
  end.

(** The unsigned part of a float literal: [inf], [infinity], [nan], or
    [digitpart ["." [digitpart]] [exponent]] or ["." digitpart [exponent]]. *)
Definition floatnumber_ok (s : string) : bool :=
  let l := lower s in
  if String.eqb l "inf" || String.eqb l "infinity" || String.eqb l "nan" then true
  else
    match digitpart s with
    | Some (_, String "." r) =>
        match digitpart r with
        | Some (_, r') => exponent_ok r'
        | None => exponent_ok r
        end
    | Some (_, r) => exponent_ok r
    | None =>
        match s with
        | String "." r =>
            match digitpart r with
            | Some (_, r') => exponent_ok r'
            | None => false
            end
        | _ => false
        end
    end.

(** [float(s)]: the model decides which strings [float] accepts and keeps
    the accepted literal; the rounding to a binary64 value is not modelled.
    [None] stands for [ValueError]. *)
Definition float (s : string) : option string :=
  let t := strip s in
  if floatnumber_ok (snd (sign t)) then Some t else None.

End Py.

(* ------------------------------------------------------------------ *)
(** ** Regular expressions: [re.compile] and [Pattern.match]

    The fragment of Python's pattern language that templates of the router
    produce: literal characters, [.], character sets with ranges, the class
    [\d], escaped punctuation, the repeats [?], [*], [+], [{m}], [{m,n}] on a
    single character, and alternation at the top.  A pattern that uses
    anything else (groups, anchors, other escapes, lazy repeats) is reported
    as [Unsupported]: the model says nothing about it. *)

Module Re.

Import Py.

(** One character of input. *)
Inductive atom : Type :=
| LITERAL (c : ascii)
| ANY
| IN (negate : bool) (ranges : list (ascii * ascii)).

(** An element of a sequence: an atom, or a greedy repeat of an atom
    ([hi = None] is unbounded). *)
Inductive item : Type :=
| ONE (a : atom)
| MAX_REPEAT (lo : N) (hi : option N) (a : atom).

Definition branch : Type := list item.

(** The alternatives of a pattern, in the order written. *)
Definition program : Type := list branch.

Inductive compiled : Type :=
| Compiled (p : program)
| Error                      (* [re.error] *)
| Unsupported.               (* outside the modelled fragment *)

Definition MAXREPEAT : N := 4294967295.

(** *** Parsing *)

(** [\e] outside a set. *)
Definition escape (e : ascii) : option atom :=
  if Ascii.eqb e "d" then Some (IN false [("0", "9")%char])
  else if is_alnum e then None
  else Some (LITERAL e).

(** A member of a set: a literal or the class [\d]. *)
Inductive member : Type :=
| MLit (c : ascii)
| MDigit.

Definition member_ranges (m : member) : ascii * ascii :=
  match m with
  | MLit c => (c, c)
  | MDigit => ("0", "9")%char
  end.

Inductive member_result : Type :=
| MemberOk (m : member) (rest : string)
| MemberError
| MemberUnsupported.

Definition set_member (s : string) : member_result :=
  match s with
  | EmptyString => MemberError
  | String c rest =>
      if Ascii.eqb c "\" then
        match rest with
        | EmptyString => MemberError
        | String e rest' =>
            if Ascii.eqb e "d" then MemberOk MDigit rest'
            else if is_alnum e then MemberUnsupported
            else MemberOk (MLit e) rest'
        end
      else MemberOk (MLit c) rest
  end.

Inductive set_result : Type :=
| SetOk (ranges : list (ascii * ascii)) (rest : string)
| SetError
| SetUnsupported.

(** The members of a set up to the closing bracket; [acc] holds the members
    read so far, last first.  A bracket that comes first is a member. *)
Fixpoint parse_set (fuel : nat) (s : string) (acc : list (ascii * ascii))
  : set_result :=
  match fuel with
  | O => SetUnsupported
  | S fuel' =>
      match s with
      | EmptyString => SetError
      | String c _ =>
          if Ascii.eqb c "]" && negb (Nat.eqb (List.length acc) 0) then
            SetOk (rev acc) (match s with String _ r => r | _ => s end)
          else
            match set_member s with
            | MemberError => SetError
            | MemberUnsupported => SetUnsupported
            | MemberOk m1 rest1 =>
                match rest1 with
                | String "-" EmptyString => SetError
                | String "-" (String "]" rest3) =>
                    SetOk (rev (("-", "-")%char :: member_ranges m1 :: acc)) rest3
                | String "-" rest2 =>
                    match set_member rest2 with
                    | MemberError => SetError
                    | MemberUnsupported => SetUnsupported
                    | MemberOk m2 rest3 =>
                        match m1, m2 with
                        | MLit lo, MLit hi =>
                            if (code hi <? code lo)%N then SetError
                            else parse_set fuel' rest3 ((lo, hi) :: acc)
                        | _, _ => SetError
                        end
                    end
                | _ => parse_set fuel' rest1 (member_ranges m1 :: acc)
                end
            end
      end
  end.

(** The longest run of decimal digits at the start of [s], as a number
    ([None] when there is none), and the rest. *)
Fixpoint digits (acc : option N) (s : string) : option N * string :=
  match s with
  | String c s' =>
      if is_digit c then
        digits (Some (10 * match acc with Some n => n | None => 0 end
                      + (code c - 48))%N) s'
      else (acc, s)
  | EmptyString => (acc, s)
  end.

Inductive brace_result : Type :=
| BraceRepeat (lo : N) (hi : option N) (rest : string)
| BraceLiteral               (* the brace is an ordinary character *)
| BraceError
| BraceUnsupported.

(** What follows an opening brace. *)
Definition parse_brace (s : string) : brace_result :=
  match s with
  | String "}" _ => BraceLiteral
  | _ =>
      let (lo, r1) := digits None s in
      let '(hi, r2) :=
        match r1 with
        | String "," r => digits None r
        | _ => (lo, r1)
        end in
      match r2 with
      | String "}" rest =>
          let mn := match lo with Some n => n | None => 0%N end in
          match hi with
          | Some mx =>
              if (MAXREPEAT <=? mn)%N || (MAXREPEAT <=? mx)%N then BraceUnsupported
              else if (mx <? mn)%N then BraceError
              else BraceRepeat mn (Some mx) rest
          | None =>
              if (MAXREPEAT <=? mn)%N then BraceUnsupported
              else BraceRepeat mn None rest
          end
      | _ => BraceLiteral
      end
  end.

(** Apply a repeat to the last item of the current sequence ([cur] holds
    it first).  A character [?] or [+] after the repeat would make it lazy or
    possessive. *)
Definition repeat_last (lo : N) (hi : option N) (cur : list item) (rest : string)
  : option (option (list item)) :=
  match cur with
  | [] => Some None                          (* nothing to repeat *)
  | MAX_REPEAT _ _ _ :: _ => Some None       (* multiple repeat *)
  | ONE a :: cur' =>
      match rest with
      | String "?" _ => None
      | String "+" _ => None
      | _ => Some (Some (MAX_REPEAT lo hi a :: cur'))
      end
  end.

(** The parser: [cur] is the current sequence, last item first; [done] are
    the finished alternatives, last first. *)
Fixpoint parse (fuel : nat) (src : string) (cur : list item) (done : list branch)
  : compiled :=
  match fuel with
  | O => Unsupported
  | S fuel' =>
      let again lo hi rest :=
        match repeat_last lo hi cur rest with
        | None => Unsupported
        | Some None => Error
        | Some (Some cur') => parse fuel' rest cur' done
        end in
      match src with
      | EmptyString => Compiled (rev (rev cur :: done))
      | String c rest =>
          if Ascii.eqb c "|" then parse fuel' rest [] (rev cur :: done)
          else if Ascii.eqb c ")" then Error
          else if Ascii.eqb c "(" || Ascii.eqb c "^" || Ascii.eqb c "$" then Unsupported
          else if Ascii.eqb c "\" then
            match rest with
            | EmptyString => Error
            | String e rest' =>
                match escape e with
                | Some a => parse fuel' rest' (ONE a :: cur) done
                | None => Unsupported
                end
            end
          else if Ascii.eqb c "[" then
            let (negate, body) :=
              match rest with
              | String "^" r => (true, r)
              | _ => (false, rest)
              end in
            match parse_set (S (String.length body)) body [] with
            | SetOk ranges rest' => parse fuel' rest' (ONE (IN negate ranges) :: cur) done
            | SetError => Error
            | SetUnsupported => Unsupported
            end
          else if Ascii.eqb c "." then parse fuel' rest (ONE ANY :: cur) done
          else if Ascii.eqb c "?" then again 0%N (Some 1%N) rest
          else if Ascii.eqb c "*" then again 0%N None rest
          else if Ascii.eqb c "+" then again 1%N None rest
          else if Ascii.eqb c "{" then
            match parse_brace rest with
            | BraceRepeat lo hi rest' => again lo hi rest'
            | BraceLiteral => parse fuel' rest (ONE (LITERAL c) :: cur) done
            | BraceError => Error
            | BraceUnsupported => Unsupported
            end
          else parse fuel' rest (ONE (LITERAL c) :: cur) done
      end
  end.

(** A compiled pattern object.  Two pattern objects are equal, and hash
    alike, when their sources are (the flags are always the default). *)
Record Pattern : Type := mkPattern {
  pattern : string;
  prog : program
}.

Definition Pattern_eqb (p q : Pattern) : bool := String.eqb (pattern p) (pattern q).

Inductive compile_result : Type :=
| CompileOk (p : Pattern)
| CompileError
| CompileUnsupported.

(** [re.compile(src)] *)
Definition compile (src : string) : compile_result :=
  match parse (S (String.length src)) src [] [] with
  | Compiled p => CompileOk (mkPattern src p)
  | Error => CompileError
  | Unsupported => CompileUnsupported
  end.

(** *** Matching *)

Definition in_range (c : ascii) (r : ascii * ascii) : bool :=
  between (fst r) (snd r) c.

Definition atom_matches (a : atom) (c : ascii) : bool :=
  match a with
  | LITERAL x => Ascii.eqb x c
  | ANY => negb (Ascii.eqb c "010")
  | IN negate ranges => xorb negate (existsb (in_range c) ranges)
  end.

(** A greedy repeat followed by the continuation [k]: take one more
    character when allowed, otherwise (or on failure) give back. *)
Fixpoint match_repeat (a : atom) (k : string -> bool) (lo : N) (hi : option N)
    (s : string) {struct s} : bool :=
  match s with
  | String c s' =>
      match hi with
      | Some 0%N => false
      | _ => atom_matches a c && match_repeat a k (N.pred lo) (option_map N.pred hi) s'
      end
  | EmptyString => false
  end
  || ((lo =? 0)%N && k s).

(** Does the sequence match at the start of [s]?  What follows the match in
    [s] is not looked at. *)
Fixpoint match_items (its : list item) (s : string) {struct its} : bool :=
  match its with
  | [] => true
  | ONE a :: its' =>
      match s with
      | String c s' => atom_matches a c && match_items its' s'
      | EmptyString => false
      end
  | MAX_REPEAT lo hi a :: its' => match_repeat a (match_items its') lo hi s
  end.

(** [p.match(s) is not None]: some alternative matches at the start of [s]. *)
Definition matches (p : Pattern) (s : string) : bool :=
  existsb (fun br => match_items br s) (prog p).

(** Every character of [s] satisfies [P]. *)
Fixpoint all_chars (P : ascii -> bool) (s : string) : bool :=
  match s with
  | EmptyString => true
  | String c s' => P c && all_chars P s'
  end.

(** *** The language of a pattern *)

Definition at_most (hi : option N) (n : N) : Prop :=
  match hi with
  | None => True
  | Some h => (n <= h)%N
  end.

(** The strings a sequence of items describes. *)
Inductive seq_lang : list item -> string -> Prop :=
| lang_nil : seq_lang [] EmptyString
| lang_one a c its w :
    atom_matches a c = true -> seq_lang its w ->
    seq_lang (ONE a :: its) (String c w)
| lang_repeat lo hi a its u w :
    all_chars (atom_matches a) u = true ->
    (lo <= N.of_nat (String.length u))%N -> at_most hi (N.of_nat (String.length u)) ->
    seq_lang its w ->
    seq_lang (MAX_REPEAT lo hi a :: its) (u ++ w).

(** The strings a pattern describes: those of one of its alternatives. *)
Definition lang (p : Pattern) (w : string) : Prop :=
  exists br, In br (prog p) /\ seq_lang br w.

(** *** Patterns without special characters *)

(** The characters that the pattern language gives a meaning to. *)
Definition special (c : ascii) : bool :=
  existsb (Ascii.eqb c) (list_ascii_of_string ".\[{()*+?^$|").

(** A string free of special characters. *)
Definition plain (s : string) : bool := all_chars (fun c => negb (special c)) s.

(** The sequence that matches a string character by character. *)
Fixpoint literal_items (s : string) : list item :=
  match s with
  | EmptyString => []
  | String c s' => ONE (LITERAL c) :: literal_items s'
  end.

End Re.

(* ------------------------------------------------------------------ *)
(** ** Exceptions and mutable state *)

Inductive Exception : Type :=
| ValueError                         (* failed unpacking, [int], [float] *)
| IndexError                         (* list index out of range *)
| NotSupportedError (msg : string)   (* Paperwrite.PyAdditions.Errors *)
| re_error.                          (* [re.error] *)

(** How a call ends: it returns, it raises, or it leaves the modelled
    fragment of [re].  In the last case nothing is known of the call: the
    state that comes with [Unmodelled] stands for no state of the program. *)
Inductive outcome (A : Type) : Type :=
| Return (a : A)
| Raise (e : Exception)
| Unmodelled.

Arguments Return {A} a.
Arguments Raise {A} e.
Arguments Unmodelled {A}.

(** A computation on a mutable object of type [S]. *)
Definition M (S A : Type) : Type := S -> outcome A * S.

Definition ret {S A : Type} (a : A) : M S A := fun s => (Return a, s).

Definition raise {S A : Type} (e : Exception) : M S A := fun s => (Raise e, s).

Definition bind {S A B : Type} (c : M S A) (k : A -> M S B) : M S B :=
  fun s =>
    match c s with
    | (Return a, s') => k a s'
    | (Raise e, s') => (Raise e, s')
    | (Unmodelled, s') => (Unmodelled, s')
    end.

Definition gets {S A : Type} (f : S -> A) : M S A := fun s => (Return (f s), s).

Definition modify {S : Type} (f : S -> S) : M S unit := fun s => (Return tt, f s).

(** A call whose outcome does not depend on the object. *)
Definition lift {S A : Type} (o : outcome A) : M S A := fun s => (o, s).

Declare Scope py_scope.
Delimit Scope py_scope with py.
Notation "x <- c1 ;; c2" := (bind c1 (fun x => c2))
  (at level 61, c1 at next level, right associativity) : py_scope.
Notation "' pat <- c1 ;; c2" := (bind c1 (fun x => match x with pat => c2 end))
  (at level 61, pat pattern, c1 at next level, right associativity) : py_scope.
Notation "c1 ;; c2" := (bind c1 (fun _ => c2))
  (at level 61, right associativity) : py_scope.

(** ** Insertion-ordered dictionaries *)

Module Dict.
Section Dict.
Context {K V : Type} (eqb : K -> K -> bool).

Definition t : Type := list (K * V).

(** [d.get(k)] *)
Fixpoint get (d : t) (k : K) : option V :=
  match d with
  | [] => None
  | (k', v) :: d' => if eqb k' k then Some v else get d' k
  end.

(** [d[k] = v]: an existing key keeps its place (and the key object),
    a new key goes last. *)
Fixpoint set (d : t) (k : K) (v : V) : t :=
  match d with
  | [] => [(k, v)]
  | (k', v') :: d' => if eqb k' k then (k', v) :: d' else (k', v') :: set d' k v
  end.

(** How many entries are stored under a key equal to [k]. *)
Definition count (d : t) (k : K) : nat :=
  List.length (filter (fun kv => eqb (fst kv) k) d).

(** No two entries have equal keys. *)
Fixpoint wf (d : t) : Prop :=
  match d with
  | [] => True
  | (k, _) :: d' => get d' k = None /\ wf d'
  end.
End Dict.
End Dict.

(* ------------------------------------------------------------------ *)
(** ** Paperwrite.Rest.HttpStatus (the members the router uses) *)

Inductive HttpStatus : Type :=
| MULTIPLE_CHOICES
| NOT_FOUND
| METHOD_NOT_ALLOWED
| INTERNAL_SERVER_ERROR.

Definition HttpStatus_value (s : HttpStatus) : Z :=
  match s with
  | MULTIPLE_CHOICES => 300
  | NOT_FOUND => 404
  | METHOD_NOT_ALLOWED => 405
  | INTERNAL_SERVER_ERROR => 500
  end.

(** An [Error(Msg, HttpStatus)] object, built and returned, not raised. *)
Record Error : Type := mkError {
  Msg : string;
  Status : HttpStatus
}.

(* ------------------------------------------------------------------ *)
(** ** The variable type registry *)

(** The Python classes that variables are cast to. *)
Inductive PyType : Type := py_str | py_int | py_float.

Inductive PyValue : Type :=
| VStr (s : string)
| VInt (z : Z)
| VFloat (literal : string).

(** [cls(s)] for a string [s]. *)
Definition construct (cls : PyType) (s : string) : option PyValue :=
  match cls with
  | py_str => Some (VStr s)
  | py_int => option_map VInt (Py.int s)
  | py_float => option_map VFloat (Py.float s)
  end.

Record RocketPathVariableTypesRepresentation : Type := mkRepresentation {
  t : PyType;
  regex : string
}.

Inductive RocketPathVariableTypes : Type := UUID4 | STR | INT64 | FLOAT64.

Definition value (v : RocketPathVariableTypes) : RocketPathVariableTypesRepresentation :=
  match v with
  | UUID4 =>
      mkRepresentation py_str
        "[a-f0-9]{8}-?[a-f0-9]{4}-?4[a-f0-9]{3}-?[89ab][a-f0-9]{3}-?[a-f0-9]{12}"
  | STR => mkRepresentation py_str "[-a-zA-Z0-9@:%._\+~#=]+"
  | INT64 => mkRepresentation py_int "[-+]?\d+"
  | FLOAT64 => mkRepresentation py_float "[-+]?\d*\.?\d+|\d+"
  end.

(** The name of a member, as the key under which the class holds it. *)
Definition member_name (v : RocketPathVariableTypes) : string :=
  match v with
  | UUID4 => "UUID4"
  | STR => "STR"
  | INT64 => "INT64"
  | FLOAT64 => "FLOAT64"
  end.

(** [RocketPathVariableTypes.ToStr] *)
Definition ToStr (v : RocketPathVariableTypes) : string := Py.lower (member_name v).

(** [RocketPathVariableTypes.FromStr]: the member named by the upper-cased
    tag, [STR] when there is none.  (The other keys of the class dictionary
    contain lower-case letters, so an upper-cased tag never finds them.) *)
Definition FromStr (tag : string) : RocketPathVariableTypes :=
  let tag := Py.upper tag in
  match find (fun v => String.eqb (member_name v) tag) [UUID4; STR; INT64; FLOAT64] with
  | Some v => v
  | None => STR
  end.

Record RocketPathVariable : Type := mkVariable {
  Index : nat;
  Class : PyType;
  Name : string
}.

(* ------------------------------------------------------------------ *)
(** ** The method table *)

(** A function object, identified by its [__name__]. *)
Definition FunctionType : Type := string.

Definition POSSIBLE_METHODS : list string := ["GET"; "POST"; "PUT"; "DELETE"; "PATCH"].

(** [method in self.POSSIBLE_METHODS] *)
Definition possible (method : string) : bool :=
  existsb (String.eqb method) POSSIBLE_METHODS.

Record HttpApiMethods : Type := mkHttpApiMethods {
  FunctionsLookup : Dict.t (K := string) (V := FunctionType)
}.

(** [HttpApiMethods.__init__] *)
Definition HttpApiMethods_init : HttpApiMethods := mkHttpApiMethods [].

Local Open Scope py_scope.

(** [HttpApiMethods.Register] *)
Fixpoint Register (acceptedHttpMethods : list string) (functionPtr : FunctionType)
  : M HttpApiMethods unit :=
  match acceptedHttpMethods with
  | [] => ret tt
  | method :: methods =>
      if possible method then
        modify (fun self =>
          mkHttpApiMethods (Dict.set String.eqb (FunctionsLookup self) method functionPtr)) ;;
        Register methods functionPtr
      else
        raise (NotSupportedError ("unsupported rest-method: '" ++ method ++ "'"))
  end.

(** [HttpApiMethods.Get] *)
Definition Get (self : HttpApiMethods) (httpFunctionType : string) : option FunctionType :=
  Dict.get String.eqb (FunctionsLookup self) httpFunctionType.

(* ------------------------------------------------------------------ *)
(** ** Routes *)

Record RocketTemplatedPath : Type := mkRocketTemplatedPath {
  TemplatedPathStr : string;
  TemplatedPathVariables : list RocketPathVariable;
  HttpMethodsMap : HttpApiMethods
}.

(** [RocketTemplatedPath.__init__]: a fresh method table, filled by
    [Register]; when [Register] raises, no object comes into being. *)
Definition RocketTemplatedPath_init (templatedPathStr : string)
    (templatedPathVariables : list RocketPathVariable)
    (functionPtr : FunctionType) (acceptedHttpMethods : list string)
  : outcome RocketTemplatedPath :=
  match Register acceptedHttpMethods functionPtr HttpApiMethods_init with
  | (Return _, methods) =>
      Return (mkRocketTemplatedPath templatedPathStr templatedPathVariables methods)
  | (Raise e, _) => Raise e
  | (Unmodelled, _) => Unmodelled
  end.

Record RocketSpecificPath : Type := mkRocketSpecificPath {
  Vars : Dict.t (K := string) (V := PyValue);
  Function : FunctionType
}.

Definition Routes : Type := Dict.t (K := Re.Pattern) (V := RocketTemplatedPath).

Record RocketRouter : Type := mkRocketRouter {
  routes : Routes
}.

(** [RocketRouter.__init__] *)
Definition RocketRouter_init : RocketRouter := mkRocketRouter [].

(** The modules of a template: split on the slash, empty ones dropped. *)
Definition split_modules (templatedPathStr : string) : list string :=
  filter (fun m => negb (String.eqb "" m)) (Py.split "/" templatedPathStr).

(** The loop of [Mount] over [enumerate(modules)]: [todo] are the modules
    still to visit, the first of them at position [index]; [modules] and
    [variables] collect, in order, the modules after conversion and the
    variables found. *)
Fixpoint convert_modules (index : nat) (todo : list string)
    (modules : list string) (variables : list RocketPathVariable)
  : outcome (list string * list RocketPathVariable) :=
  match todo with
  | [] => Return (modules, variables)
  | mod_ :: todo' =>
      if Py.startswith mod_ "{" then
        match Py.split ":" (Py.slice_1_m1 mod_) with
        | [varname; vartype] =>
            let vartype := FromStr vartype in
            convert_modules (S index) todo'
              (modules ++ [regex (value vartype)])
              (variables ++ [mkVariable index (t (value vartype)) varname])
        | _ => Raise ValueError
        end
      else convert_modules (S index) todo' (modules ++ [mod_]) variables
  end.

(** [re.compile("/".join(modules))].  A pattern that [re] may well compile
    but that is outside the modelled fragment gives [Unmodelled]. *)
Definition compile_modules (modules : list string) : outcome Re.Pattern :=
  match Re.compile (Py.join "/" modules) with
  | Re.CompileOk p => Return p
  | Re.CompileError => Raise re_error
  | Re.CompileUnsupported => Unmodelled
  end.

(** The part of [Mount] before the route table is touched: the compiled
    pattern of a template and its variables. *)
Definition compile_template (templatedPathStr : string)
  : outcome (Re.Pattern * list RocketPathVariable) :=
  match convert_modules 0 (split_modules templatedPathStr) [] [] with
  | Return (modules, variables) =>
      match compile_modules modules with
      | Return p => Return (p, variables)
      | Raise e => Raise e
      | Unmodelled => Unmodelled
      end
  | Raise e => Raise e
  | Unmodelled => Unmodelled
  end.

(** [self.routes[regex].HttpMethodsMap.Register(...)]: the method table of
    the stored route is updated in place, also when [Register] raises on
    the way. *)
Definition register_on (regex : Re.Pattern) (template : RocketTemplatedPath)
    (acceptedHttpMethods : list string) (functionPtr : FunctionType)
  : M RocketRouter unit :=
  fun self =>
    let (o, methods) := Register acceptedHttpMethods functionPtr (HttpMethodsMap template) in
    (o, mkRocketRouter
          (Dict.set Re.Pattern_eqb (routes self) regex
             (mkRocketTemplatedPath (TemplatedPathStr template)
                (TemplatedPathVariables template) methods))).

(** [RocketRouter.Mount] *)
Definition Mount (templatedPathStr : string) (functionPtr : FunctionType)
    (acceptedHttpMethods : list string) : M RocketRouter unit :=
  '(regex, variables) <- lift (compile_template templatedPathStr) ;;
  found <- gets (fun self => Dict.get Re.Pattern_eqb (routes self) regex) ;;
  match found with
  | None =>
      template <- lift (RocketTemplatedPath_init templatedPathStr variables
                          functionPtr acceptedHttpMethods) ;;
      modify (fun self =>
        mkRocketRouter (Dict.set Re.Pattern_eqb (routes self) regex template))
  | Some template => register_on regex template acceptedHttpMethods functionPtr
  end.

(** The process at serving time: the router object and what has been
    handed to the debug logger [Io.Debug]. *)
Record Process : Type := mkProcess {
  router : RocketRouter;
  Io_Debug : list string
}.

(** [Io.Debug(line)] *)
Definition Debug (line : string) : M Process unit :=
  modify (fun w => mkProcess (router w) (Io_Debug w ++ [line])).

(** The loop of [Match] over the variables of the matched template:
    [variables[var.Name] = var.Class(modules[var.Index])]. *)
Fixpoint cast_variables (vars : list RocketPathVariable) (modules : list string)
    (variables : Dict.t (K := string) (V := PyValue))
  : outcome (Dict.t (K := string) (V := PyValue)) :=
  match vars with
  | [] => Return variables
  | var :: vars' =>
      match nth_error modules (Index var) with
      | None => Raise IndexError
      | Some module =>
          match construct (Class var) module with
          | None => Raise ValueError
          | Some v =>
              cast_variables vars' modules (Dict.set String.eqb variables (Name var) v)
          end
      end
  end.

(** The templates whose pattern matches the route, in table order. *)
Definition matching_templates (rs : Routes) (route : string) : list RocketTemplatedPath :=
  map snd (filter (fun entry => Re.matches (fst entry) route) rs).

(** The result tuple of [Match]. *)
Definition MatchResult : Type := (option RocketSpecificPath * option Error)%type.

(** [RocketRouter.Match] *)
Definition Match (route httpApiFunc : string) : M Process MatchResult :=
  let modules := Py.split "/" route in
  templates <- gets (fun w => matching_templates (routes (router w)) route) ;;
  if negb (Nat.eqb (List.length templates) 1) then
    if Nat.ltb 1 (List.length templates) then
      ret (None, Some (mkError "to many matched routes found" MULTIPLE_CHOICES))
    else
      ret (None, Some (mkError "no matching routes could be found" NOT_FOUND))
  else
    match templates with
    | [] => raise IndexError
    | template :: _ =>
        variables <- lift (cast_variables (TemplatedPathVariables template) modules []) ;;
        match Get (HttpMethodsMap template) httpApiFunc with
        | None =>
            ret (None, Some (mkError "HTTP method is not allowed on this route"
                               METHOD_NOT_ALLOWED))
        | Some functionPtr =>
            Debug ("    => Matched: (" ++ functionPtr ++ ") " ++ httpApiFunc ++ " "
                   ++ TemplatedPathStr template) ;;
            ret (Some (mkRocketSpecificPath variables functionPtr), None)
        end
    end.

(** The router after a sequence of calls, and a process serving from it. *)
Definition after {A : Type} (c : M RocketRouter A) (self : RocketRouter) : RocketRouter :=
  snd (c self).

Definition serving (self : RocketRouter) : Process := mkProcess self [].

(* ------------------------------------------------------------------ *)
(** ** Notions used in the statements *)

(** The table after registering every method of a list, none refused. *)
Definition register_all (methods : list string) (functionPtr : FunctionType)
    (self : HttpApiMethods) : HttpApiMethods :=
  fold_left
    (fun tbl method =>
       mkHttpApiMethods (Dict.set String.eqb (FunctionsLookup tbl) method functionPtr))
    methods self.

(** The message of the configuration error for a refused method. *)
Definition unsupported (method : string) : Exception :=
  NotSupportedError ("unsupported rest-method: '" ++ method ++ "'").

(** A module that [Mount] takes for a variable but cannot unpack into a
    name and a type: it starts with a brace, and what is left of it
    without its first and last character does not split on the colon into
    exactly two parts. *)
Definition malformed_variable (m : string) : Prop :=
  Py.startswith m "{" = true /\ List.length (Py.split ":" (Py.slice_1_m1 m)) <> 2.

(** The route stored under a pattern by a call of [Mount] that is not
    refused: a new route, or the route found there with the methods added. *)
Definition mounted (T : string) (variables : list RocketPathVariable)
    (f : FunctionType) (ms : list string) (found : option RocketTemplatedPath)
  : RocketTemplatedPath :=
  match found with
  | None => mkRocketTemplatedPath T variables (register_all ms f HttpApiMethods_init)
  | Some template =>
      mkRocketTemplatedPath (TemplatedPathStr template) (TemplatedPathVariables template)
        (register_all ms f (HttpMethodsMap template))
  end.

(** The error values of [Match]. *)
Definition NotFound : Error := mkError "no matching routes could be found" NOT_FOUND.
Definition AmbiguousRoute : Error := mkError "to many matched routes found" MULTIPLE_CHOICES.
Definition MethodNotAllowed : Error :=
  mkError "HTTP method is not allowed on this route" METHOD_NOT_ALLOWED.

(** A template all of whose modules are free of special characters (so
    none of them is a variable). *)
Definition literal_template (T : string) : bool :=
  forallb Re.plain (split_modules T).

(** The router that [Paperwrite.__main__.Main] builds. *)

Definition main_router : RocketRouter :=
  after (Mount "/kng/list" "GetKngList" ["GET"] ;;
         Mount "/kng/{kid:str}/details" "GetKngDetails" ["GET"] ;;
         Mount "/kng/{kid:str}/visualisation.html" "GetKngVisualisation" ["GET"] ;;
         Mount "/kng/{kid:str}/create" "PostKngCreate" ["POST"] ;;
         Mount "/kng/{kid:str}/predict" "PostKngPredict" ["POST"] ;;
         Mount "/kng/{kid:str}/train_model" "GetKngTrainModel" ["GET"])
    RocketRouter_init.

(* ------------------------------------------------------------------ *)
(** ** Introspection of the router *)

(** [RocketRouter.GetRoutes] *)
Definition GetRoutes (self : RocketRouter) : list string :=
  map (fun entry => TemplatedPathStr (snd entry)) (routes self).

(** [RocketRouter.GetRoutesDetailed] *)
Definition GetRoutesDetailed (self : RocketRouter) : list string :=
  map (fun entry =>
         let methods := map fst (FunctionsLookup (HttpMethodsMap (snd entry))) in
         (TemplatedPathStr (snd entry) ++ " " ++ Py.join "," methods)%string)
      (routes self).

(** The routers that a program can build: a fresh router, and what calls of
    [Mount] make of it, whether they return or raise. *)
Inductive built : RocketRouter -> Prop :=
| built_init : built RocketRouter_init
| built_Mount T f ms self : built self -> built (after (Mount T f ms) self).

(** Every method stored in a table is one that [Register] accepts. *)
Definition methods_possible (tbl : HttpApiMethods) : Prop :=
  forall m f, In (m, f) (FunctionsLookup tbl) -> possible m = true.

(** The method tables of a router hold supported methods only, each under
    one key. *)
Definition tables_sound (self : RocketRouter) : Prop :=
  forall p template,
    In (p, template) (routes self) ->
    methods_possible (HttpMethodsMap template)
    /\ Dict.wf String.eqb (FunctionsLookup (HttpMethodsMap template)).

(* ------------------------------------------------------------------ *)
(** ** Well-formed templates *)

(** The type that [Mount] gives a module: [None] for a literal, the
    declared type for a variable [{name:type}].  A module that starts with a
    brace but does not unpack has none. *)
Definition module_type (m : string) : option (option RocketPathVariableTypes) :=
  if Py.startswith m "{" then
    match Py.split ":" (Py.slice_1_m1 m) with
    | [_; vartype] => Some (Some (FromStr vartype))
    | _ => None
    end
  else Some None.

(** A module is well formed when it is a variable [{name:type}] or a
    literal free of special characters. *)
Definition wellformed_module (m : string) : bool :=
  match module_type m with
  | Some (Some _) => true
  | Some None => Re.plain m
  | None => false
  end.

Definition wellformed_template (T : string) : bool :=
  forallb wellformed_module (split_modules T).

(** A tame module is a well-formed one that is not a [float64] variable. *)
Definition tame_module (m : string) : bool :=
  match module_type m with
  | Some (Some FLOAT64) => false
  | _ => wellformed_module m
  end.

Definition tame_template (T : string) : bool :=
  forallb tame_module (split_modules T).

(** Is the module a variable of type [int64]? *)
Definition int64_module (m : string) : bool :=
  match module_type m with
  | Some (Some INT64) => true
  | _ => false
  end.

(** A tame template that does not end in an [int64] variable. *)
Definition safe_template (T : string) : bool :=
  tame_template T && negb (int64_module (last (split_modules T) "")).

(** What the loop of [Mount] makes of a well-formed module: the text that
    goes into the pattern, and the variable it records at a position. *)
Definition convert_module (m : string) : string :=
  match module_type m with
  | Some (Some vartype) => regex (value vartype)
  | _ => m
  end.

Definition module_variable (index : nat) (m : string) : list RocketPathVariable :=
  if Py.startswith m "{" then
    match Py.split ":" (Py.slice_1_m1 m) with
    | [varname; vartype] => [mkVariable index (t (value (FromStr vartype))) varname]
    | _ => []
    end
  else [].

Fixpoint variables_from (index : nat) (modules : list string) : list RocketPathVariable :=
  match modules with
  | [] => []
  | m :: modules' => module_variable index m ++ variables_from (S index) modules'
  end.

(** The items that the pattern of a type compiles to (for the types whose
    pattern has one alternative). *)
Definition type_items (vartype : RocketPathVariableTypes) : list Re.item :=
  match Re.compile (regex (value vartype)) with
  | Re.CompileOk p =>
      match Re.prog p with
      | [br] => br
      | _ => []
      end
  | _ => []
  end.

(** The items of a tame module, and of tame modules joined by slashes. *)
Definition module_items (m : string) : list Re.item :=
  match module_type m with
  | Some (Some vartype) => type_items vartype
  | _ => Re.literal_items m
  end.

Fixpoint joined_items (modules : list string) : list Re.item :=
  match modules with
  | [] => []
  | m :: modules' =>
      match modules' with
      | [] => module_items m
      | _ :: _ => module_items m ++ Re.ONE (Re.LITERAL "/") :: joined_items modules'
      end
  end.

(** The routers built by mounting templates of one kind only. *)
Inductive built_of (kind : string -> bool) : RocketRouter -> Prop :=
| built_of_init : built_of kind RocketRouter_init
| built_of_Mount T f ms self :
    kind T = true -> built_of kind self -> built_of kind (after (Mount T f ms) self).

(** Where a module ends in the joined pattern: at the end or at a slash. *)
Definition boundary (rest : string) : Prop :=
  rest = EmptyString \/ exists r, rest = String "/" r.

(** How many steps the parser takes over the pattern of a type, over a
    module, and over modules joined by slashes. *)
Definition type_steps (vartype : RocketPathVariableTypes) : nat :=
  match vartype with
  | UUID4 => 20
  | STR => 2
  | INT64 => 4
  | FLOAT64 => 11
  end.

Definition module_steps (m : string) : nat :=
  match module_type m with
  | Some (Some vartype) => type_steps vartype
  | _ => String.length m
  end.

Fixpoint joined_steps (modules : list string) : nat :=
  match modules with
  | [] => 0
  | m :: modules' =>
      match modules' with
      | [] => module_steps m
      | _ :: _ => module_steps m + S (joined_steps modules')
      end
  end.

(** The atom of an item. *)
Definition item_atom (it : Re.item) : Re.atom :=
  match it with
  | Re.ONE a => a
  | Re.MAX_REPEAT _ _ a => a
  end.

(** A string without a slash. *)
Definition noslash (w : string) : bool :=
  Re.all_chars (fun c => negb (Ascii.eqb c "/")) w.

(** Items none of which accepts a slash. *)
Definition reject_slash (its : list Re.item) : bool :=
  forallb (fun it => negb (Re.atom_matches (item_atom it) "/")) its.

(** The result of casting the variables of a matched route. *)
Definition cast_outcome : Type := outcome (Dict.t (K := string) (V := PyValue)).

(** Every route of the router, on every path that its pattern matches,
    casts its variables with an outcome that is good for that path. *)
Definition casts_well (good : string -> cast_outcome -> Prop) (self : RocketRouter) : Prop :=
  forall p template route,
    In (p, template) (routes self) -> Re.matches p route = true ->
    good route (cast_variables (TemplatedPathVariables template) (Py.split "/" route) []).

Definition vartype_eq_dec (a b : RocketPathVariableTypes) : {a = b} + {a <> b}.
Proof. decide equality. Defined.

(* ------------------------------------------------------------------ *)
(** ** Paperwrite.PyAdditions.Types: the singleton metaclass

    [SingletonMeta] keeps one dictionary [__instances__] for all the classes
    that use it.  Objects have an identity; [cls.__init__] is a parameter:
    it returns or raises. *)

Module SingletonMeta.
Section SingletonMeta.
Context {Cls Args E : Type}.
Variable Cls_eqb : Cls -> Cls -> bool.

(** [f"{cls.__module__}.{cls.__qualname__}"] *)
Variable qualified_name : Cls -> string.

(** The constructor [cls.__init__] on its arguments: [None] when it
    returns, the exception when it raises.  A constructor here does not call
    back into the metaclass. *)
Variable init : Cls -> Args -> option E.

(** An empty argument list. *)
Variable no_args : Args.

Record Object : Type := mkObject {
  identity : nat;
  class_of : Cls;
  init_args : Args
}.

Inductive Raised : Type :=
| TypeError (msg : string)
| InitError (e : E).

Inductive result (A : Type) : Type :=
| Ok (a : A)
| Err (e : Raised).

Arguments Ok {A} a.
Arguments Err {A} e.

(** The dictionary of instances, the number of objects created so far, and
    the warnings issued. *)
Record World : Type := mkWorld {
  instances : Dict.t (K := Cls) (V := Object);
  created : nat;
  warnings : list string
}.

(** [del d[k]] for a key that is present. *)
Fixpoint del (d : Dict.t (K := Cls) (V := Object)) (k : Cls) : Dict.t :=
  match d with
  | [] => []
  | (k', v) :: d' => if Cls_eqb k' k then d' else (k', v) :: del d' k
  end.

(** [SingletonMeta.__call__] *)
Definition call (cls : Cls) (args : Args) (w : World) : result Object * World :=
  (Err (TypeError (qualified_name cls ++ " has no public constructor")), w).

(** [SingletonMeta.Delete] *)
Definition Delete (cls : Cls) (w : World) : result unit * World :=
  match Dict.get Cls_eqb (instances w) cls with
  | Some _ => (Ok tt, mkWorld (del (instances w) cls) (created w) (warnings w))
  | None => (Ok tt, w)
  end.

(** [SingletonMeta.Init] *)
Definition Init (cls : Cls) (args : Args) (w : World) : result Object * World :=
  match Dict.get Cls_eqb (instances w) cls with
  | Some o =>
      (Ok o,
       mkWorld (instances w) (created w)
         (warnings w ++
          ["Object already has been initialized at an earlier time. Handeled init() as instance()."]))
  | None =>
      match init cls args with
      | Some e => (Err (InitError e), mkWorld (instances w) (S (created w)) (warnings w))
      | None =>
          let o := mkObject (created w) cls args in
          (Ok o, mkWorld (Dict.set Cls_eqb (instances w) cls o) (S (created w)) (warnings w))
      end
  end.

(** [SingletonMeta.ForceInit] *)
Definition ForceInit (cls : Cls) (args : Args) (w : World) : result Object * World :=
  Init cls args (snd (Delete cls w)).

(** [SingletonMeta.Instance] *)
Definition Instance (cls : Cls) (w : World) : result Object * World :=
  match Dict.get Cls_eqb (instances w) cls with
  | Some o => (Ok o, w)
  | None => Init cls no_args w
  end.

(** The objects in the dictionary were created before now. *)
Definition fresh (w : World) : Prop :=
  forall c o, In (c, o) (instances w) -> identity o < created w.

End SingletonMeta.

Arguments Ok {E A} a.
Arguments Err {E A} e.
End SingletonMeta.

(* ------------------------------------------------------------------ *)
(** ** Paperwrite.Rest.RespondWithError and RocketRouter.HandleFunc

    The request object of the web framework, the clock and the call of a
    handler are parameters; [abort] ends the call with the response it is
    given. *)

(** [self.name] of a status. *)
Definition HttpStatus_name (s : HttpStatus) : string :=
  match s with
  | MULTIPLE_CHOICES => "MULTIPLE_CHOICES"
  | NOT_FOUND => "NOT_FOUND"
  | METHOD_NOT_ALLOWED => "METHOD_NOT_ALLOWED"
  | INTERNAL_SERVER_ERROR => "INTERNAL_SERVER_ERROR"
  end.

(** [s.replace(a, b)] for single characters. *)
Fixpoint replace_char (a b : ascii) (s : string) : string :=
  match s with
  | EmptyString => EmptyString
  | String c s' => String (if Ascii.eqb c a then b else c) (replace_char a b s')
  end.

(** [s.title()] on ASCII: a letter after a letter is lower-cased, a letter
    after anything else is upper-cased. *)
Fixpoint title_from (previous_is_cased : bool) (s : string) : string :=
  match s with
  | EmptyString => EmptyString
  | String c s' =>
      if Py.is_lower c then
        String (if previous_is_cased then c else Py.upper_char c) (title_from true s')
      else if Py.is_upper c then
        String (if previous_is_cased then Py.lower_char c else c) (title_from true s')
      else String c (title_from false s')
  end.

Definition title (s : string) : string := title_from false s.

(** [HttpStatus.Title] *)
Definition Title (s : HttpStatus) : string :=
  title (replace_char "_" " " (HttpStatus_name s)).

(** [str(n)] for an integer. *)
Definition str_of_int (z : Z) : string :=
  NilZero.string_of_int (Z.to_int z).

Module Serving.

Inductive Level : Type := INFO | WARNING | ERROR.

(** The request as the framework presents it. *)
Record Request : Type := mkRequest {
  method : string;
  path : string;
  scheme : string;
  remote_addr : string
}.

(** The JSON body of an error response. *)
Record ErrorBody : Type := mkErrorBody {
  tod : string;
  success : bool;
  error_type : string;
  error_message : string;
  http_name : string;
  http_code : Z
}.

(** The process with the log of [Io.Info], [Io.Warning] and [Io.Error]. *)
Record Server : Type := mkServer {
  process : Process;
  Io_Log : list (Level * string)
}.

Section Serving.
Variable Response : Type.

(** The call of [route.Function] with [route.Vars] as keyword arguments. *)
Variable invoke : FunctionType -> Dict.t (K := string) (V := PyValue) -> Response.

Variable request : Request.

(** [datetime.now().isoformat()] *)
Variable now : string.

(** How a request ends: with the response of the handler, with the
    response that [abort] was given, or with an exception out of [Match]. *)
Inductive Outcome : Type :=
| Responded (r : Response)
| Aborted (status_code : Z) (body : ErrorBody)
| Failed (e : Exception)
| NoRoute  (* the AttributeError of [None.Function] *)
| OutOfModel.

Definition debug (line : string) (s : Server) : Server :=
  mkServer (mkProcess (router (process s)) (Io_Debug (process s) ++ [line])) (Io_Log s).

Definition log (level : Level) (line : string) (s : Server) : Server :=
  mkServer (process s) (Io_Log s ++ [(level, line)]).

(** [Paperwrite.Rest.RespondWithError], without extra fields. *)
Definition RespondWithError (status : HttpStatus) (error : string) (s : Server)
  : Outcome * Server :=
  let code := HttpStatus_value status in
  let s1 := debug ("    => Outcome: " ++ str_of_int code ++ ", " ++ Title status) s in
  let msg := mkErrorBody now false "HTTPException" error (Title status) code in
  let logFunc := if (500 <=? code)%Z then ERROR
                 else if (400 <=? code)%Z then WARNING else INFO in
  let s2 := log logFunc
              (method request ++ " " ++ path request ++ " " ++ scheme request ++ ", "
               ++ remote_addr request ++ " - " ++ str_of_int code) s1 in
  (Aborted code msg, s2).

(** [RocketRouter.PrintDebugInformationOnRequest] *)
Definition PrintDebugInformationOnRequest (s : Server) : Server :=
  debug (method request ++ " " ++ path request ++ " " ++ scheme request) s.

(** [RocketRouter.HandleFunc] *)
Definition HandleFunc (routePath httpApiFunc : string) (s : Server) : Outcome * Server :=
  let s0 := PrintDebugInformationOnRequest s in
  match Match routePath httpApiFunc (process s0) with
  | (Return (_, Some err), p) =>
      RespondWithError (Status err) (Msg err)
        (debug ("    => Matching Error: " ++ Msg err) (mkServer p (Io_Log s0)))
  | (Return (Some route, None), p) =>
      (Responded (invoke (Function route) (Vars route)), mkServer p (Io_Log s0))
  | (Return (None, None), p) => (NoRoute, mkServer p (Io_Log s0))
  | (Raise e, p) => (Failed e, mkServer p (Io_Log s0))
  | (Unmodelled, p) => (OutOfModel, mkServer p (Io_Log s0))
  end.

End Serving.

Arguments Responded {Response} r.
Arguments Aborted {Response} status_code body.
Arguments Failed {Response} e.
Arguments NoRoute {Response}.
Arguments OutOfModel {Response}.
End Serving.

(* ================================================================== *)
(** * Properties *)

(** ** Dictionaries *)

Module DictFacts.
Section DictFacts.
Context {K V : Type} (eqb : K -> K -> bool).
Hypothesis eqb_refl : forall k, eqb k k = true.
Hypothesis eqb_left : forall a b c, eqb a b = true -> eqb a c = eqb b c.

Lemma eqb_right a b c : eqb a b = true -> eqb c a = eqb c b.
Proof.
  intros Hab.
  destruct (eqb c a) eqn:Hca.
  - symmetry. rewrite (eqb_left c a b Hca). exact Hab.
  - destruct (eqb c b) eqn:Hcb; [|reflexivity].
    assert (Hba : eqb b a = true) by (rewrite <- (eqb_left a b a Hab); apply eqb_refl).
    rewrite (eqb_left c b a Hcb) in Hca. congruence.
Qed.

Lemma get_set_same (d : list (K * V)) k v : Dict.get eqb (Dict.set eqb d k v) k = Some v.
Proof.
  induction d as [|[k' v'] d IH]; simpl.
  - now rewrite eqb_refl.
  - destruct (eqb k' k) eqn:E; simpl; rewrite E; auto.
Qed.

Lemma get_set_other (d : list (K * V)) k k' v :
  eqb k k' = false -> Dict.get eqb (Dict.set eqb d k v) k' = Dict.get eqb d k'.
Proof.
  intros Hne.
  induction d as [|[k0 v0] d IH]; simpl.
  - now rewrite Hne.
  - destruct (eqb k0 k) eqn:E; simpl.
    + rewrite (eqb_left k0 k k' E), Hne. reflexivity.
    + now rewrite IH.
Qed.

Lemma get_congr (d : list (K * V)) k k' :
  eqb k k' = true -> Dict.get eqb d k = Dict.get eqb d k'.
Proof.
  intros E. induction d as [|[k0 v0] d IH]; simpl; [reflexivity|].
  now rewrite (eqb_right k k' k0 E), IH.
Qed.

(** Assigning under a key that is present keeps the number of entries. *)
Lemma set_present_length (d : list (K * V)) k v w :
  Dict.get eqb d k = Some w -> List.length (Dict.set eqb d k v) = List.length d.
Proof.
  induction d as [|[k0 v0] d IH]; simpl; [discriminate|].
  destruct (eqb k0 k); simpl; auto.
Qed.

Lemma set_set (d : list (K * V)) k v w :
  Dict.set eqb (Dict.set eqb d k v) k w = Dict.set eqb d k w.
Proof.
  induction d as [|[k0 v0] d IH]; simpl.
  - now rewrite eqb_refl.
  - destruct (eqb k0 k) eqn:E; simpl; rewrite E; [reflexivity | now rewrite IH].
Qed.

Lemma set_absent (d : list (K * V)) k v :
  Dict.get eqb d k = None -> Dict.set eqb d k v = d ++ [(k, v)].
Proof.
  induction d as [|[k0 v0] d IH]; simpl; [reflexivity|].
  destruct (eqb k0 k); [discriminate|]. intros H. now rewrite IH.
Qed.

Lemma set_preserves_wf (d : list (K * V)) k v : Dict.wf eqb d -> Dict.wf eqb (Dict.set eqb d k v).
Proof.
  induction d as [|[k0 v0] d IH]; simpl.
  - auto.
  - intros [Hfresh Hwf]. destruct (eqb k0 k) eqn:E; simpl.
    + auto.
    + split; [|auto].
      rewrite get_set_other; [exact Hfresh|].
      destruct (eqb k k0) eqn:E'; [|reflexivity].
      rewrite <- (eqb_left k k0 k E'), eqb_refl in E. discriminate.
Qed.

Lemma count_absent (d : list (K * V)) k : Dict.get eqb d k = None -> Dict.count eqb d k = 0.
Proof.
  unfold Dict.count.
  induction d as [|[k0 v0] d IH]; simpl; [reflexivity|].
  destruct (eqb k0 k); [discriminate | auto].
Qed.

(** In a well-formed dictionary a key that is present has one entry. *)
Lemma count_present (d : list (K * V)) k w :
  Dict.wf eqb d -> Dict.get eqb d k = Some w -> Dict.count eqb d k = 1.
Proof.
  unfold Dict.count.
  induction d as [|[k0 v0] d IH]; simpl; [discriminate|].
  intros [Hfresh Hwf]. destruct (eqb k0 k) eqn:E; simpl.
  - intros _. f_equal. apply count_absent.
    now rewrite <- (get_congr d k0 k E).
  - auto.
Qed.
Lemma count_le_1 (d : list (K * V)) k : Dict.wf eqb d -> Dict.count eqb d k <= 1.
Proof.
  intros Hwf. destruct (Dict.get eqb d k) as [w|] eqn:Hg.
  - now rewrite (count_present d k w Hwf Hg).
  - rewrite (count_absent d k Hg). auto.
Qed.
End DictFacts.
End DictFacts.

Lemma Pattern_eqb_refl p : Re.Pattern_eqb p p = true.
Proof. apply String.eqb_refl. Qed.

Lemma Pattern_eqb_left a b c :
  Re.Pattern_eqb a b = true -> Re.Pattern_eqb a c = Re.Pattern_eqb b c.
Proof.
  unfold Re.Pattern_eqb. intros H. apply String.eqb_eq in H. now rewrite H.
Qed.

Lemma string_eqb_left (a b c : string) :
  String.eqb a b = true -> String.eqb a c = String.eqb b c.
Proof. intros H. apply String.eqb_eq in H. now subst. Qed.

Ltac pattern_key :=
  first [exact Pattern_eqb_refl | exact Pattern_eqb_left].

(** ** The method table *)

Lemma possible_iff method :
  possible method = true <-> In method ["GET"; "POST"; "PUT"; "DELETE"; "PATCH"].
Proof.
  unfold possible, POSSIBLE_METHODS. rewrite existsb_exists. split.
  - intros (x & Hx & E). apply String.eqb_eq in E. now subst.
  - intros H. exists method. split; [exact H | apply String.eqb_refl].
Qed.

Lemma Register_all_possible methods functionPtr self :
  forallb possible methods = true ->
  Register methods functionPtr self = (Return tt, register_all methods functionPtr self).
Proof.
  revert self. induction methods as [|m ms IH]; intros self H; simpl in *.
  - reflexivity.
  - apply andb_true_iff in H as [Hm Hms]. rewrite Hm.
    unfold bind, modify. now rewrite IH.
Qed.

(** [Register] stops at the first refused method, with the earlier ones
    already stored. *)
Lemma Register_refused pre bad post functionPtr self :
  forallb possible pre = true -> possible bad = false ->
  Register (pre ++ bad :: post) functionPtr self
  = (Raise (unsupported bad), register_all pre functionPtr self).
Proof.
  revert self. induction pre as [|m ms IH]; intros self Hpre Hbad; simpl in *.
  - now rewrite Hbad.
  - apply andb_true_iff in Hpre as [Hm Hms]. rewrite Hm.
    unfold bind, modify. now rewrite IH.
Qed.

(** A list of methods with a refused one splits at the first of them. *)
Lemma first_refused methods bad :
  find (fun m => negb (possible m)) methods = Some bad ->
  exists pre post,
    methods = pre ++ bad :: post /\ forallb possible pre = true /\ possible bad = false.
Proof.
  induction methods as [|m ms IH]; simpl; [discriminate|].
  destruct (possible m) eqn:Hm; simpl.
  - intros H. destruct (IH H) as (pre & post & -> & Hpre & Hbad).
    exists (m :: pre), post. simpl. now rewrite Hm, Hpre.
  - intros [= <-]. now exists [], ms.
Qed.

Lemma Get_register_all_other methods functionPtr self method :
  ~ In method methods ->
  Get (register_all methods functionPtr self) method = Get self method.
Proof.
  revert self. induction methods as [|m ms IH]; intros self Hnot; simpl.
  - reflexivity.
  - rewrite IH by (intros H; apply Hnot; now right).
    unfold Get; simpl. apply DictFacts.get_set_other; [exact string_eqb_left|].
    apply String.eqb_neq. intros ->. apply Hnot. now left.
Qed.

Lemma Get_register_all_in methods functionPtr self method :
  In method methods ->
  Get (register_all methods functionPtr self) method = Some functionPtr.
Proof.
  revert self. induction methods as [|m ms IH]; intros self Hin; simpl.
  - destruct Hin.
  - destruct (in_dec string_dec method ms) as [Hms | Hms].
    + now apply IH.
    + destruct Hin as [-> | Hin]; [|contradiction].
      rewrite Get_register_all_other by assumption.
      unfold Get; simpl.
      apply DictFacts.get_set_same. exact String.eqb_refl.
Qed.

(** ** Mount *)

Lemma Mount_compiled T f ms self regex variables :
  compile_template T = Return (regex, variables) ->
  Mount T f ms self =
  match Dict.get Re.Pattern_eqb (routes self) regex with
  | None =>
      match RocketTemplatedPath_init T variables f ms with
      | Return template =>
          (Return tt, mkRocketRouter (Dict.set Re.Pattern_eqb (routes self) regex template))
      | Raise e => (Raise e, self)
      | Unmodelled => (Unmodelled, self)
      end
  | Some template => register_on regex template ms f self
  end.
Proof.
  intros Hc. unfold Mount, bind, lift, gets. rewrite Hc.
  destruct (Dict.get Re.Pattern_eqb (routes self) regex) as [template|].
  - reflexivity.
  - unfold lift, modify. now destruct (RocketTemplatedPath_init T variables f ms).
Qed.

Lemma Mount_not_compiled T f ms self e :
  compile_template T = Raise e -> Mount T f ms self = (Raise e, self).
Proof. intros Hc. unfold Mount, bind, lift. now rewrite Hc. Qed.

Lemma convert_modules_malformed todo :
  Exists malformed_variable todo ->
  forall index modules variables,
    convert_modules index todo modules variables = Raise ValueError.
Proof.
  induction 1 as [m todo [Hbrace Hparts] | m todo Hex IH]; intros index modules variables; simpl.
  - rewrite Hbrace.
    destruct (Py.split ":" (Py.slice_1_m1 m)) as [|a [|b [|c l]]]; simpl in Hparts;
      try reflexivity.
    now contradiction Hparts.
  - destruct (Py.startswith m "{"); [|apply IH].
    destruct (Py.split ":" (Py.slice_1_m1 m)) as [|a [|b [|c l]]]; try reflexivity.
    apply IH.
Qed.

Lemma malformed_in_modules T m :
  In m (Py.split "/" T) -> malformed_variable m -> Exists malformed_variable (split_modules T).
Proof.
  intros Hin Hm. apply Exists_exists. exists m. split; [|exact Hm].
  unfold split_modules. apply filter_In. split; [exact Hin|].
  destruct Hm as [Hbrace _]. now destruct m.
Qed.

(** C9.  A template with a module that starts with a brace and whose
    interior (the module without its first and last character) does not split
    on the colon into exactly two parts makes [Mount] raise the [ValueError]
    of the failed unpacking, not the configuration error, whatever the
    handler and the methods; the route table is left as it was. *)
Theorem Mount_malformed_variable_raises T m f ms self :
  In m (Py.split "/" T) -> malformed_variable m ->
  Mount T f ms self = (Raise ValueError, self).
Proof.
  intros Hin Hm. apply Mount_not_compiled.
  unfold compile_template.
  now rewrite (convert_modules_malformed _ (malformed_in_modules T m Hin Hm)).
Qed.

Lemma Mount_malformed_variable_raises_witness :
  Mount "/kng/{kid}/details" "GetKngDetails" ["GET"] RocketRouter_init
  = (Raise ValueError, RocketRouter_init)
  /\ Mount "/kng/{a:b:c}" "GetKngDetails" ["GET"] RocketRouter_init
     = (Raise ValueError, RocketRouter_init).
Proof.
  split.
  - apply (Mount_malformed_variable_raises _ "{kid}").
    + simpl. tauto.
    + split; [reflexivity | simpl; lia].
  - apply (Mount_malformed_variable_raises _ "{a:b:c}").
    + simpl. tauto.
    + split; [reflexivity | simpl; lia].
Defined.

(** A variable module with exactly one colon inside is unpacked. *)
Lemma convert_modules_step index m todo modules variables varname vartype :
  Py.startswith m "{" = true ->
  Py.split ":" (Py.slice_1_m1 m) = [varname; vartype] ->
  convert_modules index (m :: todo) modules variables
  = convert_modules (S index) todo
      (modules ++ [regex (value (FromStr vartype))])
      (variables ++ [mkVariable index (t (value (FromStr vartype))) varname]).
Proof. intros Hb Hs. simpl. now rewrite Hb, Hs. Qed.

(** C10.  When [Mount] is refused for a method [bad] that is not supported,
    the methods [pre] before it all being supported: for a template whose
    pattern is not in the table yet the router is left as it was; for a
    pattern already in the table the stored route keeps its template text and
    variables but its method table has every method of [pre] mapped to the
    new handler (and the methods outside [pre] as they were) when the error
    is raised. *)
Theorem Mount_refused_atomic_only_when_new T f pre bad post regex variables self :
  compile_template T = Return (regex, variables) ->
  forallb possible pre = true -> possible bad = false ->
  (Dict.get Re.Pattern_eqb (routes self) regex = None ->
   Mount T f (pre ++ bad :: post) self = (Raise (unsupported bad), self))
  /\
  (forall template,
     Dict.get Re.Pattern_eqb (routes self) regex = Some template ->
     exists template',
       Mount T f (pre ++ bad :: post) self
       = (Raise (unsupported bad),
          mkRocketRouter (Dict.set Re.Pattern_eqb (routes self) regex template'))
       /\ Dict.get Re.Pattern_eqb
            (routes (after (Mount T f (pre ++ bad :: post)) self)) regex = Some template'
       /\ TemplatedPathStr template' = TemplatedPathStr template
       /\ TemplatedPathVariables template' = TemplatedPathVariables template
       /\ (forall m, In m pre -> Get (HttpMethodsMap template') m = Some f)
       /\ (forall m, ~ In m pre ->
             Get (HttpMethodsMap template') m = Get (HttpMethodsMap template) m)).
Proof.
  intros Hc Hpre Hbad. split.
  - intros Hnew. rewrite (Mount_compiled _ _ _ _ _ _ Hc), Hnew.
    unfold RocketTemplatedPath_init. now rewrite Register_refused.
  - intros template Hold.
    exists (mkRocketTemplatedPath (TemplatedPathStr template)
              (TemplatedPathVariables template)
              (register_all pre f (HttpMethodsMap template))).
    assert (HM : Mount T f (pre ++ bad :: post) self
                 = (Raise (unsupported bad),
                    mkRocketRouter
                      (Dict.set Re.Pattern_eqb (routes self) regex
                         (mkRocketTemplatedPath (TemplatedPathStr template)
                            (TemplatedPathVariables template)
                            (register_all pre f (HttpMethodsMap template)))))).
    { rewrite (Mount_compiled _ _ _ _ _ _ Hc), Hold.
      unfold register_on. now rewrite Register_refused. }
    repeat split.
    + exact HM.
    + unfold after. rewrite HM. simpl.
      apply DictFacts.get_set_same. exact Pattern_eqb_refl.
    + intros m Hin. simpl. now apply Get_register_all_in.
    + intros m Hout. simpl. now apply Get_register_all_other.
Qed.

Lemma Mount_refused_atomic_only_when_new_witness :
  let self := after (Mount "/x" "h" ["GET"]) RocketRouter_init in
  Mount "/y" "h2" (["POST"] ++ "FETCH" :: ["PUT"]) self = (Raise (unsupported "FETCH"), self)
  /\ exists template',
       Dict.get Re.Pattern_eqb
         (routes (after (Mount "/x" "h2" (["POST"] ++ "FETCH" :: ["PUT"])) self))
         (Re.mkPattern "x" [[Re.ONE (Re.LITERAL "x")]]) = Some template'
       /\ Get (HttpMethodsMap template') "POST" = Some "h2"
       /\ Get (HttpMethodsMap template') "GET" = Some "h"
       /\ Get (HttpMethodsMap template') "PUT" = None.
Proof.
  intros self. split.
  - refine (proj1 (Mount_refused_atomic_only_when_new "/y" "h2" ["POST"] "FETCH" ["PUT"]
                     (Re.mkPattern "y" [[Re.ONE (Re.LITERAL "y")]]) [] self _ _ _) _);
      reflexivity.
  - destruct (proj2 (Mount_refused_atomic_only_when_new "/x" "h2" ["POST"] "FETCH" ["PUT"]
                       (Re.mkPattern "x" [[Re.ONE (Re.LITERAL "x")]]) [] self
                       eq_refl eq_refl eq_refl)
                _ eq_refl)
      as (template' & _ & Hget & _ & _ & Hin & Hout).
    exists template'. split; [exact Hget|]. split; [|split].
    + apply Hin. simpl. tauto.
    + rewrite Hout; [reflexivity|]. simpl. intros [H|[]]. discriminate.
    + rewrite Hout; [reflexivity|]. simpl. intros [H|[]]. discriminate.
Defined.

Lemma Mount_possible T f ms regex variables self :
  compile_template T = Return (regex, variables) ->
  forallb possible ms = true ->
  Mount T f ms self
  = (Return tt,
     mkRocketRouter
       (Dict.set Re.Pattern_eqb (routes self) regex
          (mounted T variables f ms (Dict.get Re.Pattern_eqb (routes self) regex)))).
Proof.
  intros Hc Hms. rewrite (Mount_compiled _ _ _ _ _ _ Hc).
  destruct (Dict.get Re.Pattern_eqb (routes self) regex) as [template|]; simpl.
  - unfold register_on. now rewrite Register_all_possible.
  - unfold RocketTemplatedPath_init. now rewrite Register_all_possible.
Qed.

(** Mounting on a pattern that is in the table only replaces the route
    stored there, whether the call is refused or not. *)
Lemma Mount_present T f ms regex variables self template :
  compile_template T = Return (regex, variables) ->
  Dict.get Re.Pattern_eqb (routes self) regex = Some template ->
  exists template',
    after (Mount T f ms) self
    = mkRocketRouter (Dict.set Re.Pattern_eqb (routes self) regex template').
Proof.
  intros Hc Hg. unfold after. rewrite (Mount_compiled _ _ _ _ _ _ Hc), Hg.
  unfold register_on.
  destruct (Register ms f (HttpMethodsMap template)) as [o methods]. simpl.
  now eexists.
Qed.

(** The table stays a dictionary under [Mount]. *)
Lemma Mount_preserves_wf T f ms self :
  Dict.wf Re.Pattern_eqb (routes self) ->
  Dict.wf Re.Pattern_eqb (routes (after (Mount T f ms) self)).
Proof.
  intros Hwf. unfold after, Mount, bind, lift, gets.
  destruct (compile_template T) as [[regex variables]| |]; simpl; try exact Hwf.
  destruct (Dict.get Re.Pattern_eqb (routes self) regex) as [template|].
  - unfold register_on.
    destruct (Register ms f (HttpMethodsMap template)) as [o methods]. simpl.
    apply DictFacts.set_preserves_wf;
      [exact Pattern_eqb_refl | exact Pattern_eqb_left | exact Hwf].
  - unfold modify.
    destruct (RocketTemplatedPath_init T variables f ms); simpl; try exact Hwf.
    apply DictFacts.set_preserves_wf;
      [exact Pattern_eqb_refl | exact Pattern_eqb_left | exact Hwf].
Qed.

(** Registering one method twice for the same handler is registering it
    once. *)
Lemma mounted_again T variables f m found :
  mounted T variables f [m] (Some (mounted T variables f [m] found))
  = mounted T variables f [m] found.
Proof.
  destruct found as [template|]; unfold mounted, register_all; simpl.
  - now rewrite (DictFacts.set_set String.eqb String.eqb_refl).
  - now rewrite String.eqb_refl.
Qed.

Lemma mounted_Get_in T variables f ms found m :
  In m ms -> Get (HttpMethodsMap (mounted T variables f ms found)) m = Some f.
Proof.
  intros Hin. destruct found; unfold mounted; cbn [HttpMethodsMap];
    now apply Get_register_all_in.
Qed.

Lemma Mount_twice T f1 ms1 f2 ms2 self :
  fst (Mount T f1 ms1 self) = Return tt ->
  (Mount T f1 ms1 ;; Mount T f2 ms2) self = Mount T f2 ms2 (after (Mount T f1 ms1) self).
Proof.
  unfold bind, after. destruct (Mount T f1 ms1 self) as [o s]. simpl.
  intros ->. reflexivity.
Qed.

(** C5.  For a template that compiles, mounted on a table without
    duplicate keys: after two calls of [Mount] with the same template text
    the table never holds two routes under its pattern; a second [Mount] of
    the same text, whatever its handler and methods and whether it is refused
    or not, adds no entry to what the first left;
    [Mount(T, h, ["GET"])] twice is the same as once and leaves exactly one
    route under the pattern of [T], with [GET] mapped to [h];
    [Mount(T, h1, ["GET"])] followed by [Mount(T, h2, ["POST"])] leaves
    exactly one route under the pattern of [T], with [GET] mapped to [h1] and
    [POST] to [h2]. *)
Theorem Mount_same_template_merges T regex variables self :
  compile_template T = Return (regex, variables) ->
  Dict.wf Re.Pattern_eqb (routes self) ->
  (forall h1 ms1 h2 ms2,
     Dict.count Re.Pattern_eqb
       (routes (after (Mount T h2 ms2) (after (Mount T h1 ms1) self))) regex <= 1)
  /\
  (forall h1 ms1 h2 ms2,
     fst (Mount T h1 ms1 self) = Return tt ->
     let once := after (Mount T h1 ms1) self in
     let twice := after (Mount T h2 ms2) once in
     List.length (routes twice) = List.length (routes once)
     /\ Dict.count Re.Pattern_eqb (routes twice) regex = 1)
  /\
  (forall h,
     let twice := after (Mount T h ["GET"] ;; Mount T h ["GET"]) self in
     fst ((Mount T h ["GET"] ;; Mount T h ["GET"]) self) = Return tt
     /\ twice = after (Mount T h ["GET"]) self
     /\ Dict.count Re.Pattern_eqb (routes twice) regex = 1
     /\ exists route,
          Dict.get Re.Pattern_eqb (routes twice) regex = Some route
          /\ Get (HttpMethodsMap route) "GET" = Some h)
  /\
  (forall h1 h2,
     let both := after (Mount T h1 ["GET"] ;; Mount T h2 ["POST"]) self in
     fst ((Mount T h1 ["GET"] ;; Mount T h2 ["POST"]) self) = Return tt
     /\ Dict.count Re.Pattern_eqb (routes both) regex = 1
     /\ exists route,
          Dict.get Re.Pattern_eqb (routes both) regex = Some route
          /\ Get (HttpMethodsMap route) "GET" = Some h1
          /\ Get (HttpMethodsMap route) "POST" = Some h2).
Proof.
  intros Hc Hwf.
  (* after a first mount that returned, the pattern is in the table *)
  assert (Hin : forall h ms, fst (Mount T h ms self) = Return tt ->
                  exists route,
                    Dict.get Re.Pattern_eqb (routes (after (Mount T h ms) self)) regex
                    = Some route).
  { intros h ms. unfold after. rewrite (Mount_compiled _ _ _ _ _ _ Hc).
    destruct (Dict.get Re.Pattern_eqb (routes self) regex) as [template|] eqn:Hg.
    - unfold register_on.
      destruct (Register ms h (HttpMethodsMap template)) as [o methods]. simpl.
      intros _. eexists. apply DictFacts.get_set_same. pattern_key.
    - destruct (RocketTemplatedPath_init T variables h ms); simpl; try discriminate.
      intros _. eexists. apply DictFacts.get_set_same. pattern_key. }
  (* the general step: a second mount on a table that has the pattern *)
  assert (Hstep : forall s h ms route,
            Dict.wf Re.Pattern_eqb (routes s) ->
            Dict.get Re.Pattern_eqb (routes s) regex = Some route ->
            List.length (routes (after (Mount T h ms) s)) = List.length (routes s)
            /\ Dict.count Re.Pattern_eqb (routes (after (Mount T h ms) s)) regex = 1).
  { intros s h ms route Hs Hg.
    destruct (Mount_present T h ms regex variables s route Hc Hg) as (route' & Heq).
    split.
    - rewrite Heq. simpl. eapply DictFacts.set_present_length. exact Hg.
    - eapply DictFacts.count_present; try pattern_key.
      + now apply Mount_preserves_wf.
      + rewrite Heq. simpl. apply DictFacts.get_set_same. pattern_key. }
  split; [|split; [|split]].
  - intros h1 ms1 h2 ms2.
    apply DictFacts.count_le_1; try pattern_key.
    now do 2 apply Mount_preserves_wf.
  - intros h1 ms1 h2 ms2 Hret once twice.
    destruct (Hin h1 ms1 Hret) as (route & Hg).
    apply (Hstep once h2 ms2 route); [now apply Mount_preserves_wf | exact Hg].
  - intros h twice.
    assert (H1 : Mount T h ["GET"] self
                 = (Return tt,
                    mkRocketRouter
                      (Dict.set Re.Pattern_eqb (routes self) regex
                         (mounted T variables h ["GET"]
                            (Dict.get Re.Pattern_eqb (routes self) regex)))))
      by now apply Mount_possible.
    assert (Hret : fst (Mount T h ["GET"] self) = Return tt) by now rewrite H1.
    destruct (Hin h ["GET"] Hret) as (route & Hg).
    assert (Heq : Mount T h ["GET"] (after (Mount T h ["GET"]) self)
                  = (Return tt, after (Mount T h ["GET"]) self)).
    { rewrite (Mount_possible T h ["GET"] regex variables _ Hc eq_refl). f_equal.
      unfold after. rewrite H1. simpl.
      rewrite DictFacts.get_set_same by pattern_key.
      rewrite mounted_again.
      now rewrite (DictFacts.set_set Re.Pattern_eqb Pattern_eqb_refl). }
    assert (Hseq : (Mount T h ["GET"] ;; Mount T h ["GET"]) self
                   = (Return tt, after (Mount T h ["GET"]) self))
      by now rewrite (Mount_twice _ _ _ _ _ _ Hret), Heq.
    assert (Htw : twice = after (Mount T h ["GET"]) self)
      by (unfold twice; unfold after at 1; now rewrite Hseq).
    rewrite Htw, Hseq. repeat split.
    + eapply DictFacts.count_present; try pattern_key.
      * now apply Mount_preserves_wf.
      * exact Hg.
    + exists route. split; [exact Hg|].
      unfold after in Hg. rewrite H1 in Hg. simpl in Hg.
      rewrite DictFacts.get_set_same in Hg by pattern_key.
      injection Hg as <-. apply mounted_Get_in. simpl. tauto.
  - intros h1 h2 both.
    assert (H1 : Mount T h1 ["GET"] self
                 = (Return tt,
                    mkRocketRouter
                      (Dict.set Re.Pattern_eqb (routes self) regex
                         (mounted T variables h1 ["GET"]
                            (Dict.get Re.Pattern_eqb (routes self) regex)))))
      by now apply Mount_possible.
    assert (Hret : fst (Mount T h1 ["GET"] self) = Return tt) by now rewrite H1.
    destruct (Hin h1 ["GET"] Hret) as (route & Hg).
    assert (Hg1 : Get (HttpMethodsMap route) "GET" = Some h1).
    { unfold after in Hg. rewrite H1 in Hg. simpl in Hg.
      rewrite DictFacts.get_set_same in Hg by pattern_key.
      injection Hg as <-. apply mounted_Get_in. simpl. tauto. }
    assert (Hseq : (Mount T h1 ["GET"] ;; Mount T h2 ["POST"]) self
                   = (Return tt,
                      mkRocketRouter
                        (Dict.set Re.Pattern_eqb (routes (after (Mount T h1 ["GET"]) self))
                           regex (mounted T variables h2 ["POST"] (Some route))))).
    { rewrite (Mount_twice _ _ _ _ _ _ Hret).
      rewrite (Mount_possible T h2 ["POST"] regex variables _ Hc eq_refl).
      now rewrite Hg. }
    assert (Hb : both
                 = mkRocketRouter
                     (Dict.set Re.Pattern_eqb (routes (after (Mount T h1 ["GET"]) self))
                        regex (mounted T variables h2 ["POST"] (Some route))))
      by (unfold both; unfold after at 1; now rewrite Hseq).
    rewrite Hb, Hseq. cbn [fst routes]. repeat split.
    + eapply DictFacts.count_present; try pattern_key.
      * apply DictFacts.set_preserves_wf; try pattern_key.
        now apply Mount_preserves_wf.
      * apply DictFacts.get_set_same. pattern_key.
    + eexists. split; [apply DictFacts.get_set_same; pattern_key|].
      cbn [mounted HttpMethodsMap]. split.
      * rewrite (Get_register_all_other ["POST"]); [exact Hg1|].
        simpl. intros [H|[]]. discriminate.
      * apply (Get_register_all_in ["POST"]). simpl. tauto.
Qed.

Lemma Mount_same_template_merges_witness :
  Dict.count Re.Pattern_eqb
    (routes (after (Mount "/kng/list" "h1" ["GET"] ;; Mount "/kng/list" "h2" ["POST"])
               RocketRouter_init))
    (Re.mkPattern "kng/list" [Re.literal_items "kng/list"]) = 1
  /\ exists route,
       Dict.get Re.Pattern_eqb
         (routes (after (Mount "/kng/list" "h1" ["GET"] ;; Mount "/kng/list" "h2" ["POST"])
                    RocketRouter_init))
         (Re.mkPattern "kng/list" [Re.literal_items "kng/list"]) = Some route
       /\ Get (HttpMethodsMap route) "GET" = Some "h1"
       /\ Get (HttpMethodsMap route) "POST" = Some "h2".
Proof.
  destruct (Mount_same_template_merges "/kng/list"
              (Re.mkPattern "kng/list" [Re.literal_items "kng/list"]) []
              RocketRouter_init eq_refl I)
    as (_ & _ & _ & Hunion).
  destruct (Hunion "h1" "h2") as (_ & Hcount & Hroute).
  split; assumption.
Defined.

(** C5 as stated fails: a template that [Mount] cannot unpack is refused
    both times, and the two calls leave no route for it at all, so [GET] is
    mapped to no handler. *)
Lemma Mount_same_template_unpack_fails :
  let once := after (Mount "/kng/{kid}" "GetKngDetails" ["GET"]) RocketRouter_init in
  let twice := after (Mount "/kng/{kid}" "GetKngDetails" ["GET"]) once in
  fst (Mount "/kng/{kid}" "GetKngDetails" ["GET"] RocketRouter_init) = Raise ValueError
  /\ fst (Mount "/kng/{kid}" "GetKngDetails" ["GET"] once) = Raise ValueError
  /\ routes twice = []
  /\ after (Mount "/kng/{kid}" "GetKngDetails" ["GET"] ;;
            Mount "/kng/{kid}" "GetKngDetails" ["GET"]) RocketRouter_init
     = RocketRouter_init
  /\ fst (Match "kng/{kid}" "GET" (serving twice))
     = Return (None, Some (mkError "no matching routes could be found" NOT_FOUND)).
Proof. repeat split. Qed.

(** C6, as the code has it.  For a template that compiles: when every
    name in [methods] is one of GET, POST, PUT, DELETE, PATCH the call
    returns; when some name is not, the call raises, at mount time, the
    configuration error whose message quotes the first such name. *)
Theorem Mount_checks_methods T f ms regex variables self :
  compile_template T = Return (regex, variables) ->
  ((forall m, In m ms -> In m ["GET"; "POST"; "PUT"; "DELETE"; "PATCH"]) ->
   fst (Mount T f ms self) = Return tt)
  /\
  ((exists m, In m ms /\ ~ In m ["GET"; "POST"; "PUT"; "DELETE"; "PATCH"]) ->
   exists bad,
     find (fun m => negb (possible m)) ms = Some bad
     /\ In bad ms /\ ~ In bad ["GET"; "POST"; "PUT"; "DELETE"; "PATCH"]
     /\ fst (Mount T f ms self)
        = Raise (NotSupportedError ("unsupported rest-method: '" ++ bad ++ "'"))).
Proof.
  intros Hc. split.
  - intros Hall. rewrite (Mount_possible _ _ _ _ _ _ Hc); [reflexivity|].
    apply forallb_forall. intros m Hm. apply possible_iff. auto.
  - intros (m & Hm & Hbad).
    destruct (find (fun m => negb (possible m)) ms) as [bad|] eqn:Hfind.
    + destruct (find_some _ _ Hfind) as [Hin Hneg].
      apply negb_true_iff in Hneg.
      exists bad. repeat split; try assumption.
      * intros H. apply possible_iff in H. congruence.
      * destruct (first_refused _ _ Hfind) as (pre & post & -> & Hpre & Hb).
        rewrite (Mount_compiled _ _ _ _ _ _ Hc).
        destruct (Dict.get Re.Pattern_eqb (routes self) regex) as [template|].
        -- unfold register_on. now rewrite Register_refused.
        -- unfold RocketTemplatedPath_init. now rewrite Register_refused.
    + exfalso. apply Hbad. apply possible_iff.
      pose proof (find_none _ _ Hfind m Hm) as Hn. now apply negb_false_iff in Hn.
Qed.

Lemma Mount_checks_methods_witness :
  fst (Mount "/kng/list" "GetKngList" ["GET"; "POST"] RocketRouter_init) = Return tt
  /\ fst (Mount "/x" "h" ["GET"; "FETCH"; "TRACE"] RocketRouter_init)
     = Raise (NotSupportedError "unsupported rest-method: 'FETCH'").
Proof.
  split.
  - refine (proj1 (Mount_checks_methods "/kng/list" "GetKngList" ["GET"; "POST"]
                     (Re.mkPattern "kng/list" _) [] RocketRouter_init eq_refl) _).
    simpl. intuition.
  - destruct (proj2 (Mount_checks_methods "/x" "h" ["GET"; "FETCH"; "TRACE"]
                       (Re.mkPattern "x" _) [] RocketRouter_init eq_refl))
      as (bad & Hfind & _ & _ & Hraise).
    + exists "FETCH". split; [simpl; tauto|].
      simpl. intros H. repeat (destruct H as [H|H]; [discriminate|]). exact H.
    + injection Hfind as <-. exact Hraise.
Defined.

(** C6 as stated fails: with a supported method only, the call does not
    return for a template that [Mount] cannot unpack, and with an unsupported
    method the error raised for it is not the configuration error. *)
Lemma Mount_supported_methods_not_enough :
  (forall m, In m ["GET"] -> In m ["GET"; "POST"; "PUT"; "DELETE"; "PATCH"])
  /\ fst (Mount "/kng/{kid}" "GetKngDetails" ["GET"] RocketRouter_init) = Raise ValueError
  /\ fst (Mount "/kng/{kid}" "GetKngDetails" ["FETCH"] RocketRouter_init) = Raise ValueError.
Proof.
  split; [|split]; try reflexivity.
  intros m [<-|[]]. simpl. tauto.
Qed.

(** ** Match *)

(** C8.  A call of [Match] leaves the router as it was: the route table
    before and after is the same, whatever the path and the method and
    however the call ends. *)
Theorem Match_leaves_routes route httpApiFunc w :
  router (snd (Match route httpApiFunc w)) = router w.
Proof.
  unfold Match, bind, gets, ret, raise, lift, Debug, modify.
  destruct (negb (Nat.eqb _ 1)).
  - now destruct (Nat.ltb 1 _).
  - destruct (matching_templates (routes (router w)) route) as [|template rest];
      [reflexivity|].
    destruct (cast_variables _ _ _); try reflexivity.
    now destruct (Get (HttpMethodsMap template) httpApiFunc).
Qed.

(** ** Patterns *)

Module ReFacts.

Import Re.

(** A matching sequence still matches when the input is made longer: the
    pattern is tied to the start of the input, not to its end. *)
Lemma match_repeat_extend a (k k' : string -> bool) t :
  (forall s, k s = true -> k' (s ++ t)%string = true) ->
  forall s lo hi,
    match_repeat a k lo hi s = true -> match_repeat a k' lo hi (s ++ t)%string = true.
Proof.
  intros Hk. induction s as [|c s IH]; intros lo hi H.
  - simpl in H. apply andb_true_iff in H as [Hlo Hks].
    apply Hk in Hks. simpl in Hks.
    destruct t as [|c t]; simpl; rewrite Hlo, Hks; simpl;
      [reflexivity | apply orb_true_r].
  - cbn [match_repeat append] in *.
    apply orb_true_iff in H as [H | H]; apply orb_true_iff.
    + left. destruct hi as [[|n]|]; try discriminate;
        apply andb_true_iff in H as [Ha Hr]; rewrite Ha; simpl; now apply IH.
    + right. apply andb_true_iff in H as [Hlo Hks]. rewrite Hlo. simpl.
      now apply (Hk (String c s)).
Qed.

Lemma match_items_extend its : forall s t,
  match_items its s = true -> match_items its (s ++ t)%string = true.
Proof.
  induction its as [|[a | lo hi a] its IH]; intros s t H; simpl in *.
  - reflexivity.
  - destruct s as [|c s]; [discriminate|]. simpl.
    apply andb_true_iff in H as [Ha Hr]. rewrite Ha. simpl. now apply IH.
  - revert H. apply match_repeat_extend. intros s0. apply IH.
Qed.

Lemma matches_extend p s t : matches p s = true -> matches p (s ++ t)%string = true.
Proof.
  unfold matches. rewrite !existsb_exists.
  intros (br & Hin & Hm). exists br. split; [exact Hin|].
  now apply match_items_extend.
Qed.

(** The matcher decides whether some string of the language starts the
    input. *)
Lemma match_repeat_spec a (k : string -> bool) s : forall lo hi,
  match_repeat a k lo hi s = true <->
  exists u r, s = (u ++ r)%string /\ all_chars (atom_matches a) u = true
              /\ (lo <= N.of_nat (String.length u))%N
              /\ at_most hi (N.of_nat (String.length u)) /\ k r = true.
Proof.
  induction s as [|c s IH]; intros lo hi.
  - simpl. rewrite andb_true_iff, N.eqb_eq. split.
    + intros [-> Hk]. exists EmptyString, EmptyString. simpl.
      repeat split; auto; [lia | destruct hi; simpl; lia].
    + intros (u & r & Hs & _ & Hlo & _ & Hk).
      destruct u; [|discriminate]. simpl in *. subst r. split; [lia | exact Hk].
  - cbn [match_repeat]. rewrite orb_true_iff. split.
    + intros [H | H].
      * assert (Hhi : hi <> Some 0%N) by (intros ->; discriminate).
        assert (H' : atom_matches a c
                     && match_repeat a k (N.pred lo) (option_map N.pred hi) s = true)
          by (destruct hi as [[|n]|]; [contradiction | exact H | exact H]).
        apply andb_true_iff in H' as [Ha Hr].
        apply IH in Hr as (u & r & -> & Hu & Hlo & Hmax & Hk).
        exists (String c u), r. simpl. rewrite Ha, Hu. repeat split; auto; [lia|].
        destruct hi as [h|]; simpl in *; [|exact I].
        assert (h <> 0%N) by congruence. lia.
      * apply andb_true_iff in H as [Hlo Hk]. apply N.eqb_eq in Hlo.
        exists EmptyString, (String c s). simpl.
        repeat split; auto; [lia | destruct hi; simpl; lia].
    + intros (u & r & Hs & Hu & Hlo & Hmax & Hk). destruct u as [|d u].
      * right. simpl in *. subst r. rewrite Hk, andb_true_r. apply N.eqb_eq. lia.
      * left. simpl in Hs. injection Hs as <- ->. simpl in Hu.
        apply andb_true_iff in Hu as [Ha Hu].
        assert (Hr : match_repeat a k (N.pred lo) (option_map N.pred hi) (u ++ r) = true).
        { apply IH. exists u, r. repeat split; auto.
          - simpl String.length in Hlo. lia.
          - destruct hi as [h|]; simpl in *; [lia | exact I]. }
        rewrite Ha, Hr.
        destruct hi as [[|n]|]; try reflexivity. simpl in Hmax. lia.
Qed.

Lemma match_items_spec its : forall s,
  match_items its s = true <-> exists w r, s = (w ++ r)%string /\ seq_lang its w.
Proof.
  induction its as [|[a | lo hi a] its IH]; intros s.
  - simpl. split; [|reflexivity].
    intros _. exists EmptyString, s. split; [reflexivity | constructor].
  - cbn [match_items]. destruct s as [|c s].
    + split; [discriminate|]. intros (w & r & Hs & Hl).
      inversion Hl; subst. discriminate.
    + rewrite andb_true_iff, IH. split.
      * intros (Ha & w & r & -> & Hl). exists (String c w), r.
        split; [reflexivity | now constructor].
      * intros (w & r & Hs & Hl). inversion Hl; subst.
        simpl in Hs. injection Hs as -> ->. split; [assumption | eauto].
  - cbn [match_items]. rewrite match_repeat_spec. split.
    + intros (u & r & -> & Hu & Hlo & Hmax & Hk).
      apply IH in Hk as (w & r' & -> & Hl).
      exists (u ++ w)%string, r'. split.
      * clear. induction u as [|c u IHu]; simpl; [reflexivity | now rewrite IHu].
      * now constructor.
    + intros (w & r & -> & Hl). inversion Hl; subst.
      exists u, (w0 ++ r)%string. repeat split; auto.
      * clear. induction u as [|c u IHu]; simpl; [reflexivity | now rewrite IHu].
      * apply IH. eauto.
Qed.

(** [p.match(s)] finds a match exactly when a string of the language of
    [p] is a prefix of [s]. *)
Lemma matches_spec p s :
  matches p s = true <-> exists w r, s = (w ++ r)%string /\ lang p w.
Proof.
  unfold matches, lang. rewrite existsb_exists. split.
  - intros (br & Hin & Hm). apply match_items_spec in Hm as (w & r & -> & Hl). eauto 6.
  - intros (w & r & -> & br & Hin & Hl). exists br. split; [exact Hin|].
    apply match_items_spec. eauto.
Qed.

Lemma parse_plain_char fuel c rest cur done :
  special c = false ->
  parse (S fuel) (String c rest) cur done = parse fuel rest (ONE (LITERAL c) :: cur) done.
Proof.
  intros H. unfold special in H. simpl in H.
  repeat (apply orb_false_iff in H; destruct H as [? H]).
  cbn [parse].
  repeat match goal with
         | E : Ascii.eqb c _ = false |- _ => rewrite E; clear E
         end.
  reflexivity.
Qed.

Lemma parse_plain s : forall fuel cur done,
  plain s = true -> String.length s < fuel ->
  parse fuel s cur done = Compiled (rev ((rev cur ++ literal_items s) :: done)).
Proof.
  induction s as [|c s IH]; intros fuel cur done Hp Hf.
  - destruct fuel; [inversion Hf|]. simpl. now rewrite app_nil_r.
  - destruct fuel; [inversion Hf|].
    simpl in Hp. apply andb_true_iff in Hp as [Hc Hs].
    apply negb_true_iff in Hc.
    rewrite parse_plain_char by exact Hc.
    rewrite IH; [|exact Hs | simpl in Hf; lia].
    simpl. now rewrite <- app_assoc.
Qed.

Lemma compile_plain s :
  plain s = true -> compile s = CompileOk (mkPattern s [literal_items s]).
Proof.
  intros Hp. unfold compile. rewrite parse_plain by (auto; lia). reflexivity.
Qed.

Lemma match_literal_items s : forall p,
  match_items (literal_items s) p = String.prefix s p.
Proof.
  induction s as [|c s IH]; intros p; simpl.
  - now destruct p.
  - destruct p as [|d p]; [reflexivity|]. simpl.
    destruct (ascii_dec c d) as [->|Hne].
    + now rewrite Ascii.eqb_refl, IH.
    + apply Ascii.eqb_neq in Hne. now rewrite Hne.
Qed.

Lemma matches_plain s p :
  matches (mkPattern s [literal_items s]) p = String.prefix s p.
Proof. unfold matches. simpl. now rewrite match_literal_items, orb_false_r. Qed.

Lemma all_chars_append P s1 s2 :
  all_chars P (s1 ++ s2)%string = all_chars P s1 && all_chars P s2.
Proof. induction s1 as [|c s1 IH]; simpl; [reflexivity | now rewrite IH, andb_assoc]. Qed.

Lemma plain_join l : forallb plain l = true -> plain (Py.join "/" l) = true.
Proof.
  unfold Py.join, plain.
  induction l as [|m [|m' l] IH]; simpl; intros H.
  - reflexivity.
  - now rewrite andb_true_r in H.
  - apply andb_true_iff in H as [Hm Hl].
    rewrite all_chars_append, Hm. simpl. apply IH. exact Hl.
Qed.

Lemma plain_not_variable m : plain m = true -> Py.startswith m "{" = false.
Proof.
  destruct m as [|c m]; [reflexivity|].
  unfold plain, Py.startswith. cbn [all_chars String.prefix]. intros H.
  apply andb_true_iff in H as [Hc _]. apply negb_true_iff in Hc.
  destruct (ascii_dec "{" c) as [<-|]; [discriminate | reflexivity].
Qed.

End ReFacts.

Lemma convert_modules_plain todo : forall index modules variables,
  forallb Re.plain todo = true ->
  convert_modules index todo modules variables = Return (modules ++ todo, variables).
Proof.
  induction todo as [|m todo IH]; intros index modules variables H; simpl.
  - now rewrite app_nil_r.
  - simpl in H. apply andb_true_iff in H as [Hm Htodo].
    rewrite (ReFacts.plain_not_variable m Hm), IH by exact Htodo.
    now rewrite <- app_assoc.
Qed.

Lemma compile_template_literal T :
  literal_template T = true ->
  let joined := Py.join "/" (split_modules T) in
  compile_template T
  = Return (Re.mkPattern joined [Re.literal_items joined], []).
Proof.
  intros HT joined. unfold compile_template.
  rewrite convert_modules_plain by exact HT. simpl.
  unfold compile_modules. fold joined.
  now rewrite (ReFacts.compile_plain joined (ReFacts.plain_join _ HT)).
Qed.

(** The outcome of [Match] on a router that holds one literal template. *)
Lemma Match_literal_template T f ms p m' :
  literal_template T = true ->
  forallb possible ms = true ->
  let joined := Py.join "/" (split_modules T) in
  fst (Match p m' (serving (after (Mount T f ms) RocketRouter_init)))
  = if String.prefix joined p then
      if in_dec string_dec m' ms then Return (Some (mkRocketSpecificPath [] f), None)
      else Return (None, Some (mkError "HTTP method is not allowed on this route"
                                 METHOD_NOT_ALLOWED))
    else Return (None, Some (mkError "no matching routes could be found" NOT_FOUND)).
Proof.
  intros HT Hms joined. unfold after.
  rewrite (Mount_possible T f ms _ _ _ (compile_template_literal T HT) Hms).
  fold joined. unfold Match, bind, gets, serving, matching_templates.
  cbn [Dict.get Dict.set RocketRouter_init routes router snd fst filter map mounted].
  rewrite ReFacts.matches_plain.
  destruct (String.prefix joined p); cbn; [|reflexivity].
  destruct (in_dec string_dec m' ms) as [Hin | Hout].
  - now rewrite Get_register_all_in.
  - now rewrite Get_register_all_other.
Qed.

(** C2, as the code has it.  For a literal template [T] without special
    characters, mounted alone with handler [f] and supported methods [ms]:
    a call [Match(p, m')] that returns a resolved call returns the handler [f]
    with no arguments, and then the modules of [T] joined by slashes are a
    prefix of [p] (so [p] does not start with a slash unless [T] has no
    module) and [m'] is among [ms]; for [p] equal to the joined modules of [T]
    the call returns a resolved call exactly when [m'] is among [ms]. *)
Theorem literal_template_Match T f ms p m' :
  literal_template T = true ->
  forallb possible ms = true ->
  let joined := Py.join "/" (split_modules T) in
  let result := fst (Match p m' (serving (after (Mount T f ms) RocketRouter_init))) in
  (forall call, result = Return (Some call, None) ->
     String.prefix joined p = true /\ In m' ms /\ call = mkRocketSpecificPath [] f)
  /\ (p = joined ->
      ((exists call, result = Return (Some call, None)) <-> In m' ms)).
Proof.
  intros HT Hms joined result.
  assert (Hr : result
               = if String.prefix joined p then
                   if in_dec string_dec m' ms
                   then Return (Some (mkRocketSpecificPath [] f), None)
                   else Return (None, Some (mkError "HTTP method is not allowed on this route"
                                              METHOD_NOT_ALLOWED))
                 else Return (None, Some (mkError "no matching routes could be found"
                                            NOT_FOUND)))
    by (apply Match_literal_template; assumption).
  clearbody result. subst result. split.
  - intros call. destruct (String.prefix joined p); [|discriminate].
    destruct (in_dec string_dec m' ms); [|discriminate].
    intros [= <-]. auto.
  - intros ->.
    assert (Hp : String.prefix joined joined = true).
    { apply String.prefix_correct.
      clear. induction joined as [|c s IH]; simpl; [reflexivity | now rewrite IH]. }
    rewrite Hp. destruct (in_dec string_dec m' ms) as [Hin | Hout]; split.
    + auto.
    + intros _. now eexists.
    + intros (call & Hcall). discriminate.
    + contradiction.
Qed.

Lemma literal_template_Match_witness :
  let result m :=
    fst (Match "kng/list" m
           (serving (after (Mount "/kng/list" "GetKngList" ["GET"]) RocketRouter_init))) in
  ((exists call, result "GET" = Return (Some call, None)) <-> In "GET" ["GET"])
  /\ ((exists call, result "POST" = Return (Some call, None)) <-> In "POST" ["GET"]).
Proof.
  intros result. split.
  - exact (proj2 (literal_template_Match "/kng/list" "GetKngList" ["GET"] "kng/list" "GET"
                    eq_refl eq_refl) eq_refl).
  - exact (proj2 (literal_template_Match "/kng/list" "GetKngList" ["GET"] "kng/list" "POST"
                    eq_refl eq_refl) eq_refl).
Defined.

(** C2 as stated fails: the path [/kng/list] has the modules of the
    template [/kng/list], and GET is registered for it, but its leading slash
    keeps the pattern from matching. *)
Lemma literal_template_leading_slash :
  literal_template "/kng/list" = true
  /\ split_modules "/kng/list" = ["kng"; "list"]
  /\ (exists route,
        map snd (routes (after (Mount "/kng/list" "GetKngList" ["GET"]) RocketRouter_init))
        = [route]
        /\ Get (HttpMethodsMap route) "GET" = Some "GetKngList")
  /\ fst (Match "/kng/list" "GET"
            (serving (after (Mount "/kng/list" "GetKngList" ["GET"]) RocketRouter_init)))
     = Return (None, Some (mkError "no matching routes could be found" NOT_FOUND)).
Proof.
  repeat split. eexists. split; reflexivity.
Qed.

(** C3, as the code has it.  After [Mount("/items/{n:int64}", h, ["GET"])]
    the path [items/42] (no leading slash, as the front controller passes it)
    resolves for GET to [h] with the arguments [{n: 42}], [42] an integer; the
    paths [items/abc] and [/items/abc] yield the not-found error, no
    exception. *)
Theorem Match_int64_variable h :
  let w := serving (after (Mount "/items/{n:int64}" h ["GET"]) RocketRouter_init) in
  fst (Match "items/42" "GET" w)
  = Return (Some (mkRocketSpecificPath [("n", VInt 42)] h), None)
  /\ fst (Match "items/abc" "GET" w) = Return (None, Some NotFound)
  /\ fst (Match "/items/abc" "GET" w) = Return (None, Some NotFound)
  /\ HttpStatus_value (Status NotFound) = 404%Z.
Proof. intros w. repeat split. Qed.

(** C3 as stated fails: the path [/items/42], with its leading slash, is
    not found. *)
Lemma Match_int64_leading_slash :
  fst (Match "/items/42" "GET"
         (serving (after (Mount "/items/{n:int64}" "h" ["GET"]) RocketRouter_init)))
  = Return (None, Some NotFound).
Proof. reflexivity. Qed.

(** C4, as the code has it.  With [/a/{x:str}] and [/a/{y:int64}] mounted,
    in either order and for any handlers and supported methods, the path
    [a/42] (no leading slash) yields the ambiguity error, status 300, for
    every request method: neither route is picked. *)
Theorem Match_ambiguous h1 ms1 h2 ms2 m :
  forallb possible ms1 = true -> forallb possible ms2 = true ->
  let str_first :=
    after (Mount "/a/{x:str}" h1 ms1 ;; Mount "/a/{y:int64}" h2 ms2) RocketRouter_init in
  let int_first :=
    after (Mount "/a/{y:int64}" h2 ms2 ;; Mount "/a/{x:str}" h1 ms1) RocketRouter_init in
  fst (Match "a/42" m (serving str_first)) = Return (None, Some AmbiguousRoute)
  /\ fst (Match "a/42" m (serving int_first)) = Return (None, Some AmbiguousRoute)
  /\ HttpStatus_value (Status AmbiguousRoute) = 300%Z.
Proof.
  intros H1 H2 str_first int_first.
  assert (Hs : exists r1 v1 r2 v2,
             compile_template "/a/{x:str}" = Return (r1, v1)
             /\ compile_template "/a/{y:int64}" = Return (r2, v2)
             /\ Re.Pattern_eqb r1 r2 = false /\ Re.Pattern_eqb r2 r1 = false
             /\ Re.matches r1 "a/42" = true /\ Re.matches r2 "a/42" = true)
    by (do 4 eexists; repeat split; vm_compute; reflexivity).
  destruct Hs as (r1 & v1 & r2 & v2 & Hc1 & Hc2 & H12 & H21 & Hm1 & Hm2).
  assert (Hstr : routes str_first
                 = [(r1, mounted "/a/{x:str}" v1 h1 ms1 None);
                    (r2, mounted "/a/{y:int64}" v2 h2 ms2 None)]).
  { unfold str_first, after, bind.
    rewrite (Mount_possible _ _ _ _ _ _ Hc1 H1).
    rewrite (Mount_possible _ _ _ _ _ _ Hc2 H2).
    cbn [Dict.get Dict.set RocketRouter_init routes snd]. now rewrite H12. }
  assert (Hint : routes int_first
                 = [(r2, mounted "/a/{y:int64}" v2 h2 ms2 None);
                    (r1, mounted "/a/{x:str}" v1 h1 ms1 None)]).
  { unfold int_first, after, bind.
    rewrite (Mount_possible _ _ _ _ _ _ Hc2 H2).
    rewrite (Mount_possible _ _ _ _ _ _ Hc1 H1).
    cbn [Dict.get Dict.set RocketRouter_init routes snd]. now rewrite H21. }
  split; [|split]; [| |reflexivity];
    unfold Match, bind, gets, serving, matching_templates; cbn [router];
    [rewrite Hstr | rewrite Hint]; cbn [filter fst]; rewrite Hm1, Hm2; reflexivity.
Qed.

Lemma Match_ambiguous_witness :
  fst (Match "a/42" "GET"
         (serving (after (Mount "/a/{x:str}" "h1" ["GET"] ;;
                          Mount "/a/{y:int64}" "h2" ["GET"; "POST"]) RocketRouter_init)))
  = Return (None, Some AmbiguousRoute).
Proof.
  exact (proj1 (Match_ambiguous "h1" ["GET"] "h2" ["GET"; "POST"] "GET" eq_refl eq_refl)).
Defined.

(** C4 as stated fails: the path [/a/42], with its leading slash, is not
    found (status 404). *)
Lemma Match_ambiguous_leading_slash :
  fst (Match "/a/42" "GET"
         (serving (after (Mount "/a/{x:str}" "h1" ["GET"] ;;
                          Mount "/a/{y:int64}" "h2" ["GET"]) RocketRouter_init)))
  = Return (None, Some NotFound)
  /\ HttpStatus_value (Status NotFound) = 404%Z.
Proof. split; reflexivity. Qed.

(** Every template that matches a path also matches each path that
    starts with it. *)
Lemma matching_templates_extend rs route more template :
  In template (matching_templates rs route) ->
  In template (matching_templates rs (route ++ more)).
Proof.
  unfold matching_templates. rewrite !in_map_iff.
  intros (entry & <- & Hin). exists entry. split; [reflexivity|].
  apply filter_In in Hin as [Hin Hm]. apply filter_In. split; [exact Hin|].
  now apply ReFacts.matches_extend.
Qed.

(** C1 at a failing input.  The pattern of the template [/kng/list] is not
    tied to the end of the path: the paths [kng/listing] and
    [kng/list/and/more] are collected for it and resolve to its handler. *)
Theorem Match_collects_prefix_match :
  let w := serving (after (Mount "/kng/list" "GetKngList" ["GET"]) RocketRouter_init) in
  fst (Match "kng/list" "GET" w)
  = Return (Some (mkRocketSpecificPath [] "GetKngList"), None)
  /\ fst (Match "kng/listing" "GET" w)
     = Return (Some (mkRocketSpecificPath [] "GetKngList"), None)
  /\ fst (Match "kng/list/and/more" "GET" w)
     = Return (Some (mkRocketSpecificPath [] "GetKngList"), None).
Proof. intros w. repeat split. Qed.

(** What [Match] can do: return a resolved call and no error, return no
    call and one of its three errors, or raise while casting a variable. *)
Lemma Match_outcomes route httpApiFunc w :
  (exists call, fst (Match route httpApiFunc w) = Return (Some call, None))
  \/ (exists e, fst (Match route httpApiFunc w) = Return (None, Some e)
                /\ In (HttpStatus_value (Status e)) [404; 405; 300]%Z)
  \/ fst (Match route httpApiFunc w) = Raise ValueError
  \/ fst (Match route httpApiFunc w) = Raise IndexError.
Proof.
  assert (Hcast : forall vars modules acc,
             (exists d, cast_variables vars modules acc = Return d)
             \/ cast_variables vars modules acc = Raise ValueError
             \/ cast_variables vars modules acc = Raise IndexError).
  { induction vars as [|var vars IH]; intros modules acc; simpl.
    - left. now eexists.
    - destruct (nth_error modules (Index var)); [|tauto].
      destruct (construct (Class var) s); [apply IH | tauto]. }
  unfold Match, bind, gets, ret, raise, lift, Debug, modify.
  destruct (matching_templates (routes (router w)) route) as [|template [|other rest]].
  - right. left. exists NotFound. simpl. tauto.
  - cbn [List.length Nat.eqb negb].
    destruct (Hcast (TemplatedPathVariables template) (Py.split "/" route) [])
      as [[d ->] | [-> | ->]]; [|tauto|tauto].
    destruct (Get (HttpMethodsMap template) httpApiFunc).
    + left. now eexists.
    + right. left. exists MethodNotAllowed. simpl. tauto.
  - right. left. exists AmbiguousRoute. simpl. tauto.
Qed.

(** C7 at failing inputs.  [Match] raises instead of returning an error
    value: the pattern of [/items/{n:int64}] accepts the path [items/42abc],
    whose module [42abc] is then not an integer; the pattern of
    [/items/{x:float64}] accepts the path [42], which has no module at the
    position of the variable. *)
Theorem Match_raises :
  fst (Match "items/42abc" "GET"
         (serving (after (Mount "/items/{n:int64}" "h" ["GET"]) RocketRouter_init)))
  = Raise ValueError
  /\ fst (Match "42" "GET"
            (serving (after (Mount "/items/{x:float64}" "h" ["GET"]) RocketRouter_init)))
     = Raise IndexError.
Proof. split; reflexivity. Qed.

(** ** The router of the application *)

Example main_router_routes :
  map (fun entry => (Re.pattern (fst entry), TemplatedPathStr (snd entry)))
      (routes main_router)
  = [("kng/list", "/kng/list");
     ("kng/[-a-zA-Z0-9@:%._\+~#=]+/details", "/kng/{kid:str}/details");
     ("kng/[-a-zA-Z0-9@:%._\+~#=]+/visualisation.html",
      "/kng/{kid:str}/visualisation.html");
     ("kng/[-a-zA-Z0-9@:%._\+~#=]+/create", "/kng/{kid:str}/create");
     ("kng/[-a-zA-Z0-9@:%._\+~#=]+/predict", "/kng/{kid:str}/predict");
     ("kng/[-a-zA-Z0-9@:%._\+~#=]+/train_model", "/kng/{kid:str}/train_model")].
Proof. reflexivity. Qed.

Example main_router_details :
  Match "kng/abc-1/details" "GET" (serving main_router)
  = (Return (Some (mkRocketSpecificPath [("kid", VStr "abc-1")] "GetKngDetails"), None),
     mkProcess main_router ["    => Matched: (GetKngDetails) GET /kng/{kid:str}/details"])
  /\ fst (Match "kng/abc-1/details" "POST" (serving main_router))
     = Return (None, Some MethodNotAllowed)
  /\ fst (Match "kng/abc-1/unknown" "GET" (serving main_router))
     = Return (None, Some NotFound).
Proof. repeat split. Qed.

Example FromStr_examples :
  map FromStr ["int64"; "Int64"; "FLOAT64"; "uuid4"; "str"; "bool"; ""]
  = [INT64; INT64; FLOAT64; UUID4; STR; STR; STR].
Proof. reflexivity. Qed.

Example split_modules_examples :
  split_modules "/kng//list/" = ["kng"; "list"] /\ split_modules "" = [] /\ split_modules "/" = [].
Proof. repeat split. Qed.

(* ================================================================== *)
(** * Further properties of the router *)

(** ** The type registry *)

(** X1.  The lower-case name that [ToStr] gives a type is resolved by
    [FromStr] to that type again. *)
Theorem FromStr_ToStr v : FromStr (ToStr v) = v.
Proof. now destruct v. Qed.

Lemma upper_char_idempotent c : Py.upper_char (Py.upper_char c) = Py.upper_char c.
Proof. destruct c as [[] [] [] [] [] [] [] []]; reflexivity. Qed.

Lemma upper_lower_char c : Py.upper_char (Py.lower_char c) = Py.upper_char c.
Proof. destruct c as [[] [] [] [] [] [] [] []]; reflexivity. Qed.

Lemma upper_idempotent s : Py.upper (Py.upper s) = Py.upper s.
Proof. induction s as [|c s IH]; simpl; [reflexivity | now rewrite upper_char_idempotent, IH]. Qed.

Lemma upper_lower s : Py.upper (Py.lower s) = Py.upper s.
Proof. induction s as [|c s IH]; simpl; [reflexivity | now rewrite upper_lower_char, IH]. Qed.

(** X2.  [FromStr] does not look at the case of the letters of a tag:
    a tag, its upper-case form and its lower-case form name the same type. *)
Theorem FromStr_ignores_case tag :
  FromStr (Py.upper tag) = FromStr tag /\ FromStr (Py.lower tag) = FromStr tag.
Proof.
  unfold FromStr. now rewrite upper_idempotent, upper_lower.
Qed.

(** ** The method tables of a built router *)

Lemma set_In_string {V : Type} (d : list (string * V)) k v a b :
  In (a, b) (Dict.set String.eqb d k v) -> In (a, b) d \/ (a = k /\ b = v).
Proof.
  induction d as [|[k0 v0] d IH]; simpl.
  - intros [[= <- <-] | []]. now right.
  - destruct (String.eqb k0 k) eqn:E; simpl.
    + apply String.eqb_eq in E. subst k0. intros [[= <- <-] | H]; auto.
    + intros [H | H]; [now left; left|]. destruct (IH H); auto.
Qed.

Lemma set_In_value {K V : Type} (eqb : K -> K -> bool) (d : list (K * V)) k v a b :
  In (a, b) (Dict.set eqb d k v) -> In (a, b) d \/ b = v.
Proof.
  induction d as [|[k0 v0] d IH]; simpl.
  - intros [[= <- <-] | []]. now right.
  - destruct (eqb k0 k); simpl.
    + intros [[= <- <-] | H]; auto.
    + intros [H | H]; [now left; left|]. destruct (IH H); auto.
Qed.

Lemma get_In {K V : Type} (eqb : K -> K -> bool) (d : list (K * V)) k v :
  Dict.get eqb d k = Some v -> exists k', In (k', v) d /\ eqb k' k = true.
Proof.
  induction d as [|[k0 v0] d IH]; simpl; [discriminate|].
  destruct (eqb k0 k) eqn:E.
  - intros [= <-]. exists k0. auto.
  - intros H. destruct (IH H) as (k' & Hin & Hk). exists k'. auto.
Qed.

Lemma wf_NoDup {V : Type} (d : list (string * V)) :
  Dict.wf String.eqb d -> NoDup (map fst d).
Proof.
  induction d as [|[k v] d IH]; simpl; [constructor|].
  intros [Hfresh Hwf]. constructor; [|auto].
  intros Hin. apply in_map_iff in Hin as ([k' v'] & Hk & Hin). simpl in Hk. subst k'.
  clear IH Hwf. induction d as [|[k0 v0] d IH]; [destruct Hin|].
  simpl in Hfresh. destruct (String.eqb k0 k) eqn:E; [discriminate|].
  destruct Hin as [[= -> ->] | Hin]; [now rewrite String.eqb_refl in E | auto].
Qed.

(** [Register] keeps a table sound, whether it returns or raises. *)
Lemma Register_sound ms f : forall tbl,
  methods_possible tbl /\ Dict.wf String.eqb (FunctionsLookup tbl) ->
  methods_possible (snd (Register ms f tbl))
  /\ Dict.wf String.eqb (FunctionsLookup (snd (Register ms f tbl))).
Proof.
  induction ms as [|m ms IH]; intros tbl [Hp Hwf]; simpl; [auto|].
  destruct (possible m) eqn:Hm; simpl; [|auto].
  unfold bind, modify.
  specialize (IH (mkHttpApiMethods (Dict.set String.eqb (FunctionsLookup tbl) m f))).
  destruct (Register ms f _) as [[| |] tbl']; simpl in *; apply IH; (split;
    [ intros m0 g0 Hin; apply set_In_string in Hin as [Hin | [-> _]]; eauto
    | apply DictFacts.set_preserves_wf; auto using String.eqb_refl, string_eqb_left ]).
Qed.

(** Where the routes of a router come from after one more [Mount]. *)
Lemma Mount_entries T f ms self p template :
  In (p, template) (routes (after (Mount T f ms) self)) ->
  In (p, template) (routes self)
  \/ HttpMethodsMap template = snd (Register ms f HttpApiMethods_init)
  \/ exists p0 old, In (p0, old) (routes self)
                    /\ HttpMethodsMap template = snd (Register ms f (HttpMethodsMap old)).
Proof.
  unfold after, Mount, bind, lift, gets.
  destruct (compile_template T) as [[regex variables]| |]; simpl; auto.
  destruct (Dict.get Re.Pattern_eqb (routes self) regex) as [old|] eqn:Hg.
  - unfold register_on.
    destruct (Register ms f (HttpMethodsMap old)) as [o methods] eqn:HR. simpl.
    intros Hin. apply set_In_value in Hin as [Hin | ->]; [auto|].
    right. right. destruct (get_In _ _ _ _ Hg) as (p0 & Hp0 & _).
    exists p0, old. split; [exact Hp0|]. simpl. now rewrite HR.
  - unfold RocketTemplatedPath_init, modify.
    destruct (Register ms f HttpApiMethods_init) as [[[]| |] methods] eqn:HR; simpl; auto.
    intros Hin. apply set_In_value in Hin as [Hin | ->]; auto.
Qed.

Lemma built_tables_sound self : built self -> tables_sound self.
Proof.
  induction 1 as [|T f ms self Hb IH].
  - intros p template [].
  - intros p template Hin.
    apply Mount_entries in Hin as [Hin | [-> | (p0 & old & Hold & ->)]].
    + eapply IH; eauto.
    + apply Register_sound. split; [intros m g [] | exact I].
    + apply Register_sound. eapply IH; eauto.
Qed.

(** X3.  In a router built by calls of [Mount], whatever they were and
    however they ended, every route lists only methods among GET, POST, PUT,
    DELETE and PATCH, and lists none of them twice. *)
Theorem built_router_methods self p template :
  built self -> In (p, template) (routes self) ->
  NoDup (map fst (FunctionsLookup (HttpMethodsMap template)))
  /\ forall m, In m (map fst (FunctionsLookup (HttpMethodsMap template))) ->
               In m ["GET"; "POST"; "PUT"; "DELETE"; "PATCH"].
Proof.
  intros Hb Hin. destruct (built_tables_sound self Hb p template Hin) as [Hp Hwf].
  split; [now apply wf_NoDup|].
  intros m Hm. apply in_map_iff in Hm as ([m' g] & <- & Hm).
  apply possible_iff. eapply Hp; eauto.
Qed.

Lemma main_router_built : built main_router.
Proof.
  unfold main_router.
  change (built
            (after (Mount "/kng/{kid:str}/train_model" "GetKngTrainModel" ["GET"])
            (after (Mount "/kng/{kid:str}/predict" "PostKngPredict" ["POST"])
            (after (Mount "/kng/{kid:str}/create" "PostKngCreate" ["POST"])
            (after (Mount "/kng/{kid:str}/visualisation.html" "GetKngVisualisation" ["GET"])
            (after (Mount "/kng/{kid:str}/details" "GetKngDetails" ["GET"])
            (after (Mount "/kng/list" "GetKngList" ["GET"]) RocketRouter_init))))))).
  repeat apply built_Mount. apply built_init.
Qed.

Lemma built_router_methods_witness :
  exists p template,
    In (p, template) (routes main_router)
    /\ NoDup (map fst (FunctionsLookup (HttpMethodsMap template))).
Proof.
  do 2 eexists. split; [left; reflexivity|].
  eapply built_router_methods; [exact main_router_built | left; reflexivity].
Defined.

Lemma matching_templates_In rs route template :
  In template (matching_templates rs route) -> exists p, In (p, template) rs.
Proof.
  unfold matching_templates. intros H.
  apply in_map_iff in H as ([p t0] & <- & H). apply filter_In in H as [H _]. eauto.
Qed.

(** X4.  A request whose method is not one of the five supported verbs is
    never resolved by a built router, whatever the path: the router answers
    with an error value or raises, it never returns a handler. *)
Theorem unsupported_method_never_resolves self route m log call :
  built self -> ~ In m ["GET"; "POST"; "PUT"; "DELETE"; "PATCH"] ->
  fst (Match route m (mkProcess self log)) <> Return (Some call, None).
Proof.
  intros Hb Hm. unfold Match, bind, gets, ret, raise, lift, Debug, modify.
  cbn [router].
  destruct (matching_templates (routes self) route) as [|template [|other rest]] eqn:Ht;
    cbn [List.length Nat.eqb negb Nat.ltb Nat.leb fst]; try discriminate.
  destruct (cast_variables _ _ _); cbn [fst]; try discriminate.
  destruct (Get (HttpMethodsMap template) m) as [g|] eqn:Hg; cbn [fst]; [|discriminate].
  exfalso. apply Hm.
  destruct (matching_templates_In (routes self) route template) as (p & Hin);
    [rewrite Ht; now left|].
  destruct (built_tables_sound self Hb p template Hin) as [Hp _].
  destruct (get_In _ _ _ _ Hg) as (m' & Hin' & E). apply String.eqb_eq in E. subst m'.
  apply possible_iff. eapply Hp. exact Hin'.
Qed.

Lemma unsupported_method_never_resolves_witness :
  built main_router
  /\ fst (Match "kng/list" "HEAD" (mkProcess main_router []))
     <> Return (Some (mkRocketSpecificPath [] "GetKngList"), None).
Proof.
  split; [exact main_router_built|].
  apply unsupported_method_never_resolves; [exact main_router_built|].
  simpl. intros H. repeat (destruct H as [H|H]; [discriminate|]). exact H.
Defined.

(** ** What [Mount] leaves alone *)

Lemma Mount_get_elsewhere T f ms self q :
  Dict.get Re.Pattern_eqb (routes (after (Mount T f ms) self)) q
  = Dict.get Re.Pattern_eqb (routes self) q
  \/ exists regex variables,
       compile_template T = Return (regex, variables) /\ Re.pattern regex = Re.pattern q.
Proof.
  unfold after, Mount, bind, lift, gets.
  destruct (compile_template T) as [[regex variables]| |]; simpl; auto.
  destruct (Re.Pattern_eqb regex q) eqn:E.
  - right. exists regex, variables. split; [reflexivity|]. now apply String.eqb_eq.
  - left. destruct (Dict.get Re.Pattern_eqb (routes self) regex) as [old|].
    + unfold register_on. destruct (Register ms f (HttpMethodsMap old)). simpl.
      apply DictFacts.get_set_other; [exact Pattern_eqb_left | exact E].
    + unfold modify. destruct (RocketTemplatedPath_init T variables f ms); simpl; auto.
      apply DictFacts.get_set_other; [exact Pattern_eqb_left | exact E].
Qed.

(** X5.  A call of [Mount] that returns or raises touches at most the
    route stored under the pattern of its template: the route under any other
    pattern is the same before and after. *)
Theorem Mount_other_patterns T f ms self q :
  fst (Mount T f ms self) <> Unmodelled ->
  Dict.get Re.Pattern_eqb (routes (after (Mount T f ms) self)) q
  = Dict.get Re.Pattern_eqb (routes self) q
  \/ exists regex variables,
       compile_template T = Return (regex, variables) /\ Re.pattern regex = Re.pattern q.
Proof. intros _. exact (Mount_get_elsewhere T f ms self q). Qed.

Lemma Mount_other_patterns_witness :
  fst (Mount "/kng/{kid:str}/details" "Other" ["POST"; "FETCH"] main_router) <> Unmodelled
  /\ (Dict.get Re.Pattern_eqb
        (routes (after (Mount "/kng/{kid:str}/details" "Other" ["POST"; "FETCH"]) main_router))
        (Re.mkPattern "kng/list" [Re.literal_items "kng/list"])
      = Dict.get Re.Pattern_eqb (routes main_router)
          (Re.mkPattern "kng/list" [Re.literal_items "kng/list"])
      \/ exists regex variables,
           compile_template "/kng/{kid:str}/details" = Return (regex, variables)
           /\ Re.pattern regex = "kng/list").
Proof.
  assert (H : fst (Mount "/kng/{kid:str}/details" "Other" ["POST"; "FETCH"] main_router)
              <> Unmodelled) by (vm_compute; discriminate).
  split; [exact H|].
  exact (Mount_other_patterns "/kng/{kid:str}/details" "Other" ["POST"; "FETCH"] main_router
           (Re.mkPattern "kng/list" [Re.literal_items "kng/list"]) H).
Defined.

(** [Register] never unregisters a method. *)
Lemma Register_keeps ms f : forall tbl m g,
  Get tbl m = Some g -> exists g', Get (snd (Register ms f tbl)) m = Some g'.
Proof.
  induction ms as [|m0 ms IH]; intros tbl m g Hg; simpl; [eauto|].
  destruct (possible m0); simpl; [|eauto].
  unfold bind, modify.
  assert (Hset : exists g0,
             Get (mkHttpApiMethods (Dict.set String.eqb (FunctionsLookup tbl) m0 f)) m
             = Some g0).
  { unfold Get in *. simpl. destruct (String.eqb m0 m) eqn:E.
    - apply String.eqb_eq in E. subst m0. exists f.
      apply DictFacts.get_set_same. exact String.eqb_refl.
    - exists g. rewrite DictFacts.get_set_other; [exact Hg | exact string_eqb_left | exact E]. }
  destruct Hset as (g0 & Hg0). destruct (IH _ _ _ Hg0) as (g' & Hg').
  exists g'. now destruct (Register ms f _) as [[| |] tbl'].
Qed.

(** X6.  [Mount] never takes anything away: a route that is in the table
    stays under its pattern with its template text and its variables, and a
    method registered on it stays registered (perhaps for another handler),
    whatever template is mounted and however the call ends. *)
Theorem Mount_never_removes T f ms self q template :
  Dict.get Re.Pattern_eqb (routes self) q = Some template ->
  exists template',
    Dict.get Re.Pattern_eqb (routes (after (Mount T f ms) self)) q = Some template'
    /\ TemplatedPathStr template' = TemplatedPathStr template
    /\ TemplatedPathVariables template' = TemplatedPathVariables template
    /\ forall m g, Get (HttpMethodsMap template) m = Some g ->
                   exists g', Get (HttpMethodsMap template') m = Some g'.
Proof.
  intros Hq.
  destruct (Mount_get_elsewhere T f ms self q) as [Hsame | (regex & variables & Hc & Hp)].
  - exists template. rewrite Hsame. repeat split; eauto.
  - assert (E : Re.Pattern_eqb regex q = true) by now apply String.eqb_eq.
    assert (Hr : Dict.get Re.Pattern_eqb (routes self) regex = Some template)
      by now rewrite (DictFacts.get_congr _ Pattern_eqb_refl Pattern_eqb_left _ _ _ E).
    unfold after. rewrite (Mount_compiled _ _ _ _ _ _ Hc), Hr. unfold register_on.
    destruct (Register ms f (HttpMethodsMap template)) as [o methods] eqn:HR. simpl.
    eexists. split.
    + rewrite <- (DictFacts.get_congr _ Pattern_eqb_refl Pattern_eqb_left _ _ _ E).
      apply DictFacts.get_set_same. exact Pattern_eqb_refl.
    + repeat split. simpl. intros m g Hg.
      destruct (Register_keeps ms f _ _ _ Hg) as (g' & Hg'). rewrite HR in Hg'. eauto.
Qed.

Lemma Mount_never_removes_witness :
  exists template',
    Dict.get Re.Pattern_eqb
      (routes (after (Mount "kng/list/" "Other" ["POST"; "FETCH"])
                 (after (Mount "/kng/list" "GetKngList" ["GET"]) RocketRouter_init)))
      (Re.mkPattern "kng/list" [Re.literal_items "kng/list"]) = Some template'
    /\ TemplatedPathStr template' = "/kng/list"
    /\ exists g', Get (HttpMethodsMap template') "GET" = Some g'.
Proof.
  destruct (Mount_never_removes "kng/list/" "Other" ["POST"; "FETCH"]
              (after (Mount "/kng/list" "GetKngList" ["GET"]) RocketRouter_init)
              (Re.mkPattern "kng/list" [Re.literal_items "kng/list"]) _ eq_refl)
    as (template' & Hget & Htext & _ & Hmethods).
  exists template'. split; [exact Hget|]. split; [exact Htext|].
  apply (Hmethods "GET" "GetKngList"). reflexivity.
Defined.

(** ** Slashes in a template *)

Lemma split_not_nil sep s : Py.split sep s <> [].
Proof.
  destruct s as [|c s]; simpl; [discriminate|].
  destruct (Ascii.eqb c sep); [discriminate|]. now destruct (Py.split sep s).
Qed.

(** Splitting distributes over a separator in the middle. *)
Lemma split_app_sep sep (a b : string) :
  Py.split sep (a ++ String sep b) = Py.split sep a ++ Py.split sep b.
Proof.
  induction a as [|c a IH]; simpl.
  - now rewrite Ascii.eqb_refl.
  - destruct (Ascii.eqb c sep); [now rewrite IH|].
    rewrite IH. pose proof (split_not_nil sep a) as Hn.
    now destruct (Py.split sep a).
Qed.

Lemma split_modules_app_slash (a b : string) :
  split_modules (a ++ String "/" b) = split_modules a ++ split_modules b.
Proof. unfold split_modules. now rewrite split_app_sep, filter_app. Qed.

Lemma compile_template_modules T1 T2 :
  split_modules T1 = split_modules T2 -> compile_template T1 = compile_template T2.
Proof. unfold compile_template. now intros ->. Qed.

(** X7.  Slashes that delimit no module do not count in a template: a
    slash put in front of a template or behind it, or an inner slash written
    twice, leaves the compiled pattern and the variables as they were (so
    such spellings are mounted on one and the same route). *)
Theorem template_slashes_insignificant (T a b : string) :
  compile_template (String "/" T) = compile_template T
  /\ compile_template (T ++ "/") = compile_template T
  /\ compile_template (a ++ String "/" (String "/" b))
     = compile_template (a ++ String "/" b).
Proof.
  split; [|split]; apply compile_template_modules.
  - reflexivity.
  - rewrite split_modules_app_slash. apply app_nil_r.
  - now rewrite !split_modules_app_slash.
Qed.

(** ** The order of the routes *)

Lemma matching_templates_Permutation rs rs' route :
  Permutation rs rs' ->
  Permutation (matching_templates rs route) (matching_templates rs' route).
Proof.
  intros H. unfold matching_templates. apply Permutation_map.
  induction H; simpl.
  - constructor.
  - destruct (Re.matches (fst x) route); [now constructor | assumption].
  - destruct (Re.matches (fst x) route), (Re.matches (fst y) route);
      try reflexivity; now constructor.
  - etransitivity; eassumption.
Qed.

(** X8.  What [Match] returns does not depend on the order in which the
    routes are stored: two routers whose tables hold the same routes give the
    same result for every path and method. *)
Theorem Match_ignores_route_order self self' route m log log' :
  Permutation (routes self) (routes self') ->
  fst (Match route m (mkProcess self log)) = fst (Match route m (mkProcess self' log')).
Proof.
  intros H. apply (matching_templates_Permutation _ _ route) in H.
  unfold Match, bind, gets, ret, raise, lift, Debug, modify. cbn [router].
  rewrite (Permutation_length H).
  destruct (matching_templates (routes self') route) as [|t' [|u' rest']] eqn:E'.
  - apply Permutation_sym, Permutation_nil in H. now rewrite H.
  - apply Permutation_sym, Permutation_length_1_inv in H. rewrite H. cbn.
    destruct (cast_variables _ _ _); try reflexivity.
    now destruct (Get (HttpMethodsMap t') m).
  - cbn [List.length Nat.eqb negb Nat.ltb Nat.leb].
    now destruct (matching_templates (routes self) route).
Qed.

Lemma Match_ignores_route_order_witness :
  fst (Match "a/42" "GET"
         (mkProcess (after (Mount "/a/{x:str}" "h1" ["GET"] ;; Mount "/b" "h2" ["GET"])
                       RocketRouter_init) []))
  = fst (Match "a/42" "GET"
           (mkProcess (after (Mount "/b" "h2" ["GET"] ;; Mount "/a/{x:str}" "h1" ["GET"])
                         RocketRouter_init) [])).
Proof.
  apply Match_ignores_route_order. cbn. apply perm_swap.
Defined.

(** ** The list of routes *)

Lemma set_present_texts (d : Routes) k v old :
  Dict.get Re.Pattern_eqb d k = Some old ->
  TemplatedPathStr v = TemplatedPathStr old ->
  map (fun entry => TemplatedPathStr (snd entry)) (Dict.set Re.Pattern_eqb d k v)
  = map (fun entry => TemplatedPathStr (snd entry)) d.
Proof.
  induction d as [|[k0 v0] d IH]; simpl; [discriminate|].
  destruct (Re.Pattern_eqb k0 k); simpl.
  - intros [= ->] ->. reflexivity.
  - intros Hg Ht. now rewrite IH.
Qed.

(** X9.  [GetRoutes] after a call of [Mount]: when the call raises, or
    when the pattern of the template was in the table already, the list is
    what it was (the route keeps the text it was first mounted with);
    when the call returns for a new pattern, the text of the template is
    added at the end. *)
Theorem GetRoutes_Mount T f ms self :
  (forall e, fst (Mount T f ms self) = Raise e ->
             GetRoutes (after (Mount T f ms) self) = GetRoutes self)
  /\ (forall regex variables,
        compile_template T = Return (regex, variables) ->
        fst (Mount T f ms self) = Return tt ->
        GetRoutes (after (Mount T f ms) self)
        = match Dict.get Re.Pattern_eqb (routes self) regex with
          | Some _ => GetRoutes self
          | None => GetRoutes self ++ [T]
          end).
Proof.
  unfold GetRoutes, after. split.
  - intros e. unfold Mount, bind, lift, gets.
    destruct (compile_template T) as [[regex variables]| |]; simpl; auto.
    destruct (Dict.get Re.Pattern_eqb (routes self) regex) as [old|] eqn:Hg.
    + unfold register_on. destruct (Register ms f (HttpMethodsMap old)). simpl.
      intros _. now apply (set_present_texts _ _ _ old).
    + unfold modify. destruct (RocketTemplatedPath_init T variables f ms) as [t0| |];
        simpl; auto.
      discriminate.
  - intros regex variables Hc. rewrite (Mount_compiled _ _ _ _ _ _ Hc).
    destruct (Dict.get Re.Pattern_eqb (routes self) regex) as [old|] eqn:Hg.
    + unfold register_on. destruct (Register ms f (HttpMethodsMap old)). simpl.
      intros _. now apply (set_present_texts _ _ _ old).
    + unfold RocketTemplatedPath_init.
      destruct (Register ms f HttpApiMethods_init) as [[[]| |] methods]; simpl;
        try discriminate.
      intros _. rewrite (DictFacts.set_absent _ _ _ _ Hg), map_app. reflexivity.
Qed.

Lemma GetRoutes_Mount_witness :
  GetRoutes (after (Mount "/kng/list" "GetKngList" ["GET"]) RocketRouter_init)
  = ["/kng/list"]
  /\ fst (Mount "/x" "h" ["FETCH"] main_router)
     = Raise (NotSupportedError "unsupported rest-method: 'FETCH'")
  /\ GetRoutes (after (Mount "/x" "h" ["FETCH"]) main_router) = GetRoutes main_router.
Proof.
  split; [|split; [vm_compute; reflexivity|]].
  - exact (proj2 (GetRoutes_Mount "/kng/list" "GetKngList" ["GET"] RocketRouter_init)
             (Re.mkPattern "kng/list" [Re.literal_items "kng/list"]) [] eq_refl eq_refl).
  - apply (proj1 (GetRoutes_Mount "/x" "h" ["FETCH"] main_router)
             (NotSupportedError "unsupported rest-method: 'FETCH'")).
    vm_compute. reflexivity.
Defined.

Lemma prefix_append (a b : string) : String.prefix a (a ++ b) = true.
Proof.
  induction a as [|c a IH]; simpl.
  - now destruct b.
  - destruct (ascii_dec c c); [exact IH | congruence].
Qed.

Lemma append_assoc (a b c : string) : ((a ++ b) ++ c = a ++ (b ++ c))%string.
Proof. induction a as [|x a IH]; simpl; [reflexivity | now rewrite IH]. Qed.

(** [GetRoutesDetailed] gives one line for each entry of [GetRoutes], in
    the same order, and each line starts with the text of its route followed
    by a blank. *)
Lemma GetRoutesDetailed_lines self :
  List.length (GetRoutesDetailed self) = List.length (GetRoutes self)
  /\ forall i line,
       nth_error (GetRoutesDetailed self) i = Some line ->
       exists T, nth_error (GetRoutes self) i = Some T
                 /\ String.prefix (T ++ " ") line = true.
Proof.
  unfold GetRoutesDetailed, GetRoutes. split; [now rewrite !length_map|].
  intros i line. rewrite !nth_error_map.
  destruct (nth_error (routes self) i) as [entry|]; cbn [option_map]; [|discriminate].
  intros [= <-]. eexists. split; [reflexivity|].
  match goal with
  | |- String.prefix _ (?a ++ String ?c ?rest)%string = true =>
      change (a ++ String c rest)%string with (a ++ (String c EmptyString ++ rest))%string
  end.
  rewrite <- append_assoc. apply prefix_append.
Qed.

(** ** What [Match] writes and returns *)

(** X11.  [Match] hands a line to the debug logger exactly when it
    resolves a call, and then one line, made of the handler's name, the
    request method and the text of the matched template; when it returns an
    error or raises, nothing is logged. *)
Theorem Match_debug_line route m w :
  (forall call,
     fst (Match route m w) = Return (Some call, None) ->
     exists template,
       matching_templates (routes (router w)) route = [template]
       /\ Io_Debug (snd (Match route m w))
          = Io_Debug w
            ++ [("    => Matched: (" ++ Function call ++ ") " ++ m ++ " "
                 ++ TemplatedPathStr template)%string])
  /\ ((forall call, fst (Match route m w) <> Return (Some call, None)) ->
      Io_Debug (snd (Match route m w)) = Io_Debug w).
Proof.
  unfold Match, bind, gets, ret, raise, lift, Debug, modify.
  destruct (matching_templates (routes (router w)) route) as [|template [|other rest]];
    cbn [List.length Nat.eqb negb Nat.ltb Nat.leb fst snd].
  - split; [discriminate | reflexivity].
  - destruct (cast_variables _ _ _) as [variables| |]; cbn [fst snd];
      try (split; [discriminate | reflexivity]).
    destruct (Get (HttpMethodsMap template) m) as [g|]; cbn [fst snd Io_Debug].
    + split.
      * intros call [= <-]. exists template. split; reflexivity.
      * intros H. now contradiction (H (mkRocketSpecificPath variables g)).
    + split; [discriminate | reflexivity].
  - split; [discriminate | reflexivity].
Qed.

Lemma Match_debug_line_witness :
  fst (Match "kng/list" "GET" (serving main_router))
  = Return (Some (mkRocketSpecificPath [] "GetKngList"), None)
  /\ exists template,
       matching_templates (routes main_router) "kng/list" = [template]
       /\ Io_Debug (snd (Match "kng/list" "GET" (serving main_router)))
          = ["    => Matched: (GetKngList) GET " ++ TemplatedPathStr template]%string.
Proof.
  split; [vm_compute; reflexivity|].
  apply (proj1 (Match_debug_line "kng/list" "GET" (serving main_router))
           (mkRocketSpecificPath [] "GetKngList")).
  vm_compute. reflexivity.
Defined.

(** X12.  When [Match] returns, exactly one component of the result tuple
    is set; an error says how many patterns matched the path: status 404 for
    none, 300 for two or more, 405 for exactly one (whose method table lacks
    the method). *)
Theorem Match_result_shape route m w call_or_none error_or_none :
  fst (Match route m w) = Return (call_or_none, error_or_none) ->
  let n := List.length (matching_templates (routes (router w)) route) in
  (exists call, call_or_none = Some call /\ error_or_none = None /\ n = 1)
  \/ (call_or_none = None
      /\ exists e, error_or_none = Some e
         /\ ((n = 0 /\ HttpStatus_value (Status e) = 404%Z)
             \/ (n = 1 /\ HttpStatus_value (Status e) = 405%Z)
             \/ (2 <= n /\ HttpStatus_value (Status e) = 300%Z))).
Proof.
  unfold Match, bind, gets, ret, raise, lift, Debug, modify.
  destruct (matching_templates (routes (router w)) route) as [|template [|other rest]];
    cbn [List.length Nat.eqb negb Nat.ltb Nat.leb fst snd].
  - intros [= <- <-]. right. split; [reflexivity|]. eexists. split; [reflexivity|].
    left. split; reflexivity.
  - destruct (cast_variables _ _ _) as [variables| |]; cbn [fst]; try discriminate.
    destruct (Get (HttpMethodsMap template) m) as [g|]; cbn [fst].
    + intros [= <- <-]. left. eexists. repeat split.
    + intros [= <- <-]. right. split; [reflexivity|]. eexists. split; [reflexivity|].
      right. left. split; reflexivity.
  - intros [= <- <-]. right. split; [reflexivity|]. eexists. split; [reflexivity|].
    right. right. split; [simpl; lia | reflexivity].
Qed.

Lemma Match_result_shape_witness :
  exists e, HttpStatus_value (Status e) = 405%Z
            /\ fst (Match "kng/list" "POST" (serving main_router)) = Return (None, Some e).
Proof.
  destruct (Match_result_shape "kng/list" "POST" (serving main_router) None
              (Some MethodNotAllowed) eq_refl)
    as [(call & Hc & _) | (_ & e & He & _)]; [discriminate|].
  exists MethodNotAllowed. split; reflexivity.
Defined.

(** ** Well-formed templates *)

Lemma convert_modules_wellformed todo : forall index modules variables,
  forallb wellformed_module todo = true ->
  convert_modules index todo modules variables
  = Return (modules ++ map convert_module todo, variables ++ variables_from index todo).
Proof.
  induction todo as [|m todo IH]; intros index modules variables H; simpl.
  - now rewrite !app_nil_r.
  - simpl in H. apply andb_true_iff in H as [Hm Htodo].
    unfold wellformed_module, convert_module, module_variable, module_type in *.
    destruct (Py.startswith m "{").
    + destruct (Py.split ":" (Py.slice_1_m1 m)) as [|a [|b [|c l]]]; try discriminate.
      rewrite IH by exact Htodo. now rewrite <- !app_assoc.
    + rewrite IH by exact Htodo. simpl. now rewrite <- app_assoc.
Qed.

Lemma parse_plain_module x : forall fuel rest cur done,
  Re.plain x = true ->
  Re.parse (String.length x + fuel) (x ++ rest) cur done
  = Re.parse fuel rest (rev (Re.literal_items x) ++ cur) done.
Proof.
  induction x as [|c x IH]; intros fuel rest cur done Hp;
    cbn [String.length Nat.add String.append Re.literal_items rev app].
  - reflexivity.
  - unfold Re.plain in Hp. simpl in Hp. apply andb_true_iff in Hp as [Hc Hx].
    apply negb_true_iff in Hc.
    rewrite ReFacts.parse_plain_char by exact Hc.
    rewrite IH by exact Hx. now rewrite <- app_assoc.
Qed.

(** The parser over the pattern of a type that is followed by the end of
    the pattern or by a slash. *)
Lemma parse_type vartype f rest cur done :
  vartype <> FLOAT64 -> boundary rest ->
  Re.parse (type_steps vartype + f) (regex (value vartype) ++ rest) cur done
  = Re.parse f rest (rev (type_items vartype) ++ cur) done.
Proof.
  intros Hty [-> | [r ->]]; destruct vartype; try (now contradiction Hty);
    cbn; reflexivity.
Qed.

Lemma parse_float64 rest cur done :
  boundary rest ->
  exists cur' done',
    forall f,
      Re.parse (type_steps FLOAT64 + f) (regex (value FLOAT64) ++ rest) cur done
      = Re.parse f rest cur' done'.
Proof. intros [-> | [r ->]]; do 2 eexists; intros f; cbn; reflexivity. Qed.

(** More fuel does not change what the parser has found. *)
Lemma parse_more fuel : forall fuel' src cur done p,
  fuel <= fuel' ->
  Re.parse fuel src cur done = Re.Compiled p ->
  Re.parse fuel' src cur done = Re.Compiled p.
Proof.
  induction fuel as [|fuel IH]; intros fuel' src cur done p Hle H; [discriminate|].
  destruct fuel' as [|fuel']; [lia|].
  assert (Hle' : fuel <= fuel') by lia. clear Hle.
  revert H. cbn [Re.parse].
  repeat match goal with
         | |- context [match ?x with _ => _ end] =>
             lazymatch x with
             | Re.parse _ _ _ _ => fail
             | _ => destruct x eqn:?
             end
         end; try discriminate; try (intros H; exact H); try (apply IH; exact Hle').
Qed.

Lemma tame_module_cases m :
  tame_module m = true ->
  (module_type m = Some None /\ Re.plain m = true)
  \/ exists vartype, module_type m = Some (Some vartype) /\ vartype <> FLOAT64.
Proof.
  unfold tame_module, wellformed_module.
  destruct (module_type m) as [[vartype|]|]; try discriminate.
  - intros H. right. exists vartype. split; [reflexivity|]. now destruct vartype.
  - intros H. now left.
Qed.

Lemma parse_module m f rest cur done :
  tame_module m = true -> boundary rest ->
  Re.parse (module_steps m + f) (convert_module m ++ rest) cur done
  = Re.parse f rest (rev (module_items m) ++ cur) done.
Proof.
  intros Hm Hb. unfold module_steps, convert_module, module_items.
  destruct (tame_module_cases m Hm) as [[-> Hp] | (vartype & -> & Hty)].
  - now apply parse_plain_module.
  - now apply parse_type.
Qed.

Lemma string_app_nil (s : string) : (s ++ "")%string = s.
Proof. induction s as [|c s IH]; simpl; [reflexivity | now rewrite IH]. Qed.

Lemma string_app_length (a b : string) :
  String.length (a ++ b) = String.length a + String.length b.
Proof. induction a as [|c a IH]; simpl; [reflexivity | now rewrite IH]. Qed.

Lemma slash_not_special : Re.special "/" = false.
Proof. reflexivity. Qed.

Lemma parse_joined ms : forall f cur done,
  forallb tame_module ms = true ->
  Re.parse (joined_steps ms + S f) (Py.join "/" (map convert_module ms)) cur done
  = Re.Compiled (rev ((rev cur ++ joined_items ms) :: done)).
Proof.
  unfold Py.join.
  induction ms as [|m ms IH]; intros f cur done H.
  - simpl. now rewrite app_nil_r.
  - simpl in H. apply andb_true_iff in H as [Hm Hms].
    destruct ms as [|m2 ms].
    + cbn [map String.concat joined_steps joined_items].
      rewrite <- (string_app_nil (convert_module m)).
      rewrite parse_module by (auto; now left).
      simpl. now rewrite rev_app_distr, rev_involutive.
    + change (String.concat "/" (map convert_module (m :: m2 :: ms)))
        with (convert_module m
              ++ String "/" (String.concat "/" (map convert_module (m2 :: ms))))%string.
      change (joined_steps (m :: m2 :: ms))
        with (module_steps m + S (joined_steps (m2 :: ms))).
      change (joined_items (m :: m2 :: ms))
        with (module_items m ++ Re.ONE (Re.LITERAL "/") :: joined_items (m2 :: ms)).
      rewrite <- Nat.add_assoc.
      rewrite parse_module by (auto; right; eauto).
      cbn [Nat.add].
      rewrite ReFacts.parse_plain_char by exact slash_not_special.
      rewrite IH by exact Hms.
      do 3 f_equal. cbn [rev]. rewrite rev_app_distr, rev_involutive.
      now rewrite <- !app_assoc.
Qed.

Lemma type_steps_length vartype :
  type_steps vartype <= String.length (regex (value vartype)).
Proof. destruct vartype; vm_compute; repeat constructor. Qed.

Lemma joined_steps_length ms :
  joined_steps ms <= String.length (Py.join "/" (map convert_module ms)).
Proof.
  assert (Hm : forall m, module_steps m <= String.length (convert_module m)).
  { intros m. unfold module_steps, convert_module.
    destruct (module_type m) as [[vartype|]|]; auto using type_steps_length. }
  unfold Py.join. induction ms as [|m [|m2 ms] IH].
  - simpl. lia.
  - simpl. apply Hm.
  - change (String.concat "/" (map convert_module (m :: m2 :: ms)))
      with (convert_module m
            ++ String "/" (String.concat "/" (map convert_module (m2 :: ms))))%string.
    change (joined_steps (m :: m2 :: ms))
      with (module_steps m + S (joined_steps (m2 :: ms))).
    rewrite string_app_length. cbn [String.length]. specialize (Hm m). lia.
Qed.

(** The pattern and the variables of a tame template. *)
Lemma compile_template_tame T :
  tame_template T = true ->
  compile_template T
  = Return (Re.mkPattern (Py.join "/" (map convert_module (split_modules T)))
              [joined_items (split_modules T)],
            variables_from 0 (split_modules T)).
Proof.
  intros HT. unfold compile_template.
  assert (Hw : forallb wellformed_module (split_modules T) = true).
  { unfold tame_template in HT. rewrite forallb_forall in *. intros m Hm.
    specialize (HT m Hm). unfold tame_module in HT.
    destruct (module_type m) as [[[]|]|] eqn:E; auto; try discriminate;
      unfold wellformed_module; now rewrite E. }
  rewrite convert_modules_wellformed by exact Hw. simpl.
  unfold compile_modules, Re.compile.
  rewrite (parse_more (joined_steps (split_modules T) + 1) _ _ _ _
             [joined_items (split_modules T)]).
  - reflexivity.
  - pose proof (joined_steps_length (split_modules T)). lia.
  - now rewrite parse_joined.
Qed.

(** ** The language of a tame pattern *)

Lemma seq_lang_app a : forall b w,
  Re.seq_lang (a ++ b) w ->
  exists u v, w = (u ++ v)%string /\ Re.seq_lang a u /\ Re.seq_lang b v.
Proof.
  induction a as [|[x | lo hi x] a IH]; intros b w H; simpl in H.
  - exists EmptyString, w. repeat split; [constructor | exact H].
  - inversion H as [|x0 c its w' Hc Hl|]; subst.
    destruct (IH _ _ Hl) as (u & v & -> & Hu & Hv).
    exists (String c u), v. repeat split; [now constructor | exact Hv].
  - inversion H as [| |lo0 hi0 x0 its u0 w' Hall Hlo Hhi Hl]; subst.
    destruct (IH _ _ Hl) as (u & v & -> & Hu & Hv).
    exists (u0 ++ u)%string, v. split; [now rewrite append_assoc|].
    split; [now constructor | exact Hv].
Qed.

Lemma joined_items_split ms : forall w,
  Re.seq_lang (joined_items ms) w ->
  exists ws,
    Forall2 (fun m wi => Re.seq_lang (module_items m) wi) ms ws
    /\ w = Py.join "/" ws.
Proof.
  unfold Py.join.
  induction ms as [|m [|m2 ms] IH]; intros w H.
  - inversion H; subst. exists []. split; [constructor | reflexivity].
  - exists [w]. split; [repeat constructor; exact H | reflexivity].
  - change (joined_items (m :: m2 :: ms))
      with (module_items m ++ Re.ONE (Re.LITERAL "/") :: joined_items (m2 :: ms)) in H.
    apply seq_lang_app in H as (u & v & -> & Hu & Hv).
    inversion Hv as [|x0 c its v' Hc Hl|]; subst.
    cbn [Re.atom_matches] in Hc. apply Ascii.eqb_eq in Hc. subst c.
    destruct (IH _ Hl) as (ws & HF & ->).
    exists (u :: ws). split; [now constructor|].
    inversion HF; subst. reflexivity.
Qed.

Lemma seq_lang_noslash its : forall w,
  reject_slash its = true -> Re.seq_lang its w -> noslash w = true.
Proof.
  assert (Hc : forall a c, Re.atom_matches a "/" = false -> Re.atom_matches a c = true ->
                           negb (Ascii.eqb c "/") = true).
  { intros a c Hs Hm. apply negb_true_iff, Ascii.eqb_neq. intros ->. congruence. }
  induction its as [|[x | lo hi x] its IH]; intros w Hr H;
    simpl in Hr; try apply andb_true_iff in Hr as [Hx Hr]; try apply negb_true_iff in Hx.
  - now inversion H.
  - inversion H; subst. unfold noslash. simpl.
    rewrite (Hc x c) by assumption. now apply IH.
  - inversion H as [| |lo0 hi0 x0 its0 u w' Hall _ _ Hl]; subst.
    unfold noslash. rewrite ReFacts.all_chars_append.
    apply andb_true_iff. split; [|now apply IH].
    clear -Hall Hx Hc. induction u as [|c u IHu]; simpl in *; [reflexivity|].
    apply andb_true_iff in Hall as [Hm Hall]. rewrite (Hc x c) by assumption. auto.
Qed.

Lemma literal_items_reject m : noslash m = true -> reject_slash (Re.literal_items m) = true.
Proof.
  unfold noslash, reject_slash. induction m as [|c m IH]; simpl; [reflexivity|].
  intros H. apply andb_true_iff in H as [Hc Hm]. rewrite (IH Hm), andb_true_r.
  now rewrite Ascii.eqb_sym.
Qed.

Lemma module_items_reject m : noslash m = true -> reject_slash (module_items m) = true.
Proof.
  intros Hm. unfold module_items.
  destruct (module_type m) as [[[]|]|]; try reflexivity; now apply literal_items_reject.
Qed.

Lemma split_noslash s : Forall (fun x => noslash x = true) (Py.split "/" s).
Proof.
  induction s as [|c s IH]; simpl.
  - repeat constructor.
  - destruct (Ascii.eqb c "/") eqn:E; [constructor; [reflexivity | exact IH]|].
    destruct (Py.split "/" s) as [|w ws]; [repeat constructor; unfold noslash; simpl; now rewrite E|].
    inversion IH; subst. constructor; [|assumption].
    unfold noslash in *. simpl. now rewrite E.
Qed.

Lemma split_modules_noslash T : Forall (fun x => noslash x = true) (split_modules T).
Proof.
  unfold split_modules. apply Forall_forall. intros x Hx.
  apply filter_In in Hx as [Hx _].
  exact (proj1 (Forall_forall _ _) (split_noslash T) x Hx).
Qed.

(** ** The modules of a matched path *)

Lemma split_noslash_app u : forall r,
  noslash u = true ->
  Py.split "/" (u ++ r)
  = match Py.split "/" r with
    | h :: tl => (u ++ h)%string :: tl
    | [] => [u]
    end.
Proof.
  unfold noslash. induction u as [|c u IH]; intros r Hu; simpl.
  - pose proof (split_not_nil "/" r). now destruct (Py.split "/" r).
  - simpl in Hu. apply andb_true_iff in Hu as [Hc Hu]. apply negb_true_iff in Hc.
    rewrite Hc, IH by exact Hu. now destruct (Py.split "/" r).
Qed.

Lemma split_noslash_id u : noslash u = true -> Py.split "/" u = [u].
Proof.
  intros Hu. rewrite <- (string_app_nil u) at 1.
  rewrite split_noslash_app by exact Hu. simpl. now rewrite string_app_nil.
Qed.

(** The modules of a path that starts with slash-free words joined by
    slashes: each word is found at its position, the last one perhaps with
    more behind it. *)
Lemma split_joined ws : forall r i wi,
  Forall (fun x => noslash x = true) ws ->
  nth_error ws i = Some wi ->
  exists x,
    nth_error (Py.split "/" (Py.join "/" ws ++ r)) i = Some (wi ++ x)%string
    /\ (S i < List.length ws -> x = EmptyString).
Proof.
  unfold Py.join.
  induction ws as [|w1 [|w2 ws] IH]; intros r i wi HF Hi.
  - now destruct i.
  - destruct i as [|i]; [|now destruct i]. injection Hi as <-.
    inversion HF; subst. simpl String.concat.
    rewrite split_noslash_app by assumption.
    pose proof (split_not_nil "/" r). destruct (Py.split "/" r) as [|h tl]; [contradiction|].
    exists h. split; [reflexivity | simpl; lia].
  - inversion HF as [|? ? H1 HF']; subst.
    change (String.concat "/" (w1 :: w2 :: ws))
      with (w1 ++ String "/" (String.concat "/" (w2 :: ws)))%string.
    rewrite append_assoc. cbn [String.append].
    rewrite split_app_sep, split_noslash_id by assumption.
    destruct i as [|i].
    + injection Hi as <-. exists EmptyString.
      split; [simpl; now rewrite string_app_nil | reflexivity].
    + destruct (IH r i wi HF' Hi) as (x & Hx & Hlast).
      exists x. split; [exact Hx|]. intros Hlt. apply Hlast. simpl in *. lia.
Qed.

(** ** The pattern of [int64] and the constructor [int] *)

Lemma all_chars_ext (P Q : ascii -> bool) s :
  (forall c, P c = true -> Q c = true) ->
  Re.all_chars P s = true -> Re.all_chars Q s = true.
Proof.
  intros H. induction s as [|c s IH]; simpl; [reflexivity|].
  intros Hs. apply andb_true_iff in Hs as [Hc Hs]. now rewrite (H c Hc), IH.
Qed.

Lemma digit_atom c :
  Re.atom_matches (Re.IN false [("0", "9")%char]) c = true -> Py.is_digit c = true.
Proof. simpl. unfold Re.in_range, Py.is_digit. simpl. now rewrite orb_false_r. Qed.

Lemma digit_facts c :
  Py.is_digit c = true ->
  Py.is_space c = false /\ Py.sign (String c EmptyString) = (1%Z, String c EmptyString).
Proof. destruct c as [[] [] [] [] [] [] [] []]; simpl; intros H; try discriminate; now split. Qed.

Lemma sign_atom c :
  Re.atom_matches (Re.IN false [("-", "-"); ("+", "+")]%char) c = true ->
  c = "-"%char \/ c = "+"%char.
Proof. destruct c as [[] [] [] [] [] [] [] []]; simpl; intros H; try discriminate; auto. Qed.

Lemma digits_tail_digits v : forall acc,
  Re.all_chars Py.is_digit v = true -> snd (Py.digits_tail acc v) = EmptyString.
Proof.
  induction v as [|c v IH]; intros acc H; simpl; [reflexivity|].
  simpl in H. apply andb_true_iff in H as [Hc Hv]. rewrite Hc. now apply IH.
Qed.

Lemma rstrip_digits v :
  Re.all_chars Py.is_digit v = true -> Py.rstrip v = v.
Proof.
  induction v as [|c v IH]; simpl; [reflexivity|].
  intros H. apply andb_true_iff in H as [Hc Hv]. rewrite (IH Hv).
  destruct v; [|reflexivity]. now rewrite (proj1 (digit_facts c Hc)).
Qed.

Lemma count_digits_le_length s : Py.count_digits s <= String.length s.
Proof. induction s as [|c s IH]; simpl; [lia | destruct (Py.is_digit c); lia]. Qed.

Lemma count_digits_app u v :
  Py.count_digits (u ++ v) = Py.count_digits u + Py.count_digits v.
Proof. induction u as [|c u IH]; simpl; [reflexivity | rewrite IH; lia]. Qed.

(** The words that [split] returns are no longer than the string. *)
Lemma split_length sep s :
  Forall (fun w => String.length w <= String.length s) (Py.split sep s).
Proof.
  induction s as [|c s IH]; simpl.
  - constructor; [simpl; lia | constructor].
  - destruct (Ascii.eqb c sep).
    + constructor; [simpl; lia|].
      eapply Forall_impl; [|exact IH]. simpl. intros; lia.
    + destruct (Py.split sep s) as [|w ws]; [constructor; [simpl; lia | constructor]|].
      inversion IH; subst. constructor; [simpl; lia|].
      eapply Forall_impl; [|eassumption]. simpl. intros; lia.
Qed.

(** A sign, or none, and then digits, at least one and no more than the
    limit: [int] accepts it. *)
Lemma int_sign_digits u v :
  Re.all_chars (Re.atom_matches (Re.IN false [("-", "-"); ("+", "+")]%char)) u = true ->
  String.length u <= 1 ->
  Re.all_chars Py.is_digit v = true -> 1 <= String.length v ->
  Py.count_digits v <= Py.int_max_str_digits ->
  exists z, Py.int (u ++ v) = Some z.
Proof.
  intros Hu Hlen Hv Hv1 Hmax. apply Nat.leb_le in Hmax.
  destruct v as [|d v]; [simpl in Hv1; lia|].
  pose proof Hv as Hv'. simpl in Hv'. apply andb_true_iff in Hv' as [Hd Hrest].
  destruct (digit_facts d Hd) as [Hsp Hsg].
  assert (Hdp : exists z, Py.digitpart (String d v) = Some (z, EmptyString)).
  { unfold Py.digitpart. rewrite Hd.
    pose proof (digits_tail_digits v (Z.of_N (Py.code d - 48)) Hrest) as Ht.
    destruct (Py.digits_tail _ v) as [z r]. simpl in Ht. subst r. eauto. }
  destruct Hdp as (z & Hz).
  assert (Hsign : Py.sign (String d v) = (1%Z, String d v)).
  { clear -Hsg. destruct d as [[] [] [] [] [] [] [] []]; simpl in *; try discriminate; reflexivity. }
  destruct u as [|c [|c' u]]; [| |simpl in Hlen; lia].
  - simpl. unfold Py.int, Py.strip. cbn [Py.lstrip]. rewrite Hsp.
    rewrite (rstrip_digits (String d v) Hv), Hsign, Hz, Hmax. eauto.
  - simpl in Hu. rewrite andb_true_r in Hu.
    assert (Hstrip : Py.strip (String c (String d v)) = String c (String d v)).
    { unfold Py.strip.
      assert (Hc : Py.is_space c = false) by (destruct (sign_atom c Hu) as [-> | ->]; reflexivity).
      cbn [Py.lstrip]. rewrite Hc. cbn [Py.rstrip].
      change (Py.rstrip (String d v)) with (Py.rstrip (String d v)).
      pose proof (rstrip_digits (String d v) Hv) as Hr. cbn [Py.rstrip] in Hr.
      rewrite Hr. reflexivity. }
    cbn [String.append]. unfold Py.int. rewrite Hstrip.
    destruct (sign_atom c Hu) as [-> | ->]; simpl Py.sign; cbv iota beta;
      rewrite Hz, Hmax; eauto.
Qed.

Lemma int64_pattern_sound_items w :
  Re.seq_lang (type_items INT64) w ->
  Py.count_digits w <= Py.int_max_str_digits ->
  exists z, construct (t (value INT64)) w = Some (VInt z).
Proof.
  intros Hl Hlim.
  change (type_items INT64)
    with [Re.MAX_REPEAT 0 (Some 1%N) (Re.IN false [("-", "-"); ("+", "+")]%char);
          Re.MAX_REPEAT 1 None (Re.IN false [("0", "9")%char])] in Hl.
  inversion Hl as [| |lo hi a its u w1 Hu _ Hmax Hl1]; subst.
  inversion Hl1 as [| |lo hi a its v w2 Hv Hmin _ Hl2]; subst.
  inversion Hl2; subst. rewrite string_app_nil in *.
  rewrite count_digits_app in Hlim.
  destruct (int_sign_digits u v) as (z & Hz); auto.
  - simpl in *. lia.
  - eapply all_chars_ext; [exact digit_atom | exact Hv].
  - lia.
  - lia.
  - exists z. simpl. now rewrite Hz.
Qed.

(** X13.  A string that the pattern of [int64] describes, with no more
    digits than [int] takes (4300), is one that [int] accepts: when the whole
    module is matched by the pattern, the cast of such an [int64] variable
    cannot fail. *)
Theorem int64_pattern_sound p w :
  Re.compile (regex (value INT64)) = Re.CompileOk p ->
  Re.lang p w ->
  Py.count_digits w <= Py.int_max_str_digits ->
  exists z, construct (t (value INT64)) w = Some (VInt z).
Proof.
  intros Hc (br & Hin & Hl) Hmax.
  assert (Hp : Re.prog p = [type_items INT64]) by (vm_compute in Hc; now inversion Hc).
  rewrite Hp in Hin. destruct Hin as [<- | []].
  now apply int64_pattern_sound_items.
Qed.

Lemma int64_pattern_sound_witness :
  Py.count_digits "-42" <= Py.int_max_str_digits
  /\ exists z, construct (t (value INT64)) "-42" = Some (VInt z).
Proof.
  assert (Hmax : Py.count_digits "-42" <= Py.int_max_str_digits)
    by (apply Nat.leb_le; reflexivity).
  split; [exact Hmax|].
  apply (int64_pattern_sound (Re.mkPattern (regex (value INT64)) [type_items INT64]));
    [reflexivity | | exact Hmax].
  exists (type_items INT64). split; [now left|].
  apply (Re.lang_repeat 0 (Some 1%N) _ _ "-" "42"); [reflexivity | lia | simpl; lia |].
  apply (Re.lang_repeat 1 None _ _ "42" ""); [reflexivity | simpl; lia | exact I | constructor].
Defined.

(** ** Casting the variables of a tame template *)

Lemma tame_match_modules T route :
  tame_template T = true ->
  Re.matches (Re.mkPattern (Py.join "/" (map convert_module (split_modules T)))
                [joined_items (split_modules T)]) route = true ->
  exists ws,
    Forall2 (fun m wi => Re.seq_lang (module_items m) wi) (split_modules T) ws
    /\ forall i wi,
         nth_error ws i = Some wi ->
         exists x, nth_error (Py.split "/" route) i = Some (wi ++ x)%string
                   /\ (S i < List.length (split_modules T) -> x = EmptyString).
Proof.
  intros HT Hm. apply ReFacts.matches_spec in Hm as (w & r & -> & br & [<- | []] & Hl).
  apply joined_items_split in Hl as (ws & HF & ->).
  exists ws. split; [exact HF|].
  assert (Hns : Forall (fun x => noslash x = true) ws).
  { pose proof (split_modules_noslash T) as Hms. revert Hms.
    induction HF as [|m wi ms ws Hwi HF IH]; intros Hms; constructor.
    - inversion Hms; subst.
      eapply seq_lang_noslash; [apply module_items_reject; eassumption | exact Hwi].
    - inversion Hms; subst. now apply IH. }
  intros i wi Hi. rewrite (Forall2_length HF).
  now apply split_joined.
Qed.

Lemma module_variable_type k m :
  match module_type m with
  | Some (Some vartype) =>
      exists name, module_variable k m = [mkVariable k (t (value vartype)) name]
  | _ => module_variable k m = []
  end.
Proof.
  unfold module_type, module_variable. destruct (Py.startswith m "{"); [|reflexivity].
  destruct (Py.split ":" (Py.slice_1_m1 m)) as [|a [|b [|c l]]]; try reflexivity.
  now eexists.
Qed.

(** Casting never runs out of modules when every variable has one. *)
Lemma cast_variables_from_found ms : forall k acc modules,
  (forall j m vartype,
     nth_error ms j = Some m -> module_type m = Some (Some vartype) ->
     exists s, nth_error modules (k + j) = Some s) ->
  cast_variables (variables_from k ms) modules acc <> Raise IndexError.
Proof.
  induction ms as [|m ms IH]; intros k acc modules H; simpl; [discriminate|].
  assert (Hrest : forall acc', cast_variables (variables_from (S k) ms) modules acc'
                               <> Raise IndexError).
  { intros acc'. apply IH. intros j m' ty Hj Hty.
    destruct (H (S j) m' ty Hj Hty) as (s & Hs). exists s.
    now replace (S k + j) with (k + S j) by lia. }
  pose proof (module_variable_type k m) as Hv.
  destruct (module_type m) as [[vartype|]|] eqn:E; try (rewrite Hv; apply Hrest).
  destruct Hv as (name & ->). simpl.
  destruct (H 0 m vartype eq_refl E) as (s & Hs). rewrite Nat.add_0_r in Hs. rewrite Hs.
  destruct (construct (t (value vartype)) s); [apply Hrest | discriminate].
Qed.

(** Casting returns when every variable has a module that its class
    accepts. *)
Lemma cast_variables_from_accepted ms : forall k acc modules,
  (forall j m vartype,
     nth_error ms j = Some m -> module_type m = Some (Some vartype) ->
     exists s v, nth_error modules (k + j) = Some s
                 /\ construct (t (value vartype)) s = Some v) ->
  exists d, cast_variables (variables_from k ms) modules acc = Return d.
Proof.
  induction ms as [|m ms IH]; intros k acc modules H; simpl; [eauto|].
  assert (Hrest : forall acc', exists d,
             cast_variables (variables_from (S k) ms) modules acc' = Return d).
  { intros acc'. apply IH. intros j m' ty Hj Hty.
    destruct (H (S j) m' ty Hj Hty) as (s & v & Hs & Hc).
    exists s, v. now replace (S k + j) with (k + S j) by lia. }
  pose proof (module_variable_type k m) as Hv.
  destruct (module_type m) as [[vartype|]|] eqn:E; try (rewrite Hv; apply Hrest).
  destruct Hv as (name & ->). simpl.
  destruct (H 0 m vartype eq_refl E) as (s & v & Hs & Hc).
  rewrite Nat.add_0_r in Hs. rewrite Hs, Hc. apply Hrest.
Qed.

Lemma tame_template_found T regex variables route :
  tame_template T = true ->
  compile_template T = Return (regex, variables) ->
  Re.matches regex route = true ->
  cast_variables variables (Py.split "/" route) [] <> Raise IndexError.
Proof.
  intros HT Hc Hm. rewrite (compile_template_tame T HT) in Hc.
  injection Hc as <- <-.
  destruct (tame_match_modules T route HT Hm) as (ws & HF & Hsplit).
  apply cast_variables_from_found. intros j m ty Hj Hty. simpl.
  destruct (nth_error ws j) as [wi|] eqn:Hw.
  - destruct (Hsplit j wi Hw) as (x & Hx & _). eauto.
  - apply nth_error_None in Hw. rewrite <- (Forall2_length HF) in Hw.
    assert (j < List.length (split_modules T)) by (apply nth_error_Some; congruence). lia.
Qed.

Lemma last_nth_error {A : Type} (l : list A) d j x :
  nth_error l j = Some x -> ~ S j < List.length l -> last l d = x.
Proof.
  revert j. induction l as [|a l IH]; intros j Hj Hlast; [now destruct j|].
  destruct j as [|j].
  - injection Hj as ->. destruct l; [reflexivity | simpl in Hlast; lia].
  - simpl in Hj. destruct l as [|b l]; [now destruct j|].
    change (last (a :: b :: l) d) with (last (b :: l) d).
    apply (IH j); [exact Hj | simpl in *; lia].
Qed.

Lemma safe_template_casts T regex variables route :
  safe_template T = true ->
  compile_template T = Return (regex, variables) ->
  Re.matches regex route = true ->
  String.length route <= Py.int_max_str_digits ->
  exists d, cast_variables variables (Py.split "/" route) [] = Return d.
Proof.
  intros HS Hc Hm Hmax. apply andb_true_iff in HS as [HT Hlast].
  apply negb_true_iff in Hlast.
  rewrite (compile_template_tame T HT) in Hc. injection Hc as <- <-.
  destruct (tame_match_modules T route HT Hm) as (ws & HF & Hsplit).
  apply cast_variables_from_accepted. intros j m ty Hj Hty. simpl.
  destruct (nth_error ws j) as [wi|] eqn:Hw.
  - destruct (Hsplit j wi Hw) as (x & Hx & Hmid).
    exists (wi ++ x)%string.
    assert (Hwi : Re.seq_lang (module_items m) wi).
    { clear -HF Hj Hw. revert j Hj Hw.
      induction HF as [|m0 w0 ms ws H0 HF IH]; intros [|j] Hj Hw; try discriminate.
      - simpl in *. congruence.
      - simpl in *. eauto. }
    unfold module_items in Hwi. rewrite Hty in Hwi.
    assert (Hfloat : ty <> FLOAT64).
    { intros ->. unfold tame_template in HT. rewrite forallb_forall in HT.
      specialize (HT m (nth_error_In _ _ Hj)). unfold tame_module in HT.
      now rewrite Hty in HT. }
    destruct ty; try (now contradiction Hfloat); try (eexists; split; [exact Hx | reflexivity]).
    (* an int64 variable is not the last module, so its module is matched whole *)
    assert (Hx0 : x = EmptyString).
    { apply Hmid. destruct (Nat.lt_ge_cases (S j) (List.length (split_modules T)))
        as [Hlt | Hge]; [exact Hlt|].
      exfalso. rewrite (last_nth_error _ "" j m Hj) in Hlast by lia.
      unfold int64_module in Hlast. now rewrite Hty in Hlast. }
    subst x. rewrite string_app_nil in *.
    assert (Hdigits : Py.count_digits wi <= Py.int_max_str_digits).
    { pose proof (split_length "/" route) as Hlen. rewrite Forall_forall in Hlen.
      specialize (Hlen wi (nth_error_In _ _ Hx)).
      pose proof (count_digits_le_length wi). lia. }
    destruct (int64_pattern_sound_items wi Hwi Hdigits) as (z & Hz).
    exists (VInt z). split; [exact Hx | exact Hz].
  - apply nth_error_None in Hw. rewrite <- (Forall2_length HF) in Hw.
    assert (j < List.length (split_modules T)) by (apply nth_error_Some; congruence). lia.
Qed.

(** ** Routers of tame templates *)

Lemma set_In_present {K V : Type} (eqb : K -> K -> bool) (d : list (K * V)) k v old a b :
  Dict.get eqb d k = Some old ->
  In (a, b) (Dict.set eqb d k v) -> In (a, b) d \/ (b = v /\ In (a, old) d).
Proof.
  induction d as [|[k0 v0] d IH]; simpl; [discriminate|].
  destruct (eqb k0 k); simpl.
  - intros [= ->] [[= <- <-] | H]; auto.
  - intros Hg [H | H]; [now left; left|].
    destruct (IH Hg H) as [H' | [-> H']]; auto.
Qed.

Lemma set_In_absent {K V : Type} (eqb : K -> K -> bool) (d : list (K * V)) k v a b :
  Dict.get eqb d k = None ->
  In (a, b) (Dict.set eqb d k v) -> In (a, b) d \/ (a = k /\ b = v).
Proof.
  intros Hg. rewrite (DictFacts.set_absent eqb d k v Hg), in_app_iff.
  intros [H | [[= <- <-] | []]]; auto.
Qed.

(** The pattern and the variables of the routes after one more [Mount]:
    those of a route that was there, or those of the mounted template. *)
Lemma Mount_entries_variables T f ms self p template :
  In (p, template) (routes (after (Mount T f ms) self)) ->
  (exists old, In (p, old) (routes self)
               /\ TemplatedPathVariables template = TemplatedPathVariables old)
  \/ compile_template T = Return (p, TemplatedPathVariables template).
Proof.
  unfold after, Mount, bind, lift, gets.
  destruct (compile_template T) as [[regex variables]| |]; simpl; eauto.
  destruct (Dict.get Re.Pattern_eqb (routes self) regex) as [old|] eqn:Hg.
  - unfold register_on. destruct (Register ms f (HttpMethodsMap old)) as [o methods]. simpl.
    intros Hin. apply (set_In_present _ _ _ _ old) in Hin as [Hin | [-> Hin]]; eauto.
  - unfold RocketTemplatedPath_init, modify.
    destruct (Register ms f HttpApiMethods_init) as [[[]| |] methods]; simpl; eauto.
    intros Hin. apply set_In_absent in Hin as [Hin | [-> ->]]; eauto.
Qed.

Lemma built_of_casts_well (kind : string -> bool) (good : string -> cast_outcome -> Prop) :
  (forall T regex variables route,
     kind T = true -> compile_template T = Return (regex, variables) ->
     Re.matches regex route = true ->
     good route (cast_variables variables (Py.split "/" route) [])) ->
  forall self, built_of kind self -> casts_well good self.
Proof.
  intros Hkind self Hb. induction Hb as [|T f ms self HT Hb IH].
  - intros p template route [].
  - intros p template route Hin Hm.
    apply Mount_entries_variables in Hin as [(old & Hold & ->) | Hc].
    + now apply (IH p old route).
    + now apply (Hkind T p).
Qed.

Lemma matching_templates_matches rs route template :
  In template (matching_templates rs route) ->
  exists p, In (p, template) rs /\ Re.matches p route = true.
Proof.
  unfold matching_templates. intros H.
  apply in_map_iff in H as ([p t0] & <- & H). apply filter_In in H. eauto.
Qed.

(** X14.  A router on which only tame templates were mounted (plain
    literal modules and variables of a type other than [float64]) never
    raises [IndexError] from [Match]: every variable of a matched route finds
    its module in the path. *)
Theorem tame_router_finds_modules self route m log :
  built_of tame_template self ->
  fst (Match route m (mkProcess self log)) <> Raise IndexError.
Proof.
  intros Hb.
  pose proof (built_of_casts_well tame_template (fun _ o => o <> Raise IndexError)
                (fun T regex variables route HT Hc Hm =>
                   tame_template_found T regex variables route HT Hc Hm) self Hb) as Hwell.
  unfold Match, bind, gets, ret, raise, lift, Debug, modify. cbn [router].
  destruct (matching_templates (routes self) route) as [|template [|other rest]] eqn:Ht;
    cbn [List.length Nat.eqb negb Nat.ltb Nat.leb fst]; try discriminate.
  destruct (matching_templates_matches (routes self) route template) as (p & Hin & Hm);
    [rewrite Ht; now left|].
  specialize (Hwell p template route Hin Hm).
  destruct (cast_variables _ _ _) as [d|e|]; cbn [fst]; try discriminate.
  - now destruct (Get (HttpMethodsMap template) m).
  - intros [= ->]. now apply Hwell.
Qed.

Lemma tame_router_finds_modules_witness :
  built_of tame_template (after (Mount "/items/{n:int64}" "h" ["GET"]) RocketRouter_init)
  /\ fst (Match "items/42abc" "GET"
            (mkProcess (after (Mount "/items/{n:int64}" "h" ["GET"]) RocketRouter_init) []))
     <> Raise IndexError.
Proof.
  assert (Hb : built_of tame_template
                 (after (Mount "/items/{n:int64}" "h" ["GET"]) RocketRouter_init))
    by (apply built_of_Mount; [reflexivity | apply built_of_init]).
  split; [exact Hb|].
  apply tame_router_finds_modules. exact Hb.
Defined.

(** X15.  A router on which only safe templates were mounted (tame
    templates that do not end in an [int64] variable) never raises from
    [Match] on a path of at most 4300 characters (so that no module has more
    digits than [int] takes): for every such path and every method the call
    returns a result tuple. *)
Theorem safe_router_Match_returns self route m log :
  built_of safe_template self ->
  String.length route <= Py.int_max_str_digits ->
  exists result, fst (Match route m (mkProcess self log)) = Return result.
Proof.
  intros Hb Hmax.
  pose proof (built_of_casts_well safe_template
                (fun route o => String.length route <= Py.int_max_str_digits ->
                                exists d, o = Return d)
                (fun T regex variables route HT Hc Hm =>
                   safe_template_casts T regex variables route HT Hc Hm) self Hb) as Hwell.
  unfold Match, bind, gets, ret, raise, lift, Debug, modify. cbn [router].
  destruct (matching_templates (routes self) route) as [|template [|other rest]] eqn:Ht;
    cbn [List.length Nat.eqb negb Nat.ltb Nat.leb fst]; eauto.
  destruct (matching_templates_matches (routes self) route template) as (p & Hin & Hm);
    [rewrite Ht; now left|].
  destruct (Hwell p template route Hin Hm Hmax) as (d & ->). cbn [fst].
  destruct (Get (HttpMethodsMap template) m); cbn [fst]; eauto.
Qed.

Lemma safe_router_Match_returns_witness :
  String.length "items/42/editor" <= Py.int_max_str_digits
  /\ exists result,
       fst (Match "items/42/editor" "GET"
              (mkProcess (after (Mount "/items/{n:int64}/edit" "Edit" ["GET"])
                         (after (Mount "/kng/{kid:str}/details" "GetKngDetails" ["GET"])
                            RocketRouter_init)) []))
       = Return result.
Proof.
  assert (Hmax : String.length "items/42/editor" <= Py.int_max_str_digits)
    by (apply Nat.leb_le; reflexivity).
  split; [exact Hmax|].
  apply safe_router_Match_returns; [|exact Hmax].
  repeat (apply built_of_Mount; [reflexivity|]). apply built_of_init.
Defined.

(** ** Well-formed templates compile *)

Lemma parse_module_wellformed m rest cur done :
  wellformed_module m = true -> boundary rest ->
  exists cur' done',
    forall f,
      Re.parse (module_steps m + f) (convert_module m ++ rest) cur done
      = Re.parse f rest cur' done'.
Proof.
  intros Hm Hb. unfold wellformed_module, module_steps, convert_module in *.
  destruct (module_type m) as [[vartype|]|]; try discriminate.
  - destruct (vartype_eq_dec vartype FLOAT64) as [-> | Hty].
    + now apply parse_float64.
    + do 2 eexists. intros f. now apply parse_type.
  - do 2 eexists. intros f. now apply parse_plain_module.
Qed.

Lemma parse_joined_wellformed ms : forall cur done,
  forallb wellformed_module ms = true ->
  exists p,
    forall f,
      Re.parse (joined_steps ms + S f) (Py.join "/" (map convert_module ms)) cur done
      = Re.Compiled p.
Proof.
  unfold Py.join.
  induction ms as [|m ms IH]; intros cur done H.
  - eexists. intros f. reflexivity.
  - simpl in H. apply andb_true_iff in H as [Hm Hms].
    destruct ms as [|m2 ms].
    + destruct (parse_module_wellformed m EmptyString cur done Hm) as (cur' & done' & Hp);
        [now left|].
      eexists. intros f. cbn [map String.concat joined_steps].
      rewrite <- (string_app_nil (convert_module m)), Hp. reflexivity.
    + destruct (parse_module_wellformed m
                  (String "/" (String.concat "/" (map convert_module (m2 :: ms))))
                  cur done Hm) as (cur' & done' & Hp); [right; eauto|].
      destruct (IH (Re.ONE (Re.LITERAL "/") :: cur') done' Hms) as (p & Hrest).
      exists p. intros f.
      change (String.concat "/" (map convert_module (m :: m2 :: ms)))
        with (convert_module m
              ++ String "/" (String.concat "/" (map convert_module (m2 :: ms))))%string.
      change (joined_steps (m :: m2 :: ms))
        with (module_steps m + S (joined_steps (m2 :: ms))).
      rewrite <- Nat.add_assoc, Hp. cbn [Nat.add].
      rewrite ReFacts.parse_plain_char by exact slash_not_special.
      apply Hrest.
Qed.

Lemma compile_template_wellformed T :
  wellformed_template T = true ->
  exists regex,
    compile_template T = Return (regex, variables_from 0 (split_modules T))
    /\ Re.pattern regex = Py.join "/" (map convert_module (split_modules T)).
Proof.
  intros HT. unfold compile_template.
  rewrite convert_modules_wellformed by exact HT. simpl.
  destruct (parse_joined_wellformed (split_modules T) [] [] HT) as (p & Hp).
  unfold compile_modules, Re.compile.
  rewrite (parse_more (joined_steps (split_modules T) + 1) _ _ _ _ p).
  - eexists. split; reflexivity.
  - pose proof (joined_steps_length (split_modules T)). lia.
  - apply Hp.
Qed.

(** X16.  A template whose modules are variables [{name:type}] (of any
    type, known or not) and literals free of special characters always
    compiles: mounting it with supported methods returns, on any router, and
    its pattern is the modules joined by slashes, each variable replaced by
    the pattern of its type. *)
Theorem wellformed_template_mounts T f ms self :
  wellformed_template T = true ->
  (forall m, In m ms -> In m ["GET"; "POST"; "PUT"; "DELETE"; "PATCH"]) ->
  fst (Mount T f ms self) = Return tt
  /\ exists regex template,
       Dict.get Re.Pattern_eqb (routes (after (Mount T f ms) self)) regex = Some template
       /\ Re.pattern regex = Py.join "/" (map convert_module (split_modules T)).
Proof.
  intros HT Hms.
  destruct (compile_template_wellformed T HT) as (regex & Hc & Hp).
  assert (Hall : forallb possible ms = true)
    by (apply forallb_forall; intros m Hm; apply possible_iff; auto).
  unfold after. rewrite (Mount_possible _ _ _ _ _ _ Hc Hall). split; [reflexivity|].
  exists regex. eexists. split; [|exact Hp]. simpl.
  apply DictFacts.get_set_same. exact Pattern_eqb_refl.
Qed.

Lemma wellformed_template_mounts_witness :
  fst (Mount "/kng/{kid:str}/score/{s:float64}" "h" ["GET"; "PUT"] main_router) = Return tt.
Proof.
  apply (wellformed_template_mounts "/kng/{kid:str}/score/{s:float64}" "h" ["GET"; "PUT"]
           main_router eq_refl).
  simpl. intuition.
Defined.

(** ** The order of registration *)

Lemma register_all_keys ms f : forall tbl,
  NoDup ms -> (forall m, In m ms -> Get tbl m = None) ->
  map fst (FunctionsLookup (register_all ms f tbl)) = map fst (FunctionsLookup tbl) ++ ms.
Proof.
  induction ms as [|m ms IH]; intros tbl Hnd Hnew; simpl.
  - now rewrite app_nil_r.
  - inversion Hnd as [|? ? Hm Hnd']; subst.
    rewrite IH; [| exact Hnd' |].
    + simpl. rewrite (DictFacts.set_absent String.eqb _ m f (Hnew m (or_introl eq_refl))).
      now rewrite map_app, <- app_assoc.
    + intros m' Hm'. unfold Get. simpl.
      rewrite DictFacts.get_set_other; [apply Hnew; now right | exact string_eqb_left|].
      apply String.eqb_neq. intros ->. contradiction.
Qed.

(** X10.  A new route is listed last by [GetRoutesDetailed], as the text
    of its template, a blank, and its methods separated by commas in the
    order in which they were given to [Mount] (for methods given once). *)
Theorem GetRoutesDetailed_new_route T f ms regex variables self :
  compile_template T = Return (regex, variables) ->
  Dict.get Re.Pattern_eqb (routes self) regex = None ->
  forallb possible ms = true -> NoDup ms ->
  GetRoutesDetailed (after (Mount T f ms) self)
  = GetRoutesDetailed self ++ [(T ++ " " ++ Py.join "," ms)%string].
Proof.
  intros Hc Hnew Hms Hnd. unfold GetRoutesDetailed, after.
  rewrite (Mount_possible _ _ _ _ _ _ Hc Hms), Hnew. cbn [snd routes mounted].
  rewrite (DictFacts.set_absent _ _ _ _ Hnew), map_app. f_equal.
  cbn [map snd TemplatedPathStr HttpMethodsMap].
  now rewrite (register_all_keys ms f HttpApiMethods_init Hnd (fun m _ => eq_refl)).
Qed.

Lemma GetRoutesDetailed_new_route_witness :
  GetRoutesDetailed
    (after (Mount "/kng/{kid:str}/create" "PostKngCreate" ["POST"; "PUT"])
       (after (Mount "/kng/list" "GetKngList" ["GET"]) RocketRouter_init))
  = ["/kng/list GET"; "/kng/{kid:str}/create POST,PUT"].
Proof.
  assert (Hc : exists regex variables,
             compile_template "/kng/{kid:str}/create" = Return (regex, variables)
             /\ Dict.get Re.Pattern_eqb
                  (routes (after (Mount "/kng/list" "GetKngList" ["GET"]) RocketRouter_init))
                  regex = None)
    by (do 2 eexists; split; reflexivity).
  destruct Hc as (regex & variables & Hc & Hnew).
  rewrite (GetRoutesDetailed_new_route _ "PostKngCreate" ["POST"; "PUT"] regex variables _
             Hc Hnew eq_refl).
  - reflexivity.
  - repeat constructor; simpl; intuition discriminate.
Defined.

Lemma register_all_app ms1 ms2 f tbl :
  register_all (ms1 ++ ms2) f tbl = register_all ms2 f (register_all ms1 f tbl).
Proof. unfold register_all. apply fold_left_app. Qed.

(** X17.  The last registration wins: when a template is mounted twice,
    first with handler [f1] for the methods [ms1] and then with handler [f2]
    for the methods [ms2] (all supported), its route answers the methods of
    [ms2] with [f2], and the methods of [ms1] that are not in [ms2] with
    [f1]. *)
Theorem Mount_last_registration_wins T regex variables f1 ms1 f2 ms2 self :
  compile_template T = Return (regex, variables) ->
  forallb possible ms1 = true -> forallb possible ms2 = true ->
  exists route,
    Dict.get Re.Pattern_eqb
      (routes (after (Mount T f1 ms1 ;; Mount T f2 ms2) self)) regex = Some route
    /\ (forall m, In m ms2 -> Get (HttpMethodsMap route) m = Some f2)
    /\ (forall m, In m ms1 -> ~ In m ms2 -> Get (HttpMethodsMap route) m = Some f1).
Proof.
  intros Hc H1 H2.
  assert (Hret : fst (Mount T f1 ms1 self) = Return tt)
    by now rewrite (Mount_possible _ _ _ _ _ _ Hc H1).
  unfold after at 1. rewrite (Mount_twice _ _ _ _ _ _ Hret).
  rewrite (Mount_possible T f2 ms2 regex variables _ Hc H2).
  unfold after. rewrite (Mount_possible _ _ _ _ _ _ Hc H1).
  cbn [snd routes]. rewrite !DictFacts.get_set_same by exact Pattern_eqb_refl.
  eexists. split; [reflexivity|].
  cbn [mounted HttpMethodsMap]. split.
  - intros m Hm. now apply Get_register_all_in.
  - intros m Hm1 Hm2. rewrite Get_register_all_other by exact Hm2.
    now apply mounted_Get_in.
Qed.

Lemma Mount_last_registration_wins_witness :
  exists route,
    Dict.get Re.Pattern_eqb
      (routes (after (Mount "/kng/list" "Old" ["GET"; "POST"] ;;
                      Mount "/kng/list" "New" ["POST"]) RocketRouter_init))
      (Re.mkPattern "kng/list" [Re.literal_items "kng/list"]) = Some route
    /\ Get (HttpMethodsMap route) "POST" = Some "New"
    /\ Get (HttpMethodsMap route) "GET" = Some "Old".
Proof.
  destruct (Mount_last_registration_wins "/kng/list"
              (Re.mkPattern "kng/list" [Re.literal_items "kng/list"]) []
              "Old" ["GET"; "POST"] "New" ["POST"] RocketRouter_init
              eq_refl eq_refl eq_refl) as (route & Hget & Hnew & Hold).
  exists route. split; [exact Hget|]. split.
  - apply Hnew. simpl. tauto.
  - apply Hold; simpl; [tauto|]. intros [H|[]]. discriminate.
Defined.

(* ================================================================== *)
(** * The singleton metaclass *)

Module SingletonFacts.
Import SingletonMeta.
Section SingletonFacts.
Context {Cls Args E : Type}.
Variable Cls_eqb : Cls -> Cls -> bool.
Variable init : Cls -> Args -> option E.
Variable no_args : Args.
Hypothesis Cls_eqb_spec : forall a b, Cls_eqb a b = true <-> a = b.

Let World : Type := @SingletonMeta.World Cls Args.
Let Obj : Type := @SingletonMeta.Object Cls Args.

Lemma Cls_eqb_refl c : Cls_eqb c c = true.
Proof. now apply Cls_eqb_spec. Qed.

Lemma Cls_eqb_left a b c : Cls_eqb a b = true -> Cls_eqb a c = Cls_eqb b c.
Proof. intros H. apply Cls_eqb_spec in H. now subst. Qed.

Lemma get_del_same (d : list (Cls * Obj)) c :
  Dict.wf Cls_eqb d -> Dict.get Cls_eqb (del Cls_eqb d c) c = None.
Proof.
  induction d as [|[k v] d IH]; simpl; [reflexivity|].
  intros [Hfresh Hwf]. destruct (Cls_eqb k c) eqn:E0.
  - apply Cls_eqb_spec in E0. now subst.
  - simpl. rewrite E0. auto.
Qed.

Lemma get_del_other (d : list (Cls * Obj)) c c' :
  Cls_eqb c c' = false ->
  Dict.get Cls_eqb (del Cls_eqb d c) c' = Dict.get Cls_eqb d c'.
Proof.
  intros Hne. induction d as [|[k v] d IH]; simpl; [reflexivity|].
  destruct (Cls_eqb k c) eqn:E0.
  - apply Cls_eqb_spec in E0. subst k. now rewrite Hne.
  - simpl. now rewrite IH.
Qed.

Lemma del_In (d : list (Cls * Obj)) c a b :
  In (a, b) (del Cls_eqb d c) -> In (a, b) d.
Proof.
  induction d as [|[k v] d IH]; simpl; [auto|].
  destruct (Cls_eqb k c); simpl; intuition.
Qed.

(** X18.  There is one instance: once [Init] has returned an object for a
    class, every later [Init] (whatever its arguments) and every [Instance]
    return that same object and construct nothing; the later [Init] only
    adds a warning. *)
Theorem Init_gives_the_instance cls args (w : World) o :
  fst (Init Cls_eqb init cls args w) = Ok o ->
  let w1 := snd (Init Cls_eqb init cls args w) in
  (forall args',
     Init Cls_eqb init cls args' w1
     = (Ok o,
        mkWorld (instances w1) (created w1)
          (warnings w1 ++
           ["Object already has been initialized at an earlier time. Handeled init() as instance()."])))
  /\ Instance Cls_eqb init no_args cls w1 = (Ok o, w1).
Proof.
  intros Hret w1.
  assert (Hget : Dict.get Cls_eqb (instances w1) cls = Some o).
  { subst w1. revert Hret. unfold Init.
    destruct (Dict.get Cls_eqb (instances w) cls) as [o0|] eqn:Hg; simpl.
    - intros [= <-]. exact Hg.
    - destruct (init cls args); simpl; [discriminate|].
      intros [= <-]. apply DictFacts.get_set_same. exact Cls_eqb_refl. }
  split.
  - intros args'. unfold Init. now rewrite Hget.
  - unfold Instance. now rewrite Hget.
Qed.

Lemma get_Delete_same cls (w : World) :
  Dict.wf Cls_eqb (instances w) ->
  Dict.get Cls_eqb (instances (snd (Delete (E := E) Cls_eqb cls w))) cls = None.
Proof.
  intros Hwf. unfold Delete.
  destruct (Dict.get Cls_eqb (instances w) cls) eqn:Hg; simpl; [|exact Hg].
  now apply get_del_same.
Qed.

(** X19.  [Delete] forgets the instance of its class and nothing else:
    afterwards the class has no instance (so a second [Delete] changes
    nothing), and every other class has the instance it had. *)
Theorem Delete_forgets cls (w : World) :
  Dict.wf Cls_eqb (instances w) ->
  let w1 := snd (Delete (E := E) Cls_eqb cls w) in
  Dict.get Cls_eqb (instances w1) cls = None
  /\ Delete (E := E) Cls_eqb cls w1 = (Ok tt, w1)
  /\ forall other, other <> cls ->
       Dict.get Cls_eqb (instances w1) other = Dict.get Cls_eqb (instances w) other.
Proof.
  intros Hwf w1.
  assert (Hnone : Dict.get Cls_eqb (instances w1) cls = None)
    by (subst w1; now apply get_Delete_same).
  split; [exact Hnone|]. split.
  - unfold Delete. now rewrite Hnone.
  - intros other Hne. subst w1. unfold Delete.
    destruct (Dict.get Cls_eqb (instances w) cls); simpl; [|reflexivity].
    apply get_del_other. destruct (Cls_eqb cls other) eqn:E0; [|reflexivity].
    apply Cls_eqb_spec in E0. congruence.
Qed.

(** X20.  [ForceInit] replaces the instance: when the constructor returns,
    the result is an object that did not exist before, built from the given
    arguments, and it is the instance of the class from then on; when the
    constructor raises, the exception comes out and the class is left with no
    instance at all (the old one is already deleted). *)
Theorem ForceInit_replaces cls args (w : World) :
  Dict.wf Cls_eqb (instances w) -> fresh w ->
  let r := ForceInit Cls_eqb init cls args w in
  (init cls args = None ->
   exists o,
     fst r = Ok o /\ init_args o = args /\ class_of o = cls
     /\ (forall c old, In (c, old) (instances w) -> identity old <> identity o)
     /\ Dict.get Cls_eqb (instances (snd r)) cls = Some o)
  /\ (forall e, init cls args = Some e ->
        fst r = Err (InitError e)
        /\ Dict.get Cls_eqb (instances (snd r)) cls = None).
Proof.
  intros Hwf Hfresh r.
  pose proof (get_Delete_same cls w Hwf) as Hnone.
  assert (Hin : forall c old, In (c, old) (instances (snd (Delete (E := E) Cls_eqb cls w))) ->
                              In (c, old) (instances w)).
  { intros c old. unfold Delete.
    destruct (Dict.get Cls_eqb (instances w) cls); simpl; [apply del_In | auto]. }
  assert (Hcreated : created (snd (Delete (E := E) Cls_eqb cls w)) = created w).
  { unfold Delete. now destruct (Dict.get Cls_eqb (instances w) cls). }
  subst r. unfold ForceInit, Init. rewrite Hnone. split.
  - intros ->. eexists. simpl. repeat split.
    + intros c old Hold. cbn [identity]. rewrite Hcreated.
      specialize (Hfresh c old Hold). lia.
    + apply DictFacts.get_set_same. exact Cls_eqb_refl.
  - intros e ->. simpl. split; [reflexivity | exact Hnone].
Qed.

(** X21.  The constructor of a singleton class is not public: calling the
    class raises [TypeError] naming the class, and [Init], [Instance] and
    [ForceInit] on one class leave the instance of every other class as it
    is. *)
Theorem singleton_classes_separate qualified_name cls args (w : World) other :
  other <> cls ->
  call (E := E) qualified_name cls args w
  = (Err (TypeError (qualified_name cls ++ " has no public constructor")), w)
  /\ Dict.get Cls_eqb (instances (snd (Init Cls_eqb init cls args w))) other
     = Dict.get Cls_eqb (instances w) other
  /\ Dict.get Cls_eqb (instances (snd (Instance Cls_eqb init no_args cls w))) other
     = Dict.get Cls_eqb (instances w) other
  /\ Dict.get Cls_eqb (instances (snd (ForceInit Cls_eqb init cls args w))) other
     = Dict.get Cls_eqb (instances w) other.
Proof.
  intros Hne.
  assert (Hneq : Cls_eqb cls other = false).
  { destruct (Cls_eqb cls other) eqn:E0; [|reflexivity].
    apply Cls_eqb_spec in E0. congruence. }
  assert (HInit : forall a (w0 : World),
             Dict.get Cls_eqb (instances (snd (Init Cls_eqb init cls a w0))) other
             = Dict.get Cls_eqb (instances w0) other).
  { intros a w0. unfold Init.
    destruct (Dict.get Cls_eqb (instances w0) cls); simpl; [reflexivity|].
    destruct (init cls a); simpl; [reflexivity|].
    apply DictFacts.get_set_other; [exact Cls_eqb_left | exact Hneq]. }
  split; [reflexivity|]. split; [apply HInit|]. split.
  - unfold Instance. destruct (Dict.get Cls_eqb (instances w) cls); [reflexivity | apply HInit].
  - unfold ForceInit. rewrite HInit. unfold Delete.
    destruct (Dict.get Cls_eqb (instances w) cls); simpl; [|reflexivity].
    now apply get_del_other.
Qed.

End SingletonFacts.
End SingletonFacts.

(** The application context as the only singleton class, on a fresh
    process. *)
Lemma Init_gives_the_instance_witness :
  let w1 := snd (SingletonMeta.Init (E := string) String.eqb (fun _ _ => None)
                   "ApplicationContext" ["ppw.yml"] (SingletonMeta.mkWorld [] 0 [])) in
  SingletonMeta.Instance (E := string) String.eqb (fun _ _ => None) [] "ApplicationContext" w1
  = (SingletonMeta.Ok (SingletonMeta.mkObject 0 "ApplicationContext" ["ppw.yml"]), w1).
Proof.
  intros w1.
  exact (proj2 (SingletonFacts.Init_gives_the_instance String.eqb (fun _ _ => None) []
                  String.eqb_eq "ApplicationContext" ["ppw.yml"]
                  (SingletonMeta.mkWorld [] 0 []) _ eq_refl)).
Defined.

Lemma Delete_forgets_witness :
  Dict.get String.eqb
    (SingletonMeta.instances
       (snd (SingletonMeta.Delete (Args := list string) (E := string) String.eqb "A"
               (SingletonMeta.mkWorld
                  [("A", SingletonMeta.mkObject 0 "A" []);
                   ("B", SingletonMeta.mkObject 1 "B" [])] 2 []))))
    "A" = None.
Proof.
  apply (SingletonFacts.Delete_forgets (E := string) String.eqb String.eqb_eq "A").
  simpl. tauto.
Defined.

Lemma ForceInit_replaces_witness :
  exists o,
    fst (SingletonMeta.ForceInit (E := string) String.eqb (fun _ _ => None) "A" ["x"]
           (SingletonMeta.mkWorld [("A", SingletonMeta.mkObject 0 "A" [])] 1 []))
    = SingletonMeta.Ok o
    /\ SingletonMeta.init_args o = ["x"].
Proof.
  assert (Hf : SingletonMeta.fresh
                 (SingletonMeta.mkWorld [("A", SingletonMeta.mkObject 0 "A" ([] : list string))]
                    1 [])).
  { intros c o [[= <- <-] | []]. simpl. lia. }
  destruct (proj1 (SingletonFacts.ForceInit_replaces (E := string) String.eqb
                     (fun _ _ => None) [] String.eqb_eq "A" ["x"]
                     (SingletonMeta.mkWorld
                        [("A", SingletonMeta.mkObject 0 "A" ([] : list string))] 1 [])
                     (conj eq_refl I) Hf)
              eq_refl) as (o & Hok & Hargs & _).
  exists o. split; assumption.
Defined.

Lemma singleton_classes_separate_witness :
  Dict.get String.eqb
    (SingletonMeta.instances
       (snd (SingletonMeta.ForceInit (E := string) String.eqb (fun _ _ => None) "A" ["x"]
               (SingletonMeta.mkWorld
                  [("A", SingletonMeta.mkObject 0 "A" []);
                   ("B", SingletonMeta.mkObject 1 "B" [])] 2 []))))
    "B" = Some (SingletonMeta.mkObject 1 "B" []).
Proof.
  destruct (SingletonFacts.singleton_classes_separate (E := string) String.eqb
              (fun _ _ => None) [] String.eqb_eq (fun c => c) "A" ["x"]
              (SingletonMeta.mkWorld
                 [("A", SingletonMeta.mkObject 0 "A" []);
                  ("B", SingletonMeta.mkObject 1 "B" [])] 2 [])
              "B") as (_ & _ & _ & H); [discriminate|].
  rewrite H. reflexivity.
Defined.

(* ================================================================== *)
(** * Serving a request *)

Module ServingFacts.
Import Serving.

Section ServingFacts.
Variable Response : Type.
Variable invoke : FunctionType -> list (string * PyValue) -> Response.
Variable request : Request.
Variable now : string.

Let HandleFunc := HandleFunc Response invoke request now.

(** X22. How a request ends.  [HandleFunc] either answers with the result of
    the handler that [Match] resolved, called with the variables [Match]
    cast, and logs nothing above the debug level; or it aborts with the
    status of the error [Match] returned, which is 404, 405 or 300, with a
    body that carries that status, its title and the message of the error,
    [success] false, after logging one line, a warning for 404 and 405 and
    an information for 300; or the [ValueError] or [IndexError] that [Match]
    raised leaves it uncaught.  The routes are the same afterwards. *)
Theorem HandleFunc_outcomes routePath httpApiFunc s :
  router (process (snd (HandleFunc routePath httpApiFunc s))) = router (process s)
  /\ ((exists call,
         fst (Match routePath httpApiFunc
                (process (PrintDebugInformationOnRequest request s)))
         = Return (Some call, None)
         /\ fst (HandleFunc routePath httpApiFunc s)
            = Responded (invoke (Function call) (Vars call))
         /\ Io_Log (snd (HandleFunc routePath httpApiFunc s)) = Io_Log s)
      \/ (exists e body line,
            fst (Match routePath httpApiFunc
                   (process (PrintDebugInformationOnRequest request s)))
            = Return (None, Some e)
            /\ fst (HandleFunc routePath httpApiFunc s)
               = Aborted (HttpStatus_value (Status e)) body
            /\ In (HttpStatus_value (Status e), http_name body)
                 [(404, "Not Found"); (405, "Method Not Allowed");
                  (300, "Multiple Choices")]%Z
            /\ http_code body = HttpStatus_value (Status e)
            /\ error_message body = Msg e
            /\ success body = false
            /\ Io_Log (snd (HandleFunc routePath httpApiFunc s))
               = Io_Log s
                 ++ [(if (HttpStatus_value (Status e) =? 300)%Z then INFO else WARNING,
                      line)])
      \/ ((fst (HandleFunc routePath httpApiFunc s) = Failed ValueError
           \/ fst (HandleFunc routePath httpApiFunc s) = Failed IndexError)
          /\ Io_Log (snd (HandleFunc routePath httpApiFunc s)) = Io_Log s)).
Proof.
  assert (Hcast : forall vars modules acc,
             (exists d, cast_variables vars modules acc = Return d)
             \/ cast_variables vars modules acc = Raise ValueError
             \/ cast_variables vars modules acc = Raise IndexError).
  { induction vars as [|var vars IH]; intros modules acc; simpl.
    - left. now eexists.
    - destruct (nth_error modules (Index var)); [|tauto].
      destruct (construct (Class var) s0); [apply IH | tauto]. }
  unfold HandleFunc, Serving.HandleFunc, RespondWithError, PrintDebugInformationOnRequest,
    debug, log.
  unfold Match, bind, gets, ret, raise, lift, Debug, modify.
  cbn [process router Io_Debug Io_Log].
  destruct (matching_templates (routes (router (process s))) routePath)
    as [|template [|other rest]].
  - cbn. split; [reflexivity|]. right. left.
    eexists _, _, _. repeat split. simpl. tauto.
  - cbn [List.length Nat.eqb negb].
    destruct (Hcast (TemplatedPathVariables template) (Py.split "/" routePath) [])
      as [[d ->] | [-> | ->]].
    + destruct (Get (HttpMethodsMap template) httpApiFunc).
      * cbn. split; [reflexivity|]. left. eexists. repeat split.
      * cbn. split; [reflexivity|]. right. left.
        eexists _, _, _. repeat split. simpl. tauto.
    + cbn. split; [reflexivity|]. right. right. split; [now left | reflexivity].
    + cbn. split; [reflexivity|]. right. right. split; [now right | reflexivity].
  - cbn. split; [reflexivity|]. right. left.
    eexists _, _, _. repeat split. simpl. tauto.
Qed.

(** X23. A path that no mounted pattern matches is answered with 404: the
    request is aborted with status 404 and the body
    [{tod, success: false, error: {type: HTTPException, message: no matching
    routes could be found, http_name: Not Found, http_code: 404}}], one
    warning is logged, ending in [- 404], and no handler is called. *)
Theorem HandleFunc_unknown_path routePath httpApiFunc s :
  matching_templates (routes (router (process s))) routePath = [] ->
  fst (HandleFunc routePath httpApiFunc s)
  = Aborted 404
      (mkErrorBody now false "HTTPException" "no matching routes could be found"
         "Not Found" 404)
  /\ Io_Log (snd (HandleFunc routePath httpApiFunc s))
     = Io_Log s
       ++ [(WARNING,
            (method request ++ " " ++ path request ++ " " ++ scheme request ++ ", "
             ++ remote_addr request ++ " - 404")%string)].
Proof.
  intros Hnone.
  unfold HandleFunc, Serving.HandleFunc, RespondWithError, PrintDebugInformationOnRequest,
    debug, log.
  unfold Match, bind, gets, ret, raise, lift, Debug, modify.
  cbn [process router Io_Debug Io_Log].
  rewrite Hnone. cbn. split; reflexivity.
Qed.

End ServingFacts.
End ServingFacts.

Lemma HandleFunc_unknown_path_witness :
  matching_templates
    (routes (router (Serving.process (Serving.mkServer (serving main_router) []))))
    "kng/unknown" = []
  /\ fst (Serving.HandleFunc string (fun f _ => f)
            (Serving.mkRequest "GET" "/api/v1/kng/unknown" "http" "127.0.0.1")
            "2023-01-01T00:00:00" "kng/unknown" "GET"
            (Serving.mkServer (serving main_router) []))
     = Serving.Aborted 404
         (Serving.mkErrorBody "2023-01-01T00:00:00" false "HTTPException"
            "no matching routes could be found" "Not Found" 404).
Proof.
  split; [vm_compute; reflexivity|].
  apply (ServingFacts.HandleFunc_unknown_path string (fun f _ => f)
           (Serving.mkRequest "GET" "/api/v1/kng/unknown" "http" "127.0.0.1")
           "2023-01-01T00:00:00" "kng/unknown" "GET"
           (Serving.mkServer (serving main_router) [])).
  vm_compute. reflexivity.
Defined.
